(** * DataManager server: file entities, update orchestration and upload

    A shallow embedding of [models/File.go] (the [File] entity and its
    self-persisting methods), [handlers/FileHandler.go] (upload and update
    handlers), [handlers/PreviewHandler.go], and the [downloadHTTP] and
    [BufferedCopy] helpers.

    The relational store behind [*gorm.DB] is a record of tables. The
    many-to-many rows [files_tags] / [files_groups] of a file are kept with
    its row (fields [Tags] / [Groups] of the stored row). The directory of
    content blobs is an association list from local names to bytes. *)

From Stdlib Require Import List String Ascii Bool Arith ZArith Lia.
From Stdlib Require Import Init.Byte DecimalString.
From Equations Require Import Equations.
Import ListNotations.
Open Scope string_scope.
Open Scope list_scope.
Open Scope nat_scope.

(** ** Entities *)

Module Namespace.
Record t := mk { ID : nat; Name : string; UserID : nat }.
End Namespace.

Module Tag.
Record t := mk { ID : nat; Name : string; NamespaceID : nat; UserID : nat }.
End Tag.

Module Group.
Record t := mk { ID : nat; Name : string; NamespaceID : nat; UserID : nat }.
End Group.

(** The capabilities of a role, as the handlers query them through the
    methods of [User]. *)
Module User.
Record t := mk {
  ID : nat;
  CanUploadFiles : bool;
  AllowedToUploadURLs : bool;
  CanWriteForeignNamespace : bool;
  HasUploadLimit : bool;
  MaxURLcontentSize : Z }.
End User.

(** [gorm.Model] contributes [ID] and [DeletedAt] (soft delete);
    [sql.NullString] is an [option string] ([Valid: false] is [None]). *)
Module File.
Record t := mk {
  ID : nat;
  DeletedAt : bool;
  Name : string;
  LocalName : string;
  User : option User.t;
  UserID : nat;
  FileSize : Z;
  FileType : string;
  IsPublic : bool;
  PublicFilename : option string;
  Groups : list Group.t;
  Tags : list Tag.t;
  Namespace : option Namespace.t;
  NamespaceID : nat }.

Definition setID (f : t) (v : nat) : t :=
  mk v (DeletedAt f) (Name f) (LocalName f) (User f) (UserID f) (FileSize f)
     (FileType f) (IsPublic f) (PublicFilename f) (Groups f) (Tags f)
     (Namespace f) (NamespaceID f).
Definition setDeletedAt (f : t) (v : bool) : t :=
  mk (ID f) v (Name f) (LocalName f) (User f) (UserID f) (FileSize f)
     (FileType f) (IsPublic f) (PublicFilename f) (Groups f) (Tags f)
     (Namespace f) (NamespaceID f).
Definition setName (f : t) (v : string) : t :=
  mk (ID f) (DeletedAt f) v (LocalName f) (User f) (UserID f) (FileSize f)
     (FileType f) (IsPublic f) (PublicFilename f) (Groups f) (Tags f)
     (Namespace f) (NamespaceID f).
Definition setLocalName (f : t) (v : string) : t :=
  mk (ID f) (DeletedAt f) (Name f) v (User f) (UserID f) (FileSize f)
     (FileType f) (IsPublic f) (PublicFilename f) (Groups f) (Tags f)
     (Namespace f) (NamespaceID f).
Definition setUser (f : t) (v : option User.t) : t :=
  mk (ID f) (DeletedAt f) (Name f) (LocalName f) v (UserID f) (FileSize f)
     (FileType f) (IsPublic f) (PublicFilename f) (Groups f) (Tags f)
     (Namespace f) (NamespaceID f).
Definition setUserID (f : t) (v : nat) : t :=
  mk (ID f) (DeletedAt f) (Name f) (LocalName f) (User f) v (FileSize f)
     (FileType f) (IsPublic f) (PublicFilename f) (Groups f) (Tags f)
     (Namespace f) (NamespaceID f).
Definition setFileSize (f : t) (v : Z) : t :=
  mk (ID f) (DeletedAt f) (Name f) (LocalName f) (User f) (UserID f) v
     (FileType f) (IsPublic f) (PublicFilename f) (Groups f) (Tags f)
     (Namespace f) (NamespaceID f).
Definition setIsPublic (f : t) (v : bool) : t :=
  mk (ID f) (DeletedAt f) (Name f) (LocalName f) (User f) (UserID f)
     (FileSize f) (FileType f) v (PublicFilename f) (Groups f) (Tags f)
     (Namespace f) (NamespaceID f).
Definition setPublicFilename (f : t) (v : option string) : t :=
  mk (ID f) (DeletedAt f) (Name f) (LocalName f) (User f) (UserID f)
     (FileSize f) (FileType f) (IsPublic f) v (Groups f) (Tags f)
     (Namespace f) (NamespaceID f).
Definition setGroups (f : t) (v : list Group.t) : t :=
  mk (ID f) (DeletedAt f) (Name f) (LocalName f) (User f) (UserID f)
     (FileSize f) (FileType f) (IsPublic f) (PublicFilename f) v (Tags f)
     (Namespace f) (NamespaceID f).
Definition setTags (f : t) (v : list Tag.t) : t :=
  mk (ID f) (DeletedAt f) (Name f) (LocalName f) (User f) (UserID f)
     (FileSize f) (FileType f) (IsPublic f) (PublicFilename f) (Groups f) v
     (Namespace f) (NamespaceID f).
Definition setNamespace (f : t) (v : option Namespace.t) : t :=
  mk (ID f) (DeletedAt f) (Name f) (LocalName f) (User f) (UserID f)
     (FileSize f) (FileType f) (IsPublic f) (PublicFilename f) (Groups f)
     (Tags f) v (NamespaceID f).
Definition setNamespaceID (f : t) (v : nat) : t :=
  mk (ID f) (DeletedAt f) (Name f) (LocalName f) (User f) (UserID f)
     (FileSize f) (FileType f) (IsPublic f) (PublicFilename f) (Groups f)
     (Tags f) (Namespace f) v.

(** The zero value [models.File{}]. *)
Definition zero : t :=
  mk 0 false "" "" None 0 0%Z "" false None [] [] None 0.
End File.

Inductive error : Type :=
| ErrStore            (* the store refused a statement *)
| ErrRecordNotFound   (* gorm.ErrRecordNotFound *)
| ErrFileTooLarge     (* errors.New("File too large") *)
| ErrHTTP             (* http.Get failed *)
| ErrIO.              (* a file system or stream operation failed *)

(** [LogError]: true on error. *)
Definition LogError (err : option error) : bool :=
  match err with Some _ => true | None => false end.

(** ** The store *)

(** [db_faults] scripts the outcome of the write statements to come: the
    head decides the next one ([true]: the store refuses it), and an empty
    script means that every further write is accepted. Queries always
    answer. *)
Record DB := mkDB {
  db_files : list File.t;
  db_tags : list Tag.t;
  db_groups : list Group.t;
  db_namespaces : list Namespace.t;
  db_faults : list bool }.

Definition setFiles (db : DB) (v : list File.t) : DB :=
  mkDB v (db_tags db) (db_groups db) (db_namespaces db) (db_faults db).
Definition setTagRows (db : DB) (v : list Tag.t) : DB :=
  mkDB (db_files db) v (db_groups db) (db_namespaces db) (db_faults db).
Definition setGroupRows (db : DB) (v : list Group.t) : DB :=
  mkDB (db_files db) (db_tags db) v (db_namespaces db) (db_faults db).
Definition setFaults (db : DB) (v : list bool) : DB :=
  mkDB (db_files db) (db_tags db) (db_groups db) (db_namespaces db) v.

(** One write statement reaches the store: is it accepted? *)
Definition accept (db : DB) : bool * DB :=
  match db_faults db with
  | [] => (true, db)
  | refused :: rest => (negb refused, setFaults db rest)
  end.

(** Rows visible to a query on a model with [gorm.Model]:
    [deleted_at IS NULL]. *)
Definition live (r : File.t) : bool := negb (File.DeletedAt r).

(** gorm skips the zero-valued fields of a struct condition
    ([Where(&File{Name: n})] with [n = ""] does not constrain the name). *)
Definition condStr (v col : string) : bool :=
  (String.length v =? 0) || String.eqb col v.
Definition condID (v col : nat) : bool := (v =? 0) || (col =? v).

(** [First]: the matching row with the smallest primary key. *)
Fixpoint firstByID (rows : list File.t) : option File.t :=
  match rows with
  | [] => None
  | r :: rs =>
      match firstByID rs with
      | None => Some r
      | Some m => if File.ID r <=? File.ID m then Some r else Some m
      end
  end.

Definition selectFiles (db : DB) (cond : File.t -> bool) : list File.t :=
  filter (fun r => live r && cond r) (db_files db).

(** Without [Preload] the associations of a result are empty. *)
Definition bare (r : File.t) : File.t :=
  File.setNamespace (File.setUser (File.setTags (File.setGroups r []) []) None) None.

Definition findNamespaceByID (db : DB) (id : nat) : option Namespace.t :=
  find (fun n => Namespace.ID n =? id) (db_namespaces db).

(** [Preload("Namespace").Preload("Tags").Preload("Groups")]. *)
Definition preloaded (db : DB) (r : File.t) : File.t :=
  File.setNamespace (File.setUser r None) (findNamespaceByID db (File.NamespaceID r)).

Definition nextID (ids : list nat) : nat := S (list_max ids).

(** Saving the references of a belongs-to association copies its key into
    the foreign-key column. *)
Definition syncKeys (f : File.t) : File.t :=
  let f1 := match File.Namespace f with
            | Some n => File.setNamespaceID f (Namespace.ID n)
            | None => f
            end in
  match File.User f1 with
  | Some u => File.setUserID f1 (User.ID u)
  | None => f1
  end.

(** The stored form of a file: columns and association rows. *)
Definition rowOf (f : File.t) : File.t :=
  File.setNamespace (File.setUser (syncKeys f) None) None.

(** [db.Create(file)]. *)
Definition Create (db : DB) (f : File.t) : option error * File.t * DB :=
  let (ok, db1) := accept db in
  if ok then
    let id := if File.ID f =? 0 then nextID (map File.ID (db_files db)) else File.ID f in
    let f' := syncKeys (File.setID f id) in
    (None, f', setFiles db1 (db_files db1 ++ [rowOf f']))
  else (Some ErrStore, f, db1).

(** Saving a many-to-many association adds the missing join rows and removes
    none. *)
Definition addTagRefs (old new : list Tag.t) : list Tag.t :=
  old ++ filter (fun t => negb (existsb (fun o => Tag.ID o =? Tag.ID t) old)) new.
Definition addGroupRefs (old new : list Group.t) : list Group.t :=
  old ++ filter (fun g => negb (existsb (fun o => Group.ID o =? Group.ID g) old)) new.

Definition updateRow (r f : File.t) : File.t :=
  File.setGroups (File.setTags (rowOf f) (addTagRefs (File.Tags r) (File.Tags f)))
                 (addGroupRefs (File.Groups r) (File.Groups f)).

Definition isRow (id : nat) (r : File.t) : bool := live r && (File.ID r =? id).

(** [db.Save(file)]: an insert when the primary key is zero, else an update
    of the live row with that key (an insert when there is none). *)
Definition dbSave (db : DB) (f : File.t) : option error * File.t * DB :=
  if File.ID f =? 0 then Create db f
  else
    let (ok, db1) := accept db in
    if ok then
      let f' := syncKeys f in
      if existsb (isRow (File.ID f)) (db_files db1) then
        (None, f', setFiles db1 (map (fun r => if isRow (File.ID f) r then updateRow r f' else r)
                                     (db_files db1)))
      else (None, f', setFiles db1 (db_files db1 ++ [rowOf f']))
    else (Some ErrStore, f, db1).

(** [db.Model(&file).Association("Tags").Clear()]; its result is dropped by
    every caller. *)
Definition clearTags (db : DB) (f : File.t) : DB :=
  let (ok, db1) := accept db in
  if ok then
    setFiles db1 (map (fun r => if isRow (File.ID f) r then File.setTags r [] else r)
                      (db_files db1))
  else db1.
Definition clearGroups (db : DB) (f : File.t) : DB :=
  let (ok, db1) := accept db in
  if ok then
    setFiles db1 (map (fun r => if isRow (File.ID f) r then File.setGroups r [] else r)
                      (db_files db1))
  else db1.

(** [db.Delete(&file)]: the soft delete of the row with the file's key. *)
Definition dbDelete (db : DB) (f : File.t) : option error * DB :=
  let (ok, db1) := accept db in
  if ok then
    (None, setFiles db1 (map (fun r => if isRow (File.ID f) r then File.setDeletedAt r true else r)
                             (db_files db1)))
  else (Some ErrStore, db1).

(** ** Content storage *)

Definition Storage := list (string * list byte).

Fixpoint readBlob (fs : Storage) (name : string) : option (list byte) :=
  match fs with
  | [] => None
  | (n, c) :: rest => if String.eqb n name then Some c else readBlob rest name
  end.

Definition hasBlob (fs : Storage) (name : string) : bool :=
  match readBlob fs name with Some _ => true | None => false end.

Definition removeBlob (fs : Storage) (name : string) : Storage :=
  filter (fun e => negb (String.eqb (fst e) name)) fs.

(** [os.Create]: the file exists and is empty afterwards. *)
Definition createBlob (fs : Storage) (name : string) : Storage :=
  (name, []) :: removeBlob fs name.

(** Writing through the handle returned by [os.Create]. *)
Definition appendBlob (fs : Storage) (name : string) (data : list byte) : Storage :=
  match readBlob fs name with
  | Some c => (name, c ++ data) :: removeBlob fs name
  | None => fs
  end.

(** ** [models/File.go] *)

(** [File.Save]. *)
Definition Save (db : DB) (file : File.t) : option error * File.t * DB :=
  dbSave db file.

(** [GetPublicFile]: the live row whose [public_filename] is the given
    name; the query itself does not fail here, so the error is [nil]. *)
Definition GetPublicFile (db : DB) (publicFilename : string)
  : option File.t * bool * option error :=
  match firstByID (selectFiles db (fun r =>
          match File.PublicFilename r with
          | Some s => String.eqb s publicFilename
          | None => false
          end)) with
  | None => (None, false, None)
  | Some r => (Some (bare r), true, None)
  end.

(** [File.Rename]. *)
Definition Rename (db : DB) (file : File.t) (newName : string)
  : option error * File.t * DB :=
  Save db (File.setName file newName).

(** [File.SetVilibility]. *)
Definition SetVilibility (db : DB) (file : File.t) (newVisibility : bool)
  : option error * File.t * DB :=
  Save db (File.setIsPublic file newVisibility).

(** [File.Publish]; [rand25] is the value [gaw.RandString(25)] would draw. *)
Definition Publish (db : DB) (file : File.t) (publicName rand25 : string)
  : bool * option error * File.t * DB :=
  let publicName := if String.length publicName =? 0 then rand25 else publicName in
  let file := File.setPublicFilename file (Some publicName) in
  let file := File.setIsPublic file true in
  let '(_, found, _) := GetPublicFile db publicName in
  if found then (true, None, file, db)
  else
    let '(err, file, db) := Save db file in
    (false, err, file, db).

(** [gaw.IsInStringArray]. *)
Definition IsInStringArray (s : string) (arr : list string) : bool :=
  existsb (String.eqb s) arr.

(** [File.HasTag] and [File.HasGroup]. *)
Definition HasTag (file : File.t) (sTag : string) : bool :=
  existsb (fun tag => String.eqb (Tag.Name tag) sTag) (File.Tags file).
Definition HasGroup (file : File.t) (sGroup : string) : bool :=
  existsb (fun group => String.eqb (Group.Name group) sGroup) (File.Groups file).

(** [Find] into a single struct: every matching row is scanned into it in
    turn, so the last one stays; no row is [ErrRecordNotFound]. *)
Definition findTagByName (db : DB) (name : string) : option Tag.t :=
  last (map Some (filter (fun t => condStr name (Tag.Name t)) (db_tags db))) None.
Definition findGroupByName (db : DB) (name : string) : option Group.t :=
  last (map Some (filter (fun g => condStr name (Group.Name g)) (db_groups db))) None.

(** Modelled from the spec: [Tag.Insert] is not part of the sources at hand;
    the spec's catalog creates an absent name "with the given
    namespace/owner". The new row gets the next primary key. *)
Definition TagInsert (db : DB) (tag : Tag.t) (user : User.t) : Tag.t * DB :=
  let row := Tag.mk (nextID (map Tag.ID (db_tags db))) (Tag.Name tag)
                    (Tag.NamespaceID tag) (User.ID user) in
  (row, setTagRows db (db_tags db ++ [row])).

(** Modelled from the spec: [Group.Insert], as [TagInsert]. *)
Definition GroupInsert (db : DB) (group : Group.t) (user : User.t) : Group.t * DB :=
  let row := Group.mk (nextID (map Group.ID (db_groups db))) (Group.Name group)
                      (Group.NamespaceID group) (User.ID user) in
  (row, setGroupRows db (db_groups db ++ [row])).

(** Modelled from the spec: [GetTag] is not part of the sources at hand; the
    spec's catalog looks a name up "by (name, namespace); if absent, create
    with the given namespace/owner". *)
Definition GetTag (db : DB) (name : string) (namespace : Namespace.t) (user : User.t)
  : Tag.t * DB :=
  match find (fun t => String.eqb (Tag.Name t) name
                       && (Tag.NamespaceID t =? Namespace.ID namespace)) (db_tags db) with
  | Some row => (row, db)
  | None => TagInsert db (Tag.mk 0 name (Namespace.ID namespace) (User.ID user)) user
  end.

(** Modelled from the spec: [GetGroup], as [GetTag]. *)
Definition GetGroup (db : DB) (name : string) (namespace : Namespace.t) (user : User.t)
  : Group.t * DB :=
  match find (fun g => String.eqb (Group.Name g) name
                       && (Group.NamespaceID g =? Namespace.ID namespace)) (db_groups db) with
  | Some row => (row, db)
  | None => GroupInsert db (Group.mk 0 name (Namespace.ID namespace) (User.ID user)) user
  end.

(** Modelled from the spec: [TagsFromStringArr] / [GroupsFromStringArr] are
    not part of the sources at hand; they turn the requested names into
    drafts (no primary key yet) of the given namespace and owner. *)
Definition TagsFromStringArr (arr : list string) (namespace : Namespace.t) (user : User.t)
  : list Tag.t :=
  map (fun n => Tag.mk 0 n (Namespace.ID namespace) (User.ID user)) arr.
Definition GroupsFromStringArr (arr : list string) (namespace : Namespace.t) (user : User.t)
  : list Group.t :=
  map (fun n => Group.mk 0 n (Namespace.ID namespace) (User.ID user)) arr.

(** Modelled from the spec: [Namespace.IsOwnedBy]. *)
Definition IsOwnedBy (namespace : Namespace.t) (user : User.t) : bool :=
  Namespace.UserID namespace =? User.ID user.

(** The first loop of [File.Insert]: a group without primary key is looked
    up by its name alone, and inserted when the lookup finds nothing. *)
Fixpoint insertGroups (db : DB) (user : User.t) (groups : list Group.t)
  : list Group.t * DB :=
  match groups with
  | [] => ([], db)
  | g :: rest =>
      let (g', db1) :=
        if Group.ID g =? 0 then
          match findGroupByName db (Group.Name g) with
          | Some row => (row, db)
          | None => GroupInsert db g user
          end
        else (g, db) in
      let (rest', db2) := insertGroups db1 user rest in
      (g' :: rest', db2)
  end.

(** The second loop of [File.Insert], for tags. *)
Fixpoint insertTags (db : DB) (user : User.t) (tags : list Tag.t)
  : list Tag.t * DB :=
  match tags with
  | [] => ([], db)
  | t :: rest =>
      let (t', db1) :=
        if Tag.ID t =? 0 then
          match findTagByName db (Tag.Name t) with
          | Some row => (row, db)
          | None => TagInsert db t user
          end
        else (t, db) in
      let (rest', db2) := insertTags db1 user rest in
      (t' :: rest', db2)
  end.

Section Models.

(** The process-wide [DefaultNamespace]. *)
Variable DefaultNamespace : Namespace.t.

(** [File.GetNamespace]. *)
Definition GetNamespace (file : File.t) : Namespace.t :=
  match File.Namespace file with
  | None => DefaultNamespace
  | Some n => n
  end.

(** [File.Insert]. *)
Definition Insert (db : DB) (file : File.t) (user : User.t)
  : option error * File.t * DB :=
  let (groups, db) := insertGroups db user (File.Groups file) in
  let file := File.setGroups file groups in
  let (tags, db) := insertTags db user (File.Tags file) in
  let file := File.setTags file tags in
  let file := File.setNamespace file (Some (GetNamespace file)) in
  let file := File.setUser file (Some user) in
  Create db file.

(** Modelled from the spec: [FindNamespace] is not part of the sources at
    hand: "empty/omitted name resolves to the default namespace". *)
Definition FindNamespace (db : DB) (name : string) : option Namespace.t :=
  if String.length name =? 0 then Some DefaultNamespace
  else find (fun n => String.eqb (Namespace.Name n) name) (db_namespaces db).

(** The loop of [File.AddTags]; [GetTag] receives [file.Namespace], an unset
    one being read as the default namespace. *)
Fixpoint addTagsLoop (db : DB) (file : File.t) (tagsToAdd : list string) (user : User.t)
  : File.t * DB :=
  match tagsToAdd with
  | [] => (file, db)
  | sTag :: rest =>
      if HasTag file sTag then addTagsLoop db file rest user
      else
        let (tag, db1) := GetTag db sTag (GetNamespace file) user in
        addTagsLoop db1 (File.setTags file (File.Tags file ++ [tag])) rest user
  end.

(** [File.AddTags]. *)
Definition AddTags (db : DB) (file : File.t) (tagsToAdd : list string) (user : User.t)
  : option error * File.t * DB :=
  let (file, db) := addTagsLoop db file tagsToAdd user in
  Save db file.

(** The loop of [File.AddGroups], as [addTagsLoop]. *)
Fixpoint addGroupsLoop (db : DB) (file : File.t) (groupsToAdd : list string) (user : User.t)
  : File.t * DB :=
  match groupsToAdd with
  | [] => (file, db)
  | sGroup :: rest =>
      if HasGroup file sGroup then addGroupsLoop db file rest user
      else
        let (group, db1) := GetGroup db sGroup (GetNamespace file) user in
        addGroupsLoop db1 (File.setGroups file (File.Groups file ++ [group])) rest user
  end.

(** [File.AddGroups]. *)
Definition AddGroups (db : DB) (file : File.t) (groupsToAdd : list string) (user : User.t)
  : option error * File.t * DB :=
  let (file, db) := addGroupsLoop db file groupsToAdd user in
  Save db file.

End Models.

(** [File.RemoveTags]. *)
Definition RemoveTags (db : DB) (file : File.t) (tagsToRemove : list string)
  : option error * File.t * DB :=
  if List.length (File.Tags file) =? 0 then (None, file, db)
  else
    let newTags :=
      filter (fun t => negb (IsInStringArray (Tag.Name t) tagsToRemove)) (File.Tags file) in
    if List.length newTags <? List.length (File.Tags file) then
      let db := clearTags db file in
      Save db (File.setTags file newTags)
    else (None, file, db).

(** [File.RemoveGroups]; it saves the file also when no group was removed. *)
Definition RemoveGroups (db : DB) (file : File.t) (groupsToRemove : list string)
  : option error * File.t * DB :=
  if List.length (File.Groups file) =? 0 then (None, file, db)
  else
    let newGroups :=
      filter (fun g => negb (IsInStringArray (Group.Name g) groupsToRemove)) (File.Groups file) in
    if List.length newGroups <? List.length (File.Groups file) then
      let db := clearGroups db file in
      Save db (File.setGroups file newGroups)
    else Save db file.

(** [File.Delete]: [os.Remove] of a missing blob only logs a warning. *)
Definition Delete (db : DB) (fs : Storage) (file : File.t)
  : option error * File.t * DB * Storage :=
  let file := File.setIsPublic file false in
  let file := File.setPublicFilename file None in
  let '(err, file, db) := Save db file in
  if LogError err then (err, file, db, fs)
  else
    let fs := removeBlob fs (File.LocalName file) in
    let (err, db) := dbDelete db file in
    (err, file, db, fs).

(** [File.GetCount]: the struct condition uses the file's [Name] and the key
    of its namespace (passed apart here; the handler always sets it); the
    uploader is not part of it. *)
Definition GetCount (db : DB) (file : File.t) (namespace : Namespace.t) (fileID : nat) : nat :=
  List.length (selectFiles db (fun r =>
            condStr (File.Name file) (File.Name r)
            && condID (Namespace.ID namespace) (File.NamespaceID r)
            && ((fileID =? 0) || (File.ID r =? fileID)))).

(** [FindFile]. *)
Definition FindFile (db : DB) (fileName : string) (fileID : nat)
    (namespace : Namespace.t) (user : User.t) : option File.t * option error :=
  match firstByID (selectFiles db (fun r =>
          String.eqb (File.Name r) fileName
          && (File.NamespaceID r =? Namespace.ID namespace)
          && (File.UserID r =? User.ID user)
          && ((fileID =? 0) || (File.ID r =? fileID)))) with
  | None => (None, Some ErrRecordNotFound)
  | Some r => (Some (preloaded db r), None)
  end.

(** The tag loop of [File.UpdateNamespace]. *)
Fixpoint moveTags (db : DB) (tags : list Tag.t) (newNamespace : Namespace.t) (user : User.t)
  : list Tag.t * DB :=
  match tags with
  | [] => ([], db)
  | tag :: rest =>
      let (newTag, db1) := GetTag db (Tag.Name tag) newNamespace user in
      let (newTags, db2) := moveTags db1 rest newNamespace user in
      (newTag :: newTags, db2)
  end.

(** The group loop of [File.UpdateNamespace]. *)
Fixpoint moveGroups (db : DB) (groups : list Group.t) (newNamespace : Namespace.t) (user : User.t)
  : list Group.t * DB :=
  match groups with
  | [] => ([], db)
  | group :: rest =>
      let (newGroup, db1) := GetGroup db (Group.Name group) newNamespace user in
      let (newGroups, db2) := moveGroups db1 rest newNamespace user in
      (newGroup :: newGroups, db2)
  end.

(** [File.UpdateNamespace]. *)
Definition UpdateNamespace (db : DB) (file : File.t) (newNamespace : Namespace.t) (user : User.t)
  : option error * File.t * DB :=
  let file := File.setNamespace file (Some newNamespace) in
  let file := File.setNamespaceID file (Namespace.ID newNamespace) in
  let (file, db) :=
    if 0 <? List.length (File.Tags file) then
      let (newTags, db) := moveTags db (File.Tags file) newNamespace user in
      let db := clearTags db file in
      (File.setTags file newTags, db)
    else (file, db) in
  let (file, db) :=
    if 0 <? List.length (File.Groups file) then
      let (newGroups, db) := moveGroups db (File.Groups file) newNamespace user in
      let db := clearGroups db file in
      (File.setGroups file newGroups, db)
    else (file, db) in
  dbSave db file.

(** ** Requests and responses *)

Inductive ResponseStatus : Type := ResponseError | ResponseSuccess.

(** What [sendResponse] writes: the status header, the message header, the
    HTTP status code and, for an upload, the [FileID] of the payload. *)
Record Response := mkResponse {
  status : ResponseStatus;
  message : string;
  statusCode : Z;
  payload : option nat }.

(** [sendResponse]: the code is [http.StatusOK] unless one is given. *)
Definition sendResponse (st : ResponseStatus) (msg : string) (pl : option nat)
    (params : list Z) : Response :=
  mkResponse st msg (match params with [] => 200%Z | c :: _ => c end) pl.

Definition sendServerError : Response :=
  sendResponse ResponseError "internal server error" None [500%Z].

Module FileAttributes.
Record t := mk { Tags : list string; Groups : list string; Namespace : string }.
End FileAttributes.

Module Updates.
Record t := mk {
  NewName : string;
  IsPublic : string;
  NewNamespace : string;
  AddTags : list string;
  RemoveTags : list string;
  AddGroups : list string;
  RemoveGroups : list string }.
End Updates.

Module FileUpdateRequest.
Record t := mk {
  FileID : nat;
  Name : string;
  Attributes : FileAttributes.t;
  Updates : Updates.t }.
End FileUpdateRequest.

Inductive UploadType : Type :=
| FileUploadType
| URLUploadType
| UnknownUploadType.   (* any other value of the field *)

Module UploadRequest.
Record t := mk {
  UploadType : UploadType;
  Data : list byte;
  Sum : string;
  URL : string;
  Name : string;
  Attributes : FileAttributes.t }.
End UploadRequest.

(** [strconv.ParseBool]. *)
Definition ParseBool (str : string) : option bool :=
  if IsInStringArray str ["1"; "t"; "T"; "TRUE"; "true"; "True"] then Some true
  else if IsInStringArray str ["0"; "f"; "F"; "FALSE"; "false"; "False"] then Some false
  else None.

(** ** [UpdateFileHandler] *)

(** A handler step either answers the request at once or goes on. *)
Inductive outcome (A : Type) : Type :=
| Answer (r : Response) (db : DB)
| Go (a : A).
Arguments Answer {A} r db.
Arguments Go {A} a.

Definition andThen {A B : Type} (o : outcome A) (k : A -> outcome B) : outcome B :=
  match o with
  | Answer r db => Answer r db
  | Go a => k a
  end.

Notation "x <- o ;; k" := (andThen o (fun x => k))
  (at level 61, o at next level, right associativity).

(** The state the update action threads through its steps: the aggregate
    [didUpdate], the file in memory, the store. *)
Definition updState : Type := bool * File.t * DB.

Section Handlers.

Variable DefaultNamespace : Namespace.t.

Section UpdateSteps.

Variable user : User.t.
Variable update : Updates.t.

(** "Rename file". *)
Definition stepRename (st : updState) : outcome updState :=
  let '(didUpdate, file, db) := st in
  if 0 <? String.length (Updates.NewName update) then
    let '(err, file, db) := Rename db file (Updates.NewName update) in
    if LogError err then Answer sendServerError db
    else Go (true, file, db)
  else Go (didUpdate, file, db).

(** "Set public/private". *)
Definition stepVisibility (st : updState) : outcome updState :=
  let '(didUpdate, file, db) := st in
  if 0 <? String.length (Updates.IsPublic update) then
    match ParseBool (Updates.IsPublic update) with
    | None =>
        Answer (sendResponse ResponseError "isPublic must be a bool" None [422%Z]) db
    | Some newVisibility =>
        let '(err, file, db) := SetVilibility db file newVisibility in
        if LogError err then Answer sendServerError db
        else Go (true, file, db)
    end
  else Go (didUpdate, file, db).

(** "Update namespace": the body of the branch is a TODO comment. *)
Definition stepNamespace (st : updState) : outcome updState :=
  if 0 <? String.length (Updates.NewNamespace update) then Go st
  else Go st.

(** "Add tags". *)
Definition stepAddTags (st : updState) : outcome updState :=
  let '(didUpdate, file, db) := st in
  if 0 <? List.length (Updates.AddTags update) then
    let currLenTags := List.length (File.Tags file) in
    let '(err, file, db) := AddTags DefaultNamespace db file (Updates.AddTags update) user in
    if LogError err then Answer sendServerError db
    else Go (currLenTags <? List.length (File.Tags file), file, db)
  else Go (didUpdate, file, db).

(** "Remove tags". *)
Definition stepRemoveTags (st : updState) : outcome updState :=
  let '(didUpdate, file, db) := st in
  if 0 <? List.length (Updates.RemoveTags update) then
    let currLenTags := List.length (File.Tags file) in
    let '(err, file, db) := RemoveTags db file (Updates.RemoveTags update) in
    if LogError err then Answer sendServerError db
    else Go (List.length (File.Tags file) <? currLenTags, file, db)
  else Go (didUpdate, file, db).

(** "Add Groups". *)
Definition stepAddGroups (st : updState) : outcome updState :=
  let '(didUpdate, file, db) := st in
  if 0 <? List.length (Updates.AddGroups update) then
    let currLenGroups := List.length (File.Groups file) in
    let '(err, file, db) := AddGroups DefaultNamespace db file (Updates.AddGroups update) user in
    if LogError err then Answer sendServerError db
    else Go (currLenGroups <? List.length (File.Groups file), file, db)
  else Go (didUpdate, file, db).

(** "Remove Groups". *)
Definition stepRemoveGroups (st : updState) : outcome updState :=
  let '(didUpdate, file, db) := st in
  if 0 <? List.length (Updates.RemoveGroups update) then
    let currLenGroups := List.length (File.Groups file) in
    let '(err, file, db) := RemoveGroups db file (Updates.RemoveGroups update) in
    if LogError err then Answer sendServerError db
    else Go (List.length (File.Groups file) <? currLenGroups, file, db)
  else Go (didUpdate, file, db).

(** The [case "update"] block. *)
Definition updateAction (st : updState) : outcome updState :=
  st <- stepRename st ;;
  st <- stepVisibility st ;;
  st <- stepNamespace st ;;
  st <- stepAddTags st ;;
  st <- stepRemoveTags st ;;
  st <- stepAddGroups st ;;
  stepRemoveGroups st.

End UpdateSteps.

(** The end of the handler: the answer by [didUpdate]. *)
Definition answerUpdate (didUpdate : bool) : Response :=
  if didUpdate then sendResponse ResponseSuccess "success" None []
  else sendResponse ResponseError "noting to do" None [].

(** [UpdateFileHandler]; [action] is the route variable, when present. *)
Definition UpdateFileHandler (user : User.t) (db : DB) (fs : Storage)
    (action : option string) (request : FileUpdateRequest.t)
  : Response * DB * Storage :=
  match FindNamespace DefaultNamespace db
          (FileAttributes.Namespace (FileUpdateRequest.Attributes request)) with
  | None => (sendResponse ResponseError "Namespace not found" None [], db, fs)
  | Some namespace =>
  if Namespace.ID namespace =? 0 then
    (sendResponse ResponseError "Namespace not found" None [], db, fs)
  else if negb (IsOwnedBy namespace user) && negb (User.CanWriteForeignNamespace user) then
    (sendResponse ResponseError "Write permission denied for foreign namespaces" None [403%Z],
     db, fs)
  else
  match action with
  | None => (sendResponse ResponseError "missing action" None [], db, fs)
  | Some action =>
  if negb (IsInStringArray action ["delete"; "update"]) then
    (sendResponse ResponseError "invalid action" None [], db, fs)
  else
  let c := GetCount db (File.setName File.zero (FileUpdateRequest.Name request)) namespace
                    (FileUpdateRequest.FileID request) in
  if (1 <? c) && (FileUpdateRequest.FileID request =? 0) then
    (sendResponse ResponseError "multiple files with same name" None [], db, fs)
  else if c =? 0 then
    (sendResponse ResponseError "File not found" None [], db, fs)
  else
  match FindFile db (FileUpdateRequest.Name request) (FileUpdateRequest.FileID request)
                 namespace user with
  | (Some file, None) =>
      if String.eqb action "delete" then
        let '(err, _, db, fs) := Delete db fs file in
        if LogError err then (sendServerError, db, fs)
        else (answerUpdate true, db, fs)
      else
        match updateAction user (FileUpdateRequest.Updates request) (false, file, db) with
        | Answer r db => (r, db, fs)
        | Go (didUpdate, _, db) => (answerUpdate didUpdate, db, fs)
        end
  | _ => (sendServerError, db, fs)
  end
  end
  end.

(** ** [UploadfileHandler] *)

(** What [http.Get] returns for a URL; the last two fields script a failure
    of [io.Copy] and of [res.Body.Close]. *)
Record HTTPResponse := mkHTTPResponse {
  StatusCode : Z;
  ContentLength : Z;
  Body : list byte;
  ReadFails : bool;
  BodyCloseFails : bool }.

(** Everything an upload touches: the store, the blob directory, the
    strings [gaw.RandString] is going to draw (by call number and requested
    length) with the number of draws made so far, the remote side, and the
    scripted failures of [os.Create], [f.Write] and [f.Close]. *)
Record World := mkWorld {
  w_db : DB;
  w_fs : Storage;
  w_rand : nat -> nat -> string;
  w_drawn : nat;
  w_http : string -> option HTTPResponse;
  w_createFails : bool;
  w_writeFails : bool;
  w_closeFails : bool }.

Definition setDB (w : World) (db : DB) : World :=
  mkWorld db (w_fs w) (w_rand w) (w_drawn w) (w_http w)
          (w_createFails w) (w_writeFails w) (w_closeFails w).
Definition setFS (w : World) (fs : Storage) : World :=
  mkWorld (w_db w) fs (w_rand w) (w_drawn w) (w_http w)
          (w_createFails w) (w_writeFails w) (w_closeFails w).

(** [gaw.RandString(n)]. *)
Definition RandString (w : World) (n : nat) : string * World :=
  (w_rand w (w_drawn w) n,
   mkWorld (w_db w) (w_fs w) (w_rand w) (S (w_drawn w)) (w_http w)
           (w_createFails w) (w_writeFails w) (w_closeFails w)).

(** The text of [err.Error()]. *)
Definition errorText (err : error) : string :=
  match err with
  | ErrFileTooLarge => "File too large"
  | ErrStore => "store error"
  | ErrRecordNotFound => "record not found"
  | ErrHTTP => "request failed"
  | ErrIO => "input/output error"
  end.

(** [strconv.Itoa]. *)
Definition Itoa (z : Z) : string := DecimalString.NilZero.string_of_int (Z.to_int z).

(** [io.LimitReader(r, n)]: at most [n] bytes of [r]. *)
Definition LimitReader (body : list byte) (n : Z) : list byte :=
  firstn (Z.to_nat n) body.

(** [downloadHTTP], writing to the open blob [localName]. *)
Definition downloadHTTP (user : User.t) (url : string) (localName : string)
    (file : File.t) (w : World) : Z * option error * File.t * World :=
  match w_http w url with
  | None => (0%Z, Some ErrHTTP, file, w)
  | Some res =>
      if (StatusCode res <? 200)%Z || (299 <? StatusCode res)%Z then
        (StatusCode res, None, file, w)
      else if User.HasUploadLimit user
              && (User.MaxURLcontentSize user <? ContentLength res)%Z then
        (StatusCode res, Some ErrFileTooLarge, file, w)
      else
        let reader :=
          if User.HasUploadLimit user
          then LimitReader (Body res) (User.MaxURLcontentSize user)
          else Body res in
        if ReadFails res then (0%Z, Some ErrIO, file, w)
        else
          let w := setFS w (appendBlob (w_fs w) localName reader) in
          let size := Z.of_nat (List.length reader) in
          if BodyCloseFails res then (0%Z, Some ErrIO, file, w)
          else (StatusCode res, None, File.setFileSize file size, w)
  end.

(** "Ensure localname is not already in use": [n] iterations are left, and
    [localName] is the last name drawn. *)
Fixpoint allocLocalName (n : nat) (localName : string) (w : World)
  : bool * string * World :=
  match n with
  | 0 => (false, localName, w)
  | S n' =>
      let (localName, w) := RandString w 40 in
      let c := List.length (selectFiles (w_db w)
                              (fun r => condStr localName (File.LocalName r))) in
      if c =? 0 then (true, localName, w)
      else allocLocalName n' localName w
  end.

(** [AllowedSchemes]. *)
Definition AllowedSchemes : list string := ["http"; "https"].

Section Upload.

(** [GetMD5Hash], and the scheme [url.Parse] finds in a string (nothing when
    parsing fails). *)
Variable GetMD5Hash : list byte -> string.
Variable urlScheme : string -> option string.

(** [isValidHTTPURL]. *)
Definition isValidHTTPURL (inp : string) : bool :=
  match urlScheme inp with
  | None => false
  | Some scheme => IsInStringArray scheme AllowedSchemes
  end.

(** The first [switch]: the checks for the desired upload type; an answer
    when one of them rejects the request. *)
Definition validateUpload (user : User.t) (request : UploadRequest.t) : option Response :=
  match UploadRequest.UploadType request with
  | FileUploadType =>
      if negb (User.CanUploadFiles user) then
        Some (sendResponse ResponseError "not allowed to upload files" None [403%Z])
      else if negb (String.eqb (GetMD5Hash (UploadRequest.Data request))
                               (UploadRequest.Sum request)) then
        Some (sendResponse ResponseError "Content wasn't delivered completely" None [422%Z])
      else None
  | URLUploadType =>
      if negb (User.AllowedToUploadURLs user) then
        Some (sendResponse ResponseError "not allowed to upload urls" None [403%Z])
      else if (String.length (UploadRequest.URL request) =? 0)
              || negb (isValidHTTPURL (UploadRequest.URL request)) then
        Some (sendResponse ResponseError "missing or malformed url" None [422%Z])
      else None
  | UnknownUploadType =>
      Some (sendResponse ResponseError "invalid upload type" None [422%Z])
  end.

(** From "Create local file" to the end of the handler. *)
Definition storeUpload (user : User.t) (request : UploadRequest.t) (file : File.t)
    (localName : string) (w : World) : Response * World :=
  if w_createFails w then (sendServerError, w)
  else
    let w := setFS w (createBlob (w_fs w) localName) in
    let written : Response * World + File.t * World :=
      match UploadRequest.UploadType request with
      | FileUploadType =>
          if w_writeFails w then inl (sendServerError, w)
          else
            let w := setFS w (appendBlob (w_fs w) localName (UploadRequest.Data request)) in
            inr (File.setFileSize file (Z.of_nat (List.length (UploadRequest.Data request))), w)
      | URLUploadType =>
          let '(st, err, file, w') :=
            downloadHTTP user (UploadRequest.URL request) localName file w in
          match err with
          | Some e => inl (sendResponse ResponseError (errorText e) None [400%Z], w')
          | None =>
              if (299 <? st)%Z || (st <? 200)%Z then
                inl (sendResponse ResponseError ("Non ok response: " ++ Itoa st)%string
                                  None [400%Z], w')
              else inr (file, w')
          end
      | UnknownUploadType => inr (file, w)
      end in
    match written with
    | inl answered => answered
    | inr (file, w) =>
        if w_closeFails w then (sendServerError, w)
        else
          let '(err, file, db) := Insert DefaultNamespace (w_db w) file user in
          let w := setDB w db in
          if LogError err then (sendServerError, w)
          else (sendResponse ResponseSuccess "" (Some (File.ID file)) [], w)
    end.

(** [UploadfileHandler]. *)
Definition UploadfileHandler (user : User.t) (request : UploadRequest.t) (w : World)
  : Response * World :=
  match validateUpload user request with
  | Some r => (r, w)
  | None =>
  let (name, w) :=
    if String.length (UploadRequest.Name request) =? 0 then RandString w 20
    else (UploadRequest.Name request, w) in
  match FindNamespace DefaultNamespace (w_db w)
          (FileAttributes.Namespace (UploadRequest.Attributes request)) with
  | None => (sendResponse ResponseError "namespace not found" None [404%Z], w)
  | Some namespace =>
  if negb (IsOwnedBy namespace user) && negb (User.CanWriteForeignNamespace user) then
    (sendResponse ResponseError "Write permission denied for foreign namespaces" None [403%Z], w)
  else
  let tags := TagsFromStringArr (FileAttributes.Tags (UploadRequest.Attributes request))
                                namespace user in
  let groups := GroupsFromStringArr (FileAttributes.Groups (UploadRequest.Attributes request))
                                    namespace user in
  let '(uniqueNameFound, localName, w) := allocLocalName 5 "" w in
  if negb uniqueNameFound then (sendServerError, w)
  else
    let file := File.setName (File.setNamespace (File.setTags (File.setGroups File.zero groups)
                                                              tags) (Some namespace)) name in
    let file := File.setLocalName file localName in
    storeUpload user request file localName w
  end
  end.

End Upload.

End Handlers.

(** ** [BufferedCopy] *)

(** What a [Read] or [Write] can fail with: [io.EOF], or anything else. *)
Inductive streamError : Type := EOF | ErrStream.

(** A reader over bytes that fills the buffer as far as it can, as a file
    does; [readsLeft] counts the reads that succeed before one fails (none
    ever fails when it is [None]). A writer keeps what it is given;
    [writesLeft] counts the writes that succeed before one fails. *)
Record Reader := mkReader { pending : list byte; readsLeft : option nat }.
Record Writer := mkWriter { written : list byte; writesLeft : option nat }.

(** [reader.Read(buf)] with a buffer of [size] bytes: the bytes read, the
    error, the reader afterwards. A read into an empty buffer returns no
    bytes and no error; at the end of the data a read returns [io.EOF]. *)
Definition Read (r : Reader) (size : nat) : list byte * option streamError * Reader :=
  match readsLeft r with
  | Some 0 => ([], Some ErrStream, r)
  | _ =>
      let r' := mkReader (skipn size (pending r)) (option_map pred (readsLeft r)) in
      match size, pending r with
      | 0, _ => ([], None, r')
      | _, [] => ([], Some EOF, r')
      | _, _ => (firstn size (pending r), None, r')
      end
  end.

(** [writer.Write(p)]. *)
Definition Write (w : Writer) (p : list byte) : option streamError * Writer :=
  match writesLeft w with
  | Some 0 => (Some ErrStream, w)
  | _ => (None, mkWriter (written w ++ p) (option_map pred (writesLeft w)))
  end.

Definition inspect {A : Type} (a : A) : {b : A | a = b} := exist _ a eq_refl.

(** [BufferedCopy]: the error returned (the named result [err], which at a
    normal end is the [io.EOF] of the last read), the writer and the reader
    afterwards. The loop goes on only after a read that returned bytes, so
    the data still pending gets shorter. *)
Equations? BufferedCopy (bufferSize : nat) (writer : Writer) (reader : Reader)
  : option streamError * Writer * Reader by wf (List.length (pending reader)) lt :=
  BufferedCopy bufferSize writer reader with inspect (Read reader bufferSize) := {
    | exist _ (_, Some ErrStream, reader') _ := (Some ErrStream, writer, reader');
    | exist _ ([], err, reader') _ := (err, writer, reader');
    | exist _ (b :: buf, err, reader') eq with Write writer (b :: buf) := {
        | (Some e, writer') := (Some e, writer', reader');
        | (None, writer') := BufferedCopy bufferSize writer' reader' } }.
Proof.
  all: match goal with
       | E : Read ?r ?k = _ |- _ =>
           revert E; unfold Read;
           destruct (readsLeft r) as [[|n]|]; try discriminate;
           destruct k; try discriminate;
           destruct (pending r) eqn:Ep; try discriminate;
           intros E; inversion E; subst; simpl; rewrite length_skipn; simpl; lia
       end.
Qed.

(** ** [PrevievFileHandler] *)

Inductive PreviewResponse : Type :=
| PreviewNotFound                                   (* http.NotFound *)
| PreviewServerError                                (* http.Error 500 *)
| PreviewContent (contentType : option string) (body : list byte).

(** [PrevievFileHandler]; [fileID] is the route variable and
    [DownloadFileBuffer] the configured [Webserver.DownloadFileBuffer]. The
    opened file is streamed into the response by [gaw.BufferedCopy], the
    library routine of which [BufferedCopy] above is the copy kept among the
    handlers; the opened file and the response writer are taken not to fail.
    The result of the copy is dropped (the [err] tested after it is still the
    nil of [os.Open]), so the body is whatever the copy wrote. *)
Definition PrevievFileHandler (DownloadFileBuffer : nat) (db : DB) (fs : Storage)
                              (fileID : string) : PreviewResponse :=
  let '(file, found, err) := GetPublicFile db fileID in
  if negb found then PreviewNotFound
  else if LogError err then PreviewServerError
  else
    match file with
    | None => PreviewServerError
    | Some file =>
        if negb (File.IsPublic file) then PreviewNotFound
        else
          let contentType :=
            if 0 <? String.length (File.FileType file) then Some (File.FileType file)
            else None in
          match readBlob fs (File.LocalName file) with
          | None => PreviewServerError
          | Some content =>
              let '(_, w, _) := BufferedCopy DownloadFileBuffer (mkWriter [] None)
                                             (mkReader content None) in
              PreviewContent contentType (written w)
          end
    end.

(** ** Listing files *)

(** [File.IsInTagList] and [File.IsInGroupList]. *)
Definition IsInTagList (file : File.t) (tags : list Tag.t) : bool :=
  existsb (fun tag => existsb (fun t1 => Tag.ID tag =? Tag.ID t1) tags) (File.Tags file).
Definition IsInGroupList (file : File.t) (groups : list Group.t) : bool :=
  existsb (fun group => existsb (fun t1 => Group.ID group =? Group.ID t1) groups)
          (File.Groups file).

(** [FindFiles]: every live file of that name, namespace and uploader, in
    table order. *)
Definition FindFiles (db : DB) (fileName : string) (namespace : Namespace.t) (user : User.t)
  : list File.t * option error :=
  (map (preloaded db)
       (selectFiles db (fun r =>
          String.eqb (File.Name r) fileName
          && (File.NamespaceID r =? Namespace.ID namespace)
          && (File.UserID r =? User.ID user))),
   None).

Module OptionalParams.
Record t := mk { Verbose : nat }.
End OptionalParams.

Module FileRequest.
Record t := mk {
  Name : string;
  Attributes : FileAttributes.t;
  OptionalParams : OptionalParams.t }.
End FileRequest.

Module FileResponseItem.
Record t := mk {
  ID : nat;
  Name : string;
  CreationDate : Z;
  Size : Z;
  Attributes : FileAttributes.t }.
End FileResponseItem.

(** What a list request is answered with: nothing, the integer the handler
    passes in the payload position of [sendResponse], or the files. *)
Inductive ListPayload : Type :=
| NoPayload
| CodePayload (code : Z)
| FilesPayload (files : list FileResponseItem.t).

Record ListResponse := mkListResponse {
  l_status : ResponseStatus;
  l_message : string;
  l_statusCode : Z;
  l_payload : ListPayload }.

(** A row as [Find] returns it under the given [Preload]s. *)
Definition loadRow (db : DB) (withTags withGroups withNamespace : bool) (r : File.t) : File.t :=
  let r := File.setUser r None in
  let r := if withTags then r else File.setTags r [] in
  let r := if withGroups then r else File.setGroups r [] in
  File.setNamespace r (if withNamespace then findNamespaceByID db (File.NamespaceID r)
                       else None).

Section ListFiles.

Variable DefaultNamespace : Namespace.t.

(** Parts of the repository outside the sources at hand, taken as they
    come: the read-side resolution of names ([FindTags], [FindGroups]), the
    conversions [TagArrToStringArr] and [GroupArrToStringArr], the capability
    [User.CanReadForeignNamespace]; the store's [LIKE] operator (pattern
    first); and the [CreatedAt] column, kept by key. *)
Variable FindTags : DB -> list string -> Namespace.t -> list Tag.t.
Variable FindGroups : DB -> list string -> Namespace.t -> list Group.t.
Variable TagArrToStringArr : list Tag.t -> list string.
Variable GroupArrToStringArr : list Group.t -> list string.
Variable CanReadForeignNamespace : User.t -> bool.
Variable like : string -> string -> bool.
Variable CreatedAt : nat -> Z.

(** [File.GetAttributes]. *)
Definition GetAttributes (file : File.t) : FileAttributes.t :=
  FileAttributes.mk (TagArrToStringArr (File.Tags file))
                    (GroupArrToStringArr (File.Groups file))
                    (Namespace.Name (GetNamespace DefaultNamespace file)).

(** The filter of the response loop. *)
Definition passesFilter (tags : list Tag.t) (groups : list Group.t) (file : File.t) : bool :=
  ((List.length tags =? 0) || ((0 <? List.length tags) && IsInTagList file tags))
  && ((List.length groups =? 0) || ((0 <? List.length groups) && IsInGroupList file groups)).

(** The item built for a file that passes. *)
Definition responseItem (verbose : nat) (file : File.t) : FileResponseItem.t :=
  FileResponseItem.mk (File.ID file) (File.Name file) (CreatedAt (File.ID file))
    (File.FileSize file)
    (if 1 <? verbose then GetAttributes file else FileAttributes.mk [] [] "").

(** "Convert to ResponseFile". *)
Definition collectItems (verbose : nat) (tags : list Tag.t) (groups : list Group.t)
    (foundFiles : list File.t) : list FileResponseItem.t :=
  fold_left (fun retFiles file =>
               if passesFilter tags groups file
               then retFiles ++ [responseItem verbose file]
               else retFiles)
            foundFiles [].

(** [ListFilesHandler]. *)
Definition ListFilesHandler (user : User.t) (db : DB) (request : FileRequest.t)
  : ListResponse :=
  let attributes := FileRequest.Attributes request in
  let verbose := OptionalParams.Verbose (FileRequest.OptionalParams request) in
  match FindNamespace DefaultNamespace db (FileAttributes.Namespace attributes) with
  | None => mkListResponse ResponseError "Namespace not found" 200 (CodePayload 404)
  | Some namespace =>
  if Namespace.ID namespace =? 0 then
    mkListResponse ResponseError "Namespace not found" 200 (CodePayload 404)
  else if negb (IsOwnedBy namespace user) && negb (CanReadForeignNamespace user) then
    mkListResponse ResponseError "Read permission denied for foreign namespaces" 403 NoPayload
  else
  let tags := FindTags db (FileAttributes.Tags attributes) namespace in
  if (List.length tags =? 0) && (0 <? List.length (FileAttributes.Tags attributes)) then
    mkListResponse ResponseError "No matching tag found" 200 (CodePayload 404)
  else
  let groups := FindGroups db (FileAttributes.Groups attributes) namespace in
  if (List.length groups =? 0) && (0 <? List.length (FileAttributes.Groups attributes)) then
    mkListResponse ResponseError "No matching group found" 200 (CodePayload 404)
  else
  let withTags := (0 <? List.length tags) || (1 <? verbose) in
  let withGroups := (0 <? List.length groups) || (1 <? verbose) in
  let withNamespace := 2 <? verbose in
  let foundFiles :=
    map (loadRow db withTags withGroups withNamespace)
        (selectFiles db (fun r =>
           (File.NamespaceID r =? Namespace.ID namespace)
           && (if 0 <? String.length (FileRequest.Name request)
               then like ("%" ++ FileRequest.Name request ++ "%")%string (File.Name r)
               else true))) in
  mkListResponse ResponseSuccess "" 200
                 (FilesPayload (collectItems verbose tags groups foundFiles))
  end.

End ListFiles.

(** ** Observations on the store, used by the statements *)

(** The slug a publish request uses: the requested one verbatim, or the
    generated one when none is requested. *)
Definition slugUsed (requested generated : string) : string :=
  if String.length requested =? 0 then generated else requested.

(** The row is live and its public slug is [slug]. *)
Definition holdsSlug (slug : string) (r : File.t) : bool :=
  live r && match File.PublicFilename r with
            | Some s => String.eqb s slug
            | None => false
            end.

(** Some live file of the store is bound to [slug]. *)
Definition slugBound (db : DB) (slug : string) : bool :=
  existsb (holdsSlug slug) (db_files db).

(** The persisted row of the file with key [id]. *)
Definition storedFile (db : DB) (id : nat) : option File.t :=
  firstByID (filter (isRow id) (db_files db)).

(** [f] was loaded from a live row of the store. *)
Definition isStored (db : DB) (f : File.t) : bool :=
  negb (File.ID f =? 0) && live f && existsb (isRow (File.ID f)) (db_files db).

(** The file a public slug leads to. *)
Definition slugHolder (db : DB) (slug : string) : option File.t :=
  firstByID (filter (holdsSlug slug) (db_files db)).

(** A live file of the store already uses the local name. *)
Definition taken (db : DB) (localName : string) : bool :=
  negb (List.length (selectFiles db (fun r => condStr localName (File.LocalName r))) =? 0).

(** The [k]-th identifier the allocation loop is going to draw. *)
Definition nthDraw (w : World) (k : nat) : string := w_rand w (w_drawn w + k) 40.

(** The world after [n] more draws. *)
Definition advance (w : World) (n : nat) : World :=
  mkWorld (w_db w) (w_fs w) (w_rand w) (w_drawn w + n) (w_http w)
          (w_createFails w) (w_writeFails w) (w_closeFails w).

(** The world once the handler has settled the name of the upload. *)
Definition afterNaming (request : UploadRequest.t) (w : World) : World :=
  if String.length (UploadRequest.Name request) =? 0 then snd (RandString w 20) else w.

(** The file the handler builds before storing the content. *)
Definition draftOf (request : UploadRequest.t) (namespace : Namespace.t) (user : User.t)
    (w : World) (localName : string) : File.t :=
  let name :=
    if String.length (UploadRequest.Name request) =? 0 then fst (RandString w 20)
    else UploadRequest.Name request in
  File.setLocalName
    (File.setName
       (File.setNamespace
          (File.setTags
             (File.setGroups File.zero
                (GroupsFromStringArr (FileAttributes.Groups (UploadRequest.Attributes request))
                                     namespace user))
             (TagsFromStringArr (FileAttributes.Tags (UploadRequest.Attributes request))
                                namespace user))
          (Some namespace))
       name)
    localName.

(** A response item without its attributes, and a payload without the
    attributes of its items. *)
Definition bareItem (item : FileResponseItem.t) : FileResponseItem.t :=
  FileResponseItem.mk (FileResponseItem.ID item) (FileResponseItem.Name item)
                      (FileResponseItem.CreationDate item) (FileResponseItem.Size item)
                      (FileAttributes.mk [] [] "").
Definition withoutAttributes (p : ListPayload) : ListPayload :=
  match p with
  | FilesPayload files => FilesPayload (map bareItem files)
  | _ => p
  end.
Definition itemsOf (p : ListPayload) : list FileResponseItem.t :=
  match p with
  | FilesPayload files => files
  | _ => []
  end.

(** The update request that asks for nothing but the removal of the tags
    [names] from the file addressed by [fileID] and [name]. *)
Definition onlyRemoveTags (fileID : nat) (name : string) (attributes : FileAttributes.t)
    (newNamespace : string) (names : list string) : FileUpdateRequest.t :=
  FileUpdateRequest.mk fileID name attributes (Updates.mk "" "" newNamespace [] names [] []).

(** ** Sample data *)

Definition nsHome : Namespace.t := Namespace.mk 1 "home" 7.
Definition nsWork : Namespace.t := Namespace.mk 2 "work" 7.

Definition alice : User.t := User.mk 7 true true false true 4%Z.

Definition tagX : Tag.t := Tag.mk 1 "x" 1 7.

(** File A: private, never published, carrying tag "x". *)
Definition fileA : File.t :=
  File.mk 1 false "a.txt" "blobA" None 7 3%Z "" false None [] [tagX] None 1.

(** File B: published under the slug "abc". *)
Definition fileB : File.t :=
  File.mk 2 false "b.txt" "blobB" None 7 5%Z "text/plain" true (Some "abc") [] [] None 1.

Definition sampleDB : DB := mkDB [fileA; fileB] [tagX] [] [nsHome; nsWork] [].

Definition sampleFS : Storage :=
  [("blobA", ["a"%byte; "b"%byte; "c"%byte]); ("blobB", ["h"%byte; "i"%byte])].

(** A draft in namespace "work" asking for the tag "x", which so far exists
    in namespace "home" only. *)
Definition draftInWork : File.t :=
  File.setName
    (File.setNamespace (File.setTags File.zero (TagsFromStringArr ["x"] nsWork alice))
                       (Some nsWork))
    "w.txt".

(** Rename "a.txt" to "c.txt" and add the tag "x" it already has. *)
Definition renameAndAddTag : FileUpdateRequest.t :=
  FileUpdateRequest.mk 0 "a.txt" (FileAttributes.mk [] [] "home")
    (Updates.mk "c.txt" "" "" ["x"] [] [] []).

(** Move "a.txt" to the namespace "work". *)
Definition moveToWork : FileUpdateRequest.t :=
  FileUpdateRequest.mk 0 "a.txt" (FileAttributes.mk [] [] "home")
    (Updates.mk "" "" "work" [] [] [] []).

Definition removeTagX : Updates.t := Updates.mk "" "" "" [] ["x"] [] [].

(** The digest and URL parser of the samples: the digest of a content is
    "ok" when it is the two bytes "hi"; every URL has the scheme "http". *)
Definition sampleMD5 (data : list byte) : string :=
  match data with
  | ["h"%byte; "i"%byte] => "ok"
  | _ => "other"
  end.
Definition sampleScheme (url : string) : option string := Some "http".

(** The remote side: "http://h/gone" answers 404, "http://h/big" announces
    ten bytes, anything else is unreachable. *)
Definition sampleHTTP (url : string) : option HTTPResponse :=
  if String.eqb url "http://h/gone" then Some (mkHTTPResponse 404 0 [] false false)
  else if String.eqb url "http://h/big" then
    Some (mkHTTPResponse 200 10 (repeat "z"%byte 10) false false)
  else None.

(** The first identifier drawn is in use ("blobA"), the later ones are
    "fresh". *)
Definition sampleWorld : World :=
  mkWorld sampleDB sampleFS (fun i _ => if i =? 0 then "blobA" else "fresh") 0
          sampleHTTP false false false.

(** Every identifier drawn is in use. *)
Definition crowdedWorld : World :=
  mkWorld sampleDB sampleFS (fun _ _ => "blobA") 0 sampleHTTP false false false.

(** The store refuses the next write. *)
Definition refusingWorld : World :=
  mkWorld (setFaults sampleDB [true]) sampleFS (fun _ _ => "fresh") 0
          sampleHTTP false false false.

Definition uploadHi : UploadRequest.t :=
  UploadRequest.mk FileUploadType ["h"%byte; "i"%byte] "ok" "" "hi.txt"
                   (FileAttributes.mk ["x"] [] "home").

Definition uploadCorrupt : UploadRequest.t :=
  UploadRequest.mk FileUploadType ["h"%byte; "i"%byte] "0000" "" "hi.txt"
                   (FileAttributes.mk [] [] "home").

Definition uploadGone : UploadRequest.t :=
  UploadRequest.mk URLUploadType [] "" "http://h/gone" "gone.txt"
                   (FileAttributes.mk [] [] "home").

Definition uploadBig : UploadRequest.t :=
  UploadRequest.mk URLUploadType [] "" "http://h/big" "big.txt"
                   (FileAttributes.mk [] [] "home").

(** Stand-ins for the parts a list request takes from outside: names are
    resolved among the rows of the namespace, converted to their names, the
    pattern matches everything, nobody reads foreign namespaces, and every
    file was created at time 0. *)
Definition sampleFindTags (db : DB) (names : list string) (namespace : Namespace.t)
  : list Tag.t :=
  filter (fun t => IsInStringArray (Tag.Name t) names
                   && (Tag.NamespaceID t =? Namespace.ID namespace)) (db_tags db).
Definition sampleFindGroups (db : DB) (names : list string) (namespace : Namespace.t)
  : list Group.t :=
  filter (fun g => IsInStringArray (Group.Name g) names
                   && (Group.NamespaceID g =? Namespace.ID namespace)) (db_groups db).

(** List the namespace "home" with the attributes of each file. *)
Definition listHome : FileRequest.t :=
  FileRequest.mk "" (FileAttributes.mk [] [] "home") (OptionalParams.mk 2).

(** Rename "a.txt" and set a visibility that is no boolean. *)
Definition renameAndBadVisibility : Updates.t :=
  Updates.mk "c.txt" "maybe" "" [] [] [] [].

Definition deleteB : FileUpdateRequest.t :=
  FileUpdateRequest.mk 0 "b.txt" (FileAttributes.mk [] [] "home")
                       (Updates.mk "" "" "" [] [] [] []).

(** ** Queries *)

Lemma firstByID_In rows r : firstByID rows = Some r -> In r rows.
Proof.
  revert r; induction rows as [|x xs IH]; simpl; intros r H; [discriminate|].
  destruct (firstByID xs) as [m|] eqn:E.
  - destruct (File.ID x <=? File.ID m); inversion H; subst; auto.
  - inversion H; auto.
Qed.

Lemma firstByID_None rows : firstByID rows = None <-> rows = [].
Proof.
  split; [|intros ->; reflexivity].
  destruct rows as [|x xs]; simpl; [reflexivity|].
  destruct (firstByID xs) as [m|]; [destruct (File.ID x <=? File.ID m)|]; discriminate.
Qed.

Lemma filter_nil_existsb {A} (p : A -> bool) l : filter p l = [] <-> existsb p l = false.
Proof.
  induction l as [|x xs IH]; simpl; [tauto|].
  destruct (p x); simpl; [split; discriminate | exact IH].
Qed.

Lemma GetPublicFile_found db slug :
  snd (fst (GetPublicFile db slug)) = slugBound db slug.
Proof.
  unfold GetPublicFile, slugBound, selectFiles.
  change (fun r => live r && match File.PublicFilename r with
                             | Some s => String.eqb s slug
                             | None => false
                             end) with (holdsSlug slug).
  destruct (firstByID (filter (holdsSlug slug) (db_files db))) as [r|] eqn:E; simpl.
  - apply firstByID_In in E. symmetry. apply existsb_exists.
    exists r. apply filter_In in E. exact E.
  - apply firstByID_None in E. apply filter_nil_existsb in E. congruence.
Qed.

(** ** Saving *)

Lemma syncKeys_columns f :
  File.ID (syncKeys f) = File.ID f /\
  File.DeletedAt (syncKeys f) = File.DeletedAt f /\
  File.IsPublic (syncKeys f) = File.IsPublic f /\
  File.PublicFilename (syncKeys f) = File.PublicFilename f /\
  File.Tags (syncKeys f) = File.Tags f /\
  File.Groups (syncKeys f) = File.Groups f /\
  File.Name (syncKeys f) = File.Name f.
Proof.
  unfold syncKeys. destruct (File.Namespace f); simpl;
    destruct (File.User f); simpl; repeat split; reflexivity.
Qed.

Lemma updateRow_columns r f :
  File.ID (updateRow r f) = File.ID f /\
  File.DeletedAt (updateRow r f) = File.DeletedAt f /\
  File.IsPublic (updateRow r f) = File.IsPublic f /\
  File.PublicFilename (updateRow r f) = File.PublicFilename f /\
  File.Name (updateRow r f) = File.Name f.
Proof.
  unfold updateRow, rowOf; simpl.
  destruct (syncKeys_columns f) as (H1 & H2 & H3 & H4 & _ & _ & H7).
  repeat split; assumption.
Qed.

Lemma accept_no_faults db : db_faults db = [] -> accept db = (true, db).
Proof. unfold accept; intros ->; reflexivity. Qed.

Lemma filter_map_update {A} (p : A -> bool) (u : A -> A) l :
  (forall x, p (u x) = true) ->
  filter p (map (fun x => if p x then u x else x) l) = map u (filter p l).
Proof.
  intros Hu; induction l as [|x xs IH]; simpl; [reflexivity|].
  destruct (p x) eqn:E; simpl.
  - rewrite Hu; simpl; f_equal; exact IH.
  - rewrite E; exact IH.
Qed.

(** Saving a stored file while the store accepts writes rewrites its row. *)
Lemma dbSave_stored_eq db f :
  isStored db f = true -> db_faults db = [] ->
  dbSave db f =
    (None, syncKeys f,
     setFiles db (map (fun r => if isRow (File.ID f) r then updateRow r (syncKeys f) else r)
                      (db_files db))).
Proof.
  unfold isStored; intros Hs Hf.
  apply andb_prop in Hs as [Hs Hex]. apply andb_prop in Hs as [Hid Hl].
  unfold dbSave. apply negb_true_iff in Hid. rewrite Hid.
  rewrite (accept_no_faults _ Hf), Hex. reflexivity.
Qed.

(** Saving a stored file while the store accepts writes: the persisted row
    carries the columns of the file in memory. *)
Lemma dbSave_stored db f :
  isStored db f = true -> db_faults db = [] ->
  exists f' db' r,
    dbSave db f = (None, f', db') /\ db_faults db' = [] /\
    storedFile db' (File.ID f) = Some r /\
    File.IsPublic r = File.IsPublic f /\
    File.PublicFilename r = File.PublicFilename f /\
    File.Name r = File.Name f /\
    File.ID f' = File.ID f /\ File.DeletedAt f' = File.DeletedAt f /\
    File.Tags f' = File.Tags f /\ File.Groups f' = File.Groups f /\
    File.IsPublic f' = File.IsPublic f /\
    File.PublicFilename f' = File.PublicFilename f.
Proof.
  unfold isStored; intros Hs Hf.
  apply andb_prop in Hs as [Hs Hex]. apply andb_prop in Hs as [Hid Hl].
  unfold dbSave. apply negb_true_iff in Hid. rewrite Hid.
  rewrite (accept_no_faults _ Hf), Hex.
  destruct (syncKeys_columns f) as (S1 & S2 & S3 & S4 & S5 & S6 & S7).
  set (g := syncKeys f) in *.
  assert (Hrow : forall x, isRow (File.ID f) (updateRow x g) = true).
  { intros x. destruct (updateRow_columns x g) as (U1 & U2 & _).
    unfold isRow, live in *. rewrite U1, U2, S1, S2, Nat.eqb_refl.
    rewrite Hl. reflexivity. }
  pose proof (filter_map_update (isRow (File.ID f)) (fun x => updateRow x g)
                (db_files db) Hrow) as Hfm.
  destruct (firstByID (map (fun x => updateRow x g) (filter (isRow (File.ID f)) (db_files db))))
    as [r|] eqn:E.
  - exists g, (setFiles db (map (fun r0 => if isRow (File.ID f) r0 then updateRow r0 g else r0)
                                (db_files db))), r.
    unfold storedFile; simpl. rewrite Hfm, E.
    apply firstByID_In in E. apply in_map_iff in E as (x & <- & _).
    destruct (updateRow_columns x g) as (U1 & U2 & U3 & U4 & U5).
    repeat split; try assumption; congruence.
  - exfalso. apply firstByID_None in E. apply map_eq_nil in E.
    apply filter_nil_existsb in E. congruence.
Qed.

(** ** Publishing *)

(** C1 (as the code has it): [Publish] reports a conflict exactly when the
    slug used (the requested one, or the generated one when none is
    requested) is bound to some live file of the store, the published file
    itself included; on a conflict the store is left as it was; without a
    conflict, for a stored file and a store that accepts the write, the
    persisted row ends up public under the slug used. *)
Theorem Publish_conflict_iff_slug_bound db f s rnd conflict err f' db' :
  Publish db f s rnd = (conflict, err, f', db') ->
  conflict = slugBound db (slugUsed s rnd) /\
  (conflict = true -> db' = db) /\
  (conflict = false -> isStored db f = true -> db_faults db = [] ->
   err = None /\
   exists r, storedFile db' (File.ID f) = Some r /\
             File.IsPublic r = true /\
             File.PublicFilename r = Some (slugUsed s rnd)).
Proof.
  unfold Publish. fold (slugUsed s rnd). set (slug := slugUsed s rnd).
  pose proof (GetPublicFile_found db slug) as Hfound.
  destruct (GetPublicFile db slug) as [[g found] e]; simpl in Hfound.
  destruct found.
  - intros H; inversion H; subst. repeat split; auto; discriminate.
  - unfold Save.
    set (f2 := File.setIsPublic (File.setPublicFilename f (Some slug)) true).
    destruct (dbSave db f2) as [[e2 f3] db3] eqn:ES.
    intros H; inversion H; subst. repeat split; auto; try discriminate.
    + destruct (dbSave_stored db f2 H1 H2) as (f4 & db4 & r & E & _); congruence.
    + destruct (dbSave_stored db f2 H1 H2)
        as (f4 & db4 & r & E & _ & Hst & Hp & Hn & _).
      exists r. rewrite E in ES; inversion ES; subst. auto.
Qed.

Lemma Publish_conflict_iff_slug_bound_witness :
  exists r, storedFile (snd (Publish sampleDB fileA "" "r25")) (File.ID fileA) = Some r /\
            File.IsPublic r = true /\ File.PublicFilename r = Some "r25".
Proof.
  refine (proj2 (proj2 (proj2
            (Publish_conflict_iff_slug_bound sampleDB fileA "" "r25" false None _ _ eq_refl))
            eq_refl eq_refl eq_refl)).
Defined.

(** C1 (as stated) fails: republishing file B under the slug it already
    holds reports a conflict, although no other file is bound to it. *)
Lemma Publish_own_slug_counterexample :
  ~ (forall db f s rnd,
       fst (fst (fst (Publish db f s rnd))) = true ->
       exists g, In g (db_files db) /\ File.ID g <> File.ID f /\
                 holdsSlug (slugUsed s rnd) g = true).
Proof.
  intros H. specialize (H sampleDB fileB "abc" "r25" eq_refl).
  destruct H as (g & Hin & Hne & Hs).
  simpl in Hin. destruct Hin as [<-|[<-|[]]].
  - discriminate Hs.
  - apply Hne; reflexivity.
Qed.

(** ** Visibility *)

Lemma storedFile_holdsSlug db id r s :
  storedFile db id = Some r -> File.PublicFilename r = Some s ->
  slugBound db s = true.
Proof.
  unfold storedFile, slugBound; intros H Hs.
  apply firstByID_In in H. apply filter_In in H as [Hin Hrow].
  apply existsb_exists. exists r; split; [exact Hin|].
  unfold isRow in Hrow. apply andb_prop in Hrow as [Hl _].
  unfold holdsSlug. rewrite Hl, Hs, String.eqb_refl. reflexivity.
Qed.

(** C4 (as the code has it): [SetVilibility] persists the new [IsPublic]
    and leaves [PublicFilename] as it was, in memory and in the store; a
    slug the file holds stays bound to it. *)
Theorem SetVilibility_keeps_slug db f v :
  isStored db f = true -> db_faults db = [] ->
  exists f' db' r,
    SetVilibility db f v = (None, f', db') /\
    File.IsPublic f' = v /\ File.PublicFilename f' = File.PublicFilename f /\
    storedFile db' (File.ID f) = Some r /\
    File.IsPublic r = v /\ File.PublicFilename r = File.PublicFilename f /\
    (forall s, File.PublicFilename f = Some s -> slugBound db' s = true).
Proof.
  intros Hs Hf. unfold SetVilibility, Save.
  destruct (dbSave_stored db (File.setIsPublic f v) Hs Hf)
    as (f' & db' & r & E & _ & Hst & Hp & Hn & _ & _ & _ & _ & _ & Hp' & Hn').
  exists f', db', r. simpl in *. repeat split; auto.
  intros s Hslug. apply (storedFile_holdsSlug db' (File.ID f) r); congruence.
Qed.

Lemma SetVilibility_keeps_slug_witness :
  exists f' db' r,
    SetVilibility sampleDB fileB false = (None, f', db') /\
    File.IsPublic f' = false /\ File.PublicFilename f' = Some "abc" /\
    storedFile db' 2 = Some r /\
    File.IsPublic r = false /\ File.PublicFilename r = Some "abc" /\
    (forall s, Some "abc" = Some s -> slugBound db' s = true).
Proof.
  exact (SetVilibility_keeps_slug sampleDB fileB false eq_refl eq_refl).
Defined.

(** C4 (as stated) fails: turning the published file B private leaves its
    slug "abc" in place. *)
Lemma SetVilibility_clears_slug_counterexample :
  ~ (forall db f, File.PublicFilename f <> None ->
       File.PublicFilename (snd (fst (SetVilibility db f false))) = None).
Proof.
  intros H. specialize (H sampleDB fileB). simpl in H.
  assert (E : Some "abc" = None) by (apply H; discriminate).
  discriminate E.
Qed.

(** ** Preview *)

Lemma PrevievFileHandler_by_holder k db fs s :
  PrevievFileHandler k db fs s =
  match slugHolder db s with
  | None => PreviewNotFound
  | Some r =>
      if File.IsPublic r then
        match readBlob fs (File.LocalName r) with
        | None => PreviewServerError
        | Some content =>
            PreviewContent (if 0 <? String.length (File.FileType r)
                            then Some (File.FileType r) else None)
                           (written (snd (fst (BufferedCopy k (mkWriter [] None)
                                                            (mkReader content None)))))
        end
      else PreviewNotFound
  end.
Proof.
  unfold PrevievFileHandler, GetPublicFile, slugHolder, selectFiles.
  change (fun r => live r && match File.PublicFilename r with
                             | Some s0 => String.eqb s0 s
                             | None => false
                             end) with (holdsSlug s).
  destruct (firstByID (filter (holdsSlug s) (db_files db))) as [r|]; simpl; [|reflexivity].
  destruct (File.IsPublic r); simpl; [|reflexivity].
  destruct (readBlob fs (File.LocalName r)) as [content|]; [|reflexivity].
  destruct (BufferedCopy k (mkWriter [] None) (mkReader content None)) as [[e w] r'].
  reflexivity.
Qed.

(** C10: whatever the download buffer, a preview serves content only for a
    slug some stored file holds with [IsPublic] set; a slug nobody holds, or
    whose holder is not public, is answered with "not found"; and once the
    visibility of the holder of a slug is turned off, the slug, still on the
    file, no longer serves it. *)
Theorem PrevievFileHandler_serves_public_only k db fs s :
  (forall ct body,
     PrevievFileHandler k db fs s = PreviewContent ct body ->
     exists r, In r (db_files db) /\ File.PublicFilename r = Some s /\
               File.IsPublic r = true) /\
  (slugBound db s = false -> PrevievFileHandler k db fs s = PreviewNotFound) /\
  (forall r, slugHolder db s = Some r -> File.IsPublic r = false ->
             PrevievFileHandler k db fs s = PreviewNotFound) /\
  (forall f,
     isStored db f = true -> db_faults db = [] ->
     File.PublicFilename f = Some s ->
     (forall x, In x (db_files db) -> holdsSlug s x = true -> File.ID x = File.ID f) ->
     File.PublicFilename (snd (fst (SetVilibility db f false))) = Some s /\
     PrevievFileHandler k (snd (SetVilibility db f false)) fs s = PreviewNotFound).
Proof.
  split; [|split; [|split]].
  - intros ct body. rewrite PrevievFileHandler_by_holder.
    destruct (slugHolder db s) as [r|] eqn:E; [|discriminate].
    destruct (File.IsPublic r) eqn:Ep; [|discriminate]. intros _.
    apply firstByID_In in E. apply filter_In in E as [Hin Hh].
    exists r. repeat split; auto.
    unfold holdsSlug in Hh. apply andb_prop in Hh as [_ Hh].
    destruct (File.PublicFilename r) as [s0|]; [|discriminate].
    apply String.eqb_eq in Hh. congruence.
  - intros Hb. rewrite PrevievFileHandler_by_holder. unfold slugHolder.
    unfold slugBound in Hb. apply filter_nil_existsb in Hb.
    rewrite Hb. reflexivity.
  - intros r E Hp. rewrite PrevievFileHandler_by_holder, E, Hp. reflexivity.
  - intros f Hst Hfl Hslug Huniq.
    unfold SetVilibility, Save.
    rewrite (dbSave_stored_eq db (File.setIsPublic f false) Hst Hfl); simpl.
    destruct (syncKeys_columns (File.setIsPublic f false)) as (_ & _ & S3 & S4 & _).
    split; [rewrite S4; exact Hslug|].
    rewrite PrevievFileHandler_by_holder.
    destruct (slugHolder _ s) as [r|] eqn:E; [|reflexivity].
    apply firstByID_In in E. apply filter_In in E as [Hin Hh]. simpl in Hin.
    apply in_map_iff in Hin as (x & Hx & Hin).
    destruct (isRow (File.ID f) x) eqn:Er.
    + subst r. destruct (updateRow_columns x (syncKeys (File.setIsPublic f false)))
        as (_ & _ & U3 & _).
      rewrite U3, S3. reflexivity.
    + subst r. exfalso. pose proof (Huniq x Hin Hh) as Hid.
      unfold isRow in Er. unfold holdsSlug in Hh. apply andb_prop in Hh as [Hl _].
      rewrite Hl, Hid, Nat.eqb_refl in Er. discriminate.
Qed.

Lemma PrevievFileHandler_serves_public_only_witness :
  File.PublicFilename (snd (fst (SetVilibility sampleDB fileB false))) = Some "abc" /\
  PrevievFileHandler 4 (snd (SetVilibility sampleDB fileB false)) sampleFS "abc"
  = PreviewNotFound.
Proof.
  apply (proj2 (proj2 (proj2 (PrevievFileHandler_serves_public_only 4 sampleDB sampleFS "abc")))
           fileB eq_refl eq_refl eq_refl).
  intros x [<-|[<-|[]]] Hh; [discriminate Hh | reflexivity].
Defined.

(** While file B is public its slug serves its content, here through a
    buffer of one byte; through a buffer of no bytes it serves an empty
    body. *)
Example preview_fileB :
  PrevievFileHandler 1 sampleDB sampleFS "abc"
  = PreviewContent (Some "text/plain") ["h"%byte; "i"%byte] /\
  PrevievFileHandler 0 sampleDB sampleFS "abc" = PreviewContent (Some "text/plain") [].
Proof. split; vm_compute; reflexivity. Qed.

(** ** Inserting a file *)

(** C5 (evaluation): [Insert] looks a draft tag up by its name alone. The
    draft of "w.txt" lives in namespace 2 and asks for tag "x"; the only row
    named "x" belongs to namespace 1. The insert attaches that row and
    creates none in namespace 2. *)
Lemma Insert_attaches_tag_of_other_namespace :
  let '(err, file, db) := Insert nsHome sampleDB draftInWork alice in
  err = None /\
  File.NamespaceID file = 2 /\
  File.Tags file = [tagX] /\
  map Tag.NamespaceID (File.Tags file) = [1] /\
  db_tags db = db_tags sampleDB.
Proof. vm_compute. repeat split; reflexivity. Qed.

(** ** The update action *)

(** The "Add tags" step overwrites the aggregate flag: what it was before
    the step has no influence on what comes out. *)
Lemma stepAddTags_drops_didUpdate ns user update file db :
  0 < List.length (Updates.AddTags update) ->
  stepAddTags ns user update (true, file, db)
  = stepAddTags ns user update (false, file, db).
Proof.
  intros H. unfold stepAddTags. apply Nat.ltb_lt in H. rewrite H. reflexivity.
Qed.

(** C2 (evaluation): the tag and group steps assign [didUpdate] instead of
    accumulating it. Renaming "a.txt" to "c.txt" while adding the tag "x" it
    already carries persists the new name and still answers "noting to do",
    an error response. *)
Lemma UpdateFileHandler_rename_then_noop_tag :
  let result :=
    UpdateFileHandler nsHome alice sampleDB sampleFS (Some "update") renameAndAddTag in
  fst (fst result) = sendResponse ResponseError "noting to do" None [] /\
  option_map File.Name (storedFile sampleDB 1) = Some "a.txt" /\
  option_map File.Name (storedFile (snd (fst result)) 1) = Some "c.txt".
Proof. repeat split; vm_compute; reflexivity. Qed.

(** C6 (evaluation): the "Update namespace" branch of the update action is
    empty, so a request that only supplies a new namespace changes nothing
    and is answered "noting to do", whereas [UpdateNamespace], which the
    handler never calls, would move the file's row to namespace 2. *)
Lemma UpdateFileHandler_ignores_new_namespace :
  UpdateFileHandler nsHome alice sampleDB sampleFS (Some "update") moveToWork
  = (sendResponse ResponseError "noting to do" None [], sampleDB, sampleFS) /\
  (forall update st, stepNamespace update st = Go st) /\
  option_map File.NamespaceID (storedFile sampleDB 1) = Some 1 /\
  option_map File.NamespaceID
    (storedFile (snd (UpdateNamespace sampleDB fileA nsWork alice)) 1) = Some 2.
Proof.
  split; [vm_compute; reflexivity|].
  split; [|split; vm_compute; reflexivity].
  intros update st. unfold stepNamespace. destruct (0 <? String.length (Updates.NewNamespace update)); reflexivity.
Qed.

(** ** Removing tags *)

Lemma filter_negb_shorter {A} (p : A -> bool) l :
  existsb p l = true ->
  List.length (filter (fun a => negb (p a)) l) < List.length l.
Proof.
  induction l as [|a l IH]; simpl; [discriminate|].
  pose proof (filter_length_le (fun a => negb (p a)) l) as Hle.
  destruct (p a); simpl; intros H; [lia|]. apply IH in H. lia.
Qed.

Lemma filter_all {A} (p : A -> bool) l :
  (forall a, In a l -> p a = true) -> filter p l = l.
Proof.
  induction l as [|a l IH]; simpl; intros H; [reflexivity|].
  rewrite (H a (or_introl eq_refl)), IH; auto.
Qed.

(** Removing names none of which is attached changes nothing at all. *)
Lemma RemoveTags_no_match db file names :
  (forall t, In t (File.Tags file) -> IsInStringArray (Tag.Name t) names = false) ->
  RemoveTags db file names = (None, file, db).
Proof.
  intros H. unfold RemoveTags.
  destruct (List.length (File.Tags file) =? 0); [reflexivity|].
  rewrite filter_all, Nat.ltb_irrefl; [reflexivity|].
  intros t Ht. rewrite (H t Ht). reflexivity.
Qed.

(** ** Upload: validation *)

(** C7: a raw upload whose checksum is not the digest of its data is
    rejected before anything is touched: the answer is an error, which for a
    caller allowed to upload files is "Content wasn't delivered completely"
    (422), and store, blob directory and all the rest of the world are as
    before, so neither a file row nor a blob was added. *)
Theorem UploadfileHandler_checksum_mismatch ns md5 scheme user request w :
  UploadRequest.UploadType request = FileUploadType ->
  md5 (UploadRequest.Data request) <> UploadRequest.Sum request ->
  snd (UploadfileHandler ns md5 scheme user request w) = w /\
  status (fst (UploadfileHandler ns md5 scheme user request w)) = ResponseError /\
  (User.CanUploadFiles user = true ->
   fst (UploadfileHandler ns md5 scheme user request w)
   = sendResponse ResponseError "Content wasn't delivered completely" None [422%Z]).
Proof.
  intros Ht Hsum.
  unfold UploadfileHandler, validateUpload. rewrite Ht.
  destruct (User.CanUploadFiles user); simpl.
  - destruct (String.eqb (md5 (UploadRequest.Data request)) (UploadRequest.Sum request)) eqn:E.
    + apply String.eqb_eq in E. contradiction.
    + repeat split.
  - repeat split. discriminate.
Qed.

Lemma UploadfileHandler_checksum_mismatch_witness :
  UploadfileHandler nsHome sampleMD5 sampleScheme alice uploadCorrupt sampleWorld
  = (sendResponse ResponseError "Content wasn't delivered completely" None [422%Z],
     sampleWorld).
Proof.
  assert (Hsum : sampleMD5 (UploadRequest.Data uploadCorrupt) <> UploadRequest.Sum uploadCorrupt)
    by discriminate.
  destruct (UploadfileHandler_checksum_mismatch nsHome sampleMD5 sampleScheme alice
              uploadCorrupt sampleWorld eq_refl Hsum) as (Hw & _ & Hr).
  rewrite (surjective_pairing (UploadfileHandler _ _ _ _ _ _)), Hw, (Hr eq_refl).
  reflexivity.
Defined.

(** ** Upload: the local name *)

Lemma advance_0 w : advance w 0 = w.
Proof. unfold advance. rewrite Nat.add_0_r. destruct w; reflexivity. Qed.

Lemma advance_RandString w n len :
  advance (snd (RandString w len)) n = advance w (S n).
Proof. unfold advance, RandString; simpl. rewrite Nat.add_succ_r. reflexivity. Qed.

Lemma nthDraw_RandString w k len :
  nthDraw (snd (RandString w len)) k = nthDraw w (S k).
Proof. unfold nthDraw, RandString; simpl. rewrite Nat.add_succ_r. reflexivity. Qed.

Lemma allocLocalName_step n localName w :
  allocLocalName (S n) localName w =
  if taken (w_db w) (nthDraw w 0) then
    allocLocalName n (nthDraw w 0) (snd (RandString w 40))
  else (true, nthDraw w 0, advance w 1).
Proof.
  unfold taken, nthDraw, advance. rewrite Nat.add_0_r, Nat.add_1_r. simpl.
  destruct (List.length _ =? 0); reflexivity.
Qed.

(** All [n] draws are in use: the loop gives up after exactly [n] draws. *)
Lemma allocLocalName_exhausted n : forall localName w,
  (forall k, k < n -> taken (w_db w) (nthDraw w k) = true) ->
  allocLocalName n localName w
  = (false, match n with 0 => localName | S m => nthDraw w m end, advance w n).
Proof.
  induction n as [|n IH]; intros localName w H.
  - simpl. rewrite advance_0. reflexivity.
  - rewrite allocLocalName_step, (H 0) by lia.
    rewrite IH.
    + rewrite advance_RandString. destruct n; [reflexivity|].
      rewrite nthDraw_RandString. reflexivity.
    + intros k Hk. rewrite nthDraw_RandString. apply H. lia.
Qed.

(** Draw [i] is the first one not in use: the loop stops there with it. *)
Lemma allocLocalName_first_free n : forall localName w i,
  i < n ->
  (forall k, k < i -> taken (w_db w) (nthDraw w k) = true) ->
  taken (w_db w) (nthDraw w i) = false ->
  allocLocalName n localName w = (true, nthDraw w i, advance w (S i)).
Proof.
  induction n as [|n IH]; intros localName w i Hi Hbefore Hfree; [lia|].
  rewrite allocLocalName_step. destruct i as [|i].
  - rewrite Hfree. reflexivity.
  - rewrite (Hbefore 0) by lia.
    rewrite (IH _ (snd (RandString w 40)) i).
    + rewrite advance_RandString, nthDraw_RandString. reflexivity.
    + lia.
    + intros k Hk. rewrite nthDraw_RandString. apply Hbefore. lia.
    + rewrite nthDraw_RandString. exact Hfree.
Qed.

(** ** Upload: content and metadata *)

Lemma hasBlob_createBlob fs name : hasBlob (createBlob fs name) name = true.
Proof. unfold hasBlob, createBlob; simpl. rewrite String.eqb_refl. reflexivity. Qed.

Lemma hasBlob_appendBlob fs name data :
  hasBlob fs name = true -> hasBlob (appendBlob fs name data) name = true.
Proof.
  unfold hasBlob, appendBlob. destruct (readBlob fs name) as [c|] eqn:E; [|discriminate].
  intros _. simpl. rewrite String.eqb_refl. reflexivity.
Qed.

Lemma accept_files db : db_files (snd (accept db)) = db_files db.
Proof. unfold accept. destruct (db_faults db); reflexivity. Qed.

Lemma insertGroups_files user groups : forall db,
  db_files (snd (insertGroups db user groups)) = db_files db /\
  db_faults (snd (insertGroups db user groups)) = db_faults db.
Proof.
  induction groups as [|g rest IH]; intros db; simpl; [split; reflexivity|].
  destruct (if Group.ID g =? 0
            then match findGroupByName db (Group.Name g) with
                 | Some row => (row, db)
                 | None => GroupInsert db g user
                 end
            else (g, db)) as [g' db1] eqn:Es.
  assert (H1 : db_files db1 = db_files db /\ db_faults db1 = db_faults db).
  { destruct (Group.ID g =? 0); [destruct (findGroupByName db (Group.Name g))|];
      inversion Es; subst; split; reflexivity. }
  specialize (IH db1). destruct (insertGroups db1 user rest) as [rest' db2]; simpl in *.
  destruct IH, H1. split; congruence.
Qed.

Lemma insertTags_files user tags : forall db,
  db_files (snd (insertTags db user tags)) = db_files db /\
  db_faults (snd (insertTags db user tags)) = db_faults db.
Proof.
  induction tags as [|t rest IH]; intros db; simpl; [split; reflexivity|].
  destruct (if Tag.ID t =? 0
            then match findTagByName db (Tag.Name t) with
                 | Some row => (row, db)
                 | None => TagInsert db t user
                 end
            else (t, db)) as [t' db1] eqn:Es.
  assert (H1 : db_files db1 = db_files db /\ db_faults db1 = db_faults db).
  { destruct (Tag.ID t =? 0); [destruct (findTagByName db (Tag.Name t))|];
      inversion Es; subst; split; reflexivity. }
  specialize (IH db1). destruct (insertTags db1 user rest) as [rest' db2]; simpl in *.
  destruct IH, H1. split; congruence.
Qed.

Lemma syncKeys_LocalName f : File.LocalName (syncKeys f) = File.LocalName f.
Proof.
  unfold syncKeys. destruct (File.Namespace f); simpl; destruct (File.User f); reflexivity.
Qed.

(** [db.Create]: refused, the table is as before; accepted, the new row is
    appended and carries the local name of the file. *)
Lemma Create_outcome db f :
  match Create db f with
  | (Some _, _, db') => db_files db' = db_files db
  | (None, f', db') =>
      exists row, db_files db' = db_files db ++ [row] /\
                  File.LocalName row = File.LocalName f /\
                  File.ID row = File.ID f'
  end.
Proof.
  unfold Create. pose proof (accept_files db) as Ha.
  destruct (accept db) as [ok db1]; simpl in Ha. destruct ok; [|exact Ha].
  eexists. split; [simpl; rewrite Ha; reflexivity|].
  unfold rowOf; simpl. rewrite !syncKeys_LocalName.
  destruct (syncKeys_columns (syncKeys (File.setID f
              (if File.ID f =? 0 then nextID (map File.ID (db_files db)) else File.ID f))))
    as (S1 & _).
  split; [reflexivity | exact S1].
Qed.

(** [File.Insert] touches the files table only through its final
    [db.Create]. *)
Lemma Insert_outcome ns db file user :
  match Insert ns db file user with
  | (Some _, _, db') => db_files db' = db_files db
  | (None, f', db') =>
      exists row, db_files db' = db_files db ++ [row] /\
                  File.LocalName row = File.LocalName file /\
                  File.ID row = File.ID f'
  end.
Proof.
  unfold Insert.
  destruct (insertGroups_files user (File.Groups file) db) as [Hg _].
  destruct (insertGroups db user (File.Groups file)) as [groups db1]; simpl in Hg.
  destruct (insertTags_files user (File.Tags (File.setGroups file groups)) db1) as [Ht _].
  destruct (insertTags db1 user (File.Tags (File.setGroups file groups))) as [tags db2];
    simpl in Ht.
  match goal with |- match Create db2 ?f with _ => _ end =>
    pose proof (Create_outcome db2 f) as Hc;
    destruct (Create db2 f) as [[err f'] db']
  end.
  rewrite Ht, Hg in Hc. exact Hc.
Qed.

Lemma downloadHTTP_outcome user url localName file w :
  match downloadHTTP user url localName file w with
  | (_, _, file', w') =>
      w_db w' = w_db w /\ w_closeFails w' = w_closeFails w /\
      File.LocalName file' = File.LocalName file /\
      (hasBlob (w_fs w) localName = true -> hasBlob (w_fs w') localName = true)
  end.
Proof.
  unfold downloadHTTP. destruct (w_http w url) as [res|]; [|tauto].
  destruct ((StatusCode res <? 200)%Z || (299 <? StatusCode res)%Z); [tauto|].
  destruct (User.HasUploadLimit user && (User.MaxURLcontentSize user <? ContentLength res)%Z);
    [tauto|].
  destruct (ReadFails res); [tauto|].
  destruct (BodyCloseFails res); simpl; repeat split; auto using hasBlob_appendBlob.
Qed.

(** Closes the three parts of an outcome once the answer is known. *)
Ltac answered :=
  repeat split; intros; simpl in *; auto; try congruence; try discriminate.

(** Once the blob has been created, whatever the handler answers the blob
    is in the directory; an error answer leaves the files table as it was,
    and a success answer has appended one row, which carries the local name
    and whose key is the payload. *)
Lemma storeUpload_outcome ns user request file localName w r w' :
  storeUpload ns user request file localName w = (r, w') ->
  w_createFails w = false ->
  hasBlob (w_fs w') localName = true /\
  (status r = ResponseError -> db_files (w_db w') = db_files (w_db w)) /\
  (status r = ResponseSuccess ->
   exists row, db_files (w_db w') = db_files (w_db w) ++ [row] /\
               File.LocalName row = File.LocalName file /\
               payload r = Some (File.ID row)).
Proof.
  unfold storeUpload. intros H Hc. rewrite Hc in H.
  set (w1 := setFS w (createBlob (w_fs w) localName)) in H.
  assert (Hb1 : hasBlob (w_fs w1) localName = true) by apply hasBlob_createBlob.
  assert (Hfinish : forall file2 w2,
            w_db w2 = w_db w -> hasBlob (w_fs w2) localName = true ->
            File.LocalName file2 = File.LocalName file ->
            (if w_closeFails w2 then (sendServerError, w2)
             else let '(err, file3, db) := Insert ns (w_db w2) file2 user in
                  let w3 := setDB w2 db in
                  if LogError err then (sendServerError, w3)
                  else (sendResponse ResponseSuccess "" (Some (File.ID file3)) [], w3))
            = (r, w') ->
            hasBlob (w_fs w') localName = true /\
            (status r = ResponseError -> db_files (w_db w') = db_files (w_db w)) /\
            (status r = ResponseSuccess ->
             exists row, db_files (w_db w') = db_files (w_db w) ++ [row] /\
                         File.LocalName row = File.LocalName file /\
                         payload r = Some (File.ID row))).
  { intros file2 w2 Hdb Hb Hl2 E.
    destruct (w_closeFails w2).
    { inversion E; subst. answered. }
    pose proof (Insert_outcome ns (w_db w2) file2 user) as Hi.
    destruct (Insert ns (w_db w2) file2 user) as [[err file3] db].
    destruct err as [e|]; simpl in E; inversion E; subst; simpl.
    - answered.
    - destruct Hi as (row & Hrows & Hn & Hid).
      repeat split; auto; [discriminate|].
      intros _. exists row. repeat split; congruence. }
  destruct (UploadRequest.UploadType request).
  - destruct (w_writeFails w1) eqn:Ew.
    + inversion H; subst. answered.
    + apply (Hfinish
               (File.setFileSize file (Z.of_nat (List.length (UploadRequest.Data request))))
               (setFS w1 (appendBlob (w_fs w1) localName (UploadRequest.Data request)))
               eq_refl (hasBlob_appendBlob _ _ _ Hb1) eq_refl H).
  - pose proof (downloadHTTP_outcome user (UploadRequest.URL request) localName file w1) as Hd.
    destruct (downloadHTTP user (UploadRequest.URL request) localName file w1)
      as [[[st err] file2] w2].
    destruct Hd as (Hdb & _ & Hl2 & Hb2). specialize (Hb2 Hb1).
    destruct err as [e|].
    + inversion H; subst. answered.
    + destruct ((299 <? st)%Z || (st <? 200)%Z).
      * inversion H; subst. answered.
      * apply (Hfinish file2 w2 Hdb Hb2 Hl2 H).
  - apply (Hfinish file w1 eq_refl Hb1 eq_refl H).
Qed.

Lemma afterNaming_db request w : w_db (afterNaming request w) = w_db w.
Proof. unfold afterNaming. destruct (String.length _ =? 0); reflexivity. Qed.

Section UploadReached.

Variable ns : Namespace.t.
Variable md5 : list byte -> string.
Variable scheme : string -> option string.
Variables (user : User.t) (request : UploadRequest.t) (w : World).
Variable namespace : Namespace.t.

Hypothesis validated : validateUpload md5 scheme user request = None.
Hypothesis found :
  FindNamespace ns (w_db w) (FileAttributes.Namespace (UploadRequest.Attributes request))
  = Some namespace.
Hypothesis permitted :
  negb (IsOwnedBy namespace user) && negb (User.CanWriteForeignNamespace user) = false.

(** The handler up to the allocation loop. *)
Lemma UploadfileHandler_until_alloc :
  UploadfileHandler ns md5 scheme user request w =
  let '(uniqueNameFound, localName, w2) := allocLocalName 5 "" (afterNaming request w) in
  if negb uniqueNameFound then (sendServerError, w2)
  else storeUpload ns user request (draftOf request namespace user w localName) localName w2.
Proof.
  unfold UploadfileHandler, afterNaming, draftOf. rewrite validated.
  destruct (String.length (UploadRequest.Name request) =? 0);
    unfold RandString; cbn [fst snd w_db]; rewrite found, permitted; reflexivity.
Qed.

(** Every one of the five draws is in use: "internal server error" after
    exactly five draws. *)
Lemma UploadfileHandler_exhausted :
  (forall k, k < 5 ->
     taken (w_db (afterNaming request w)) (nthDraw (afterNaming request w) k) = true) ->
  UploadfileHandler ns md5 scheme user request w
  = (sendServerError, advance (afterNaming request w) 5).
Proof.
  intros H. rewrite UploadfileHandler_until_alloc.
  rewrite (allocLocalName_exhausted 5 "" _ H). reflexivity.
Qed.

(** Draw [i] is the first free one: the handler stores the upload under
    it. *)
Lemma UploadfileHandler_allocated i :
  i < 5 ->
  (forall k, k < i ->
     taken (w_db (afterNaming request w)) (nthDraw (afterNaming request w) k) = true) ->
  taken (w_db (afterNaming request w)) (nthDraw (afterNaming request w) i) = false ->
  UploadfileHandler ns md5 scheme user request w
  = storeUpload ns user request
      (draftOf request namespace user w (nthDraw (afterNaming request w) i))
      (nthDraw (afterNaming request w) i)
      (advance (afterNaming request w) (S i)).
Proof.
  intros Hi Hb Hf. rewrite UploadfileHandler_until_alloc.
  rewrite (allocLocalName_first_free 5 "" _ i Hi Hb Hf). reflexivity.
Qed.

End UploadReached.

(** C8: once the request is validated and its namespace found and
    writable, the handler draws identifiers of length 40 and checks each
    against the live files. When the five draws are all in use the loop ends
    after exactly five draws without a name and the answer is "internal
    server error", nothing else having changed. When draw [i < 5] is the
    first free one the loop stops there, the file is built with that local
    name, the content is stored under it, and after a successful upload the
    new row carries it and the blob of that name exists. *)
Theorem UploadfileHandler_local_name ns md5 scheme user request w namespace :
  validateUpload md5 scheme user request = None ->
  FindNamespace ns (w_db w) (FileAttributes.Namespace (UploadRequest.Attributes request))
  = Some namespace ->
  negb (IsOwnedBy namespace user) && negb (User.CanWriteForeignNamespace user) = false ->
  let w1 := afterNaming request w in
  ((forall k, k < 5 -> taken (w_db w1) (nthDraw w1 k) = true) ->
   allocLocalName 5 "" w1 = (false, nthDraw w1 4, advance w1 5) /\
   UploadfileHandler ns md5 scheme user request w = (sendServerError, advance w1 5) /\
   w_drawn (advance w1 5) = w_drawn w1 + 5 /\
   w_db (advance w1 5) = w_db w /\ w_fs (advance w1 5) = w_fs w) /\
  (forall i,
     i < 5 ->
     (forall k, k < i -> taken (w_db w1) (nthDraw w1 k) = true) ->
     taken (w_db w1) (nthDraw w1 i) = false ->
     allocLocalName 5 "" w1 = (true, nthDraw w1 i, advance w1 (S i)) /\
     File.LocalName (draftOf request namespace user w (nthDraw w1 i)) = nthDraw w1 i /\
     UploadfileHandler ns md5 scheme user request w
     = storeUpload ns user request (draftOf request namespace user w (nthDraw w1 i))
                   (nthDraw w1 i) (advance w1 (S i)) /\
     forall r w',
       UploadfileHandler ns md5 scheme user request w = (r, w') ->
       w_createFails w = false ->
       status r = ResponseSuccess ->
       hasBlob (w_fs w') (nthDraw w1 i) = true /\
       exists row, db_files (w_db w') = db_files (w_db w) ++ [row] /\
                   File.LocalName row = nthDraw w1 i /\
                   payload r = Some (File.ID row)).
Proof.
  intros Hv Hn Hp w1. split.
  - intros H. split; [exact (allocLocalName_exhausted 5 "" w1 H)|].
    split; [exact (UploadfileHandler_exhausted ns md5 scheme user request w namespace
                     Hv Hn Hp H)|].
    unfold w1, afterNaming. destruct (String.length _ =? 0); repeat split.
  - intros i Hi Hb Hf.
    pose proof (UploadfileHandler_allocated ns md5 scheme user request w namespace
                  Hv Hn Hp i Hi Hb Hf) as E.
    fold w1 in E.
    split; [exact (allocLocalName_first_free 5 "" w1 i Hi Hb Hf)|].
    split; [reflexivity|]. split; [exact E|].
    intros r w' Hr Hc Hs. rewrite E in Hr.
    assert (Hc1 : w_createFails (advance w1 (S i)) = false).
    { unfold w1, afterNaming. destruct (String.length _ =? 0); exact Hc. }
    destruct (storeUpload_outcome _ _ _ _ _ _ _ _ Hr Hc1) as (Hblob & _ & Hrow).
    split; [exact Hblob|].
    destruct (Hrow Hs) as (row & Hrows & Hl & Hpay).
    exists row. simpl in Hrows. unfold w1 in Hrows. rewrite afterNaming_db in Hrows.
    repeat split; assumption.
Qed.

Lemma UploadfileHandler_local_name_witness :
  UploadfileHandler nsHome sampleMD5 sampleScheme alice uploadHi crowdedWorld
  = (sendServerError, advance crowdedWorld 5) /\
  (let result := UploadfileHandler nsHome sampleMD5 sampleScheme alice uploadHi sampleWorld in
   hasBlob (w_fs (snd result)) "fresh" = true /\
   exists row, db_files (w_db (snd result)) = db_files sampleDB ++ [row] /\
               File.LocalName row = "fresh" /\
               payload (fst result) = Some (File.ID row)).
Proof.
  split.
  - refine (proj1 (proj2 (proj1
      (UploadfileHandler_local_name nsHome sampleMD5 sampleScheme alice uploadHi
         crowdedWorld nsHome eq_refl eq_refl eq_refl) _))).
    intros k _. reflexivity.
  - refine (proj2 (proj2 (proj2 (proj2
      (UploadfileHandler_local_name nsHome sampleMD5 sampleScheme alice uploadHi
         sampleWorld nsHome eq_refl eq_refl eq_refl) 1 _ _ eq_refl)))
      (fst (UploadfileHandler nsHome sampleMD5 sampleScheme alice uploadHi sampleWorld))
      (snd (UploadfileHandler nsHome sampleMD5 sampleScheme alice uploadHi sampleWorld))
      (surjective_pairing _) eq_refl _).
    + apply Nat.lt_succ_r, Nat.le_succ_l, Nat.lt_0_succ.
    + intros [|k] Hk; [reflexivity|].
      exfalso. exact (Nat.nlt_0_r _ (proj2 (Nat.succ_lt_mono _ _) Hk)).
    + vm_compute. reflexivity.
Defined.

(** The upload of "hi" into the sample world, in full: the first draw
    collides, the second names the blob and the row. *)
Example upload_hi :
  let result := UploadfileHandler nsHome sampleMD5 sampleScheme alice uploadHi sampleWorld in
  fst result = sendResponse ResponseSuccess "" (Some 3) [] /\
  readBlob (w_fs (snd result)) "fresh" = Some ["h"%byte; "i"%byte] /\
  w_drawn (snd result) = 2 /\
  map File.LocalName (db_files (w_db (snd result))) = ["blobA"; "blobB"; "fresh"].
Proof. repeat split; vm_compute; reflexivity. Qed.

(** C3 (as the code has it): an upload that is answered with an error
    after its blob has been created (a failed write or close, a failed or
    non-2xx fetch, an announced length above the role's ceiling, a refused
    insert) adds no file row, and the blob created under the allocated
    local name is still in the directory: nothing removes it. *)
Theorem UploadfileHandler_failure_leaves_blob
    ns md5 scheme user request w namespace i r w' :
  validateUpload md5 scheme user request = None ->
  FindNamespace ns (w_db w) (FileAttributes.Namespace (UploadRequest.Attributes request))
  = Some namespace ->
  negb (IsOwnedBy namespace user) && negb (User.CanWriteForeignNamespace user) = false ->
  i < 5 ->
  (forall k, k < i ->
     taken (w_db (afterNaming request w)) (nthDraw (afterNaming request w) k) = true) ->
  taken (w_db (afterNaming request w)) (nthDraw (afterNaming request w) i) = false ->
  w_createFails w = false ->
  UploadfileHandler ns md5 scheme user request w = (r, w') ->
  status r = ResponseError ->
  hasBlob (w_fs w') (nthDraw (afterNaming request w) i) = true /\
  db_files (w_db w') = db_files (w_db w).
Proof.
  intros Hv Hn Hp Hi Hb Hf Hc Hr Hs.
  rewrite (UploadfileHandler_allocated ns md5 scheme user request w namespace
             Hv Hn Hp i Hi Hb Hf) in Hr.
  assert (Hc1 : w_createFails (advance (afterNaming request w) (S i)) = false).
  { unfold afterNaming. destruct (String.length _ =? 0); exact Hc. }
  destruct (storeUpload_outcome _ _ _ _ _ _ _ _ Hr Hc1) as (Hblob & Hrows & _).
  split; [exact Hblob|].
  rewrite (Hrows Hs). simpl. rewrite afterNaming_db. reflexivity.
Qed.

Lemma UploadfileHandler_failure_leaves_blob_witness :
  let result := UploadfileHandler nsHome sampleMD5 sampleScheme alice uploadGone sampleWorld in
  hasBlob (w_fs (snd result)) "fresh" = true /\
  db_files (w_db (snd result)) = db_files sampleDB.
Proof.
  refine (UploadfileHandler_failure_leaves_blob nsHome sampleMD5 sampleScheme alice
            uploadGone sampleWorld nsHome 1
            (fst (UploadfileHandler nsHome sampleMD5 sampleScheme alice uploadGone sampleWorld))
            (snd (UploadfileHandler nsHome sampleMD5 sampleScheme alice uploadGone sampleWorld))
            eq_refl eq_refl eq_refl _ _ eq_refl eq_refl (surjective_pairing _) _).
  3: vm_compute; reflexivity.
  - apply Nat.lt_succ_r, Nat.le_succ_l, Nat.lt_0_succ.
  - intros [|k] Hk; [reflexivity|].
    exfalso. exact (Nat.nlt_0_r _ (proj2 (Nat.succ_lt_mono _ _) Hk)).
Defined.

(** C3 (as stated) fails: the URL upload of "http://h/gone", which answers
    404, is rejected with "Non ok response: 404", and the blob "fresh" that
    did not exist before is in the directory afterwards. *)
Lemma UploadfileHandler_orphan_blob_counterexample :
  ~ (forall ns md5 scheme user request w res,
       UploadRequest.UploadType request = URLUploadType ->
       w_http w (UploadRequest.URL request) = Some res ->
       (StatusCode res < 200 \/ 299 < StatusCode res)%Z ->
       forall name,
         hasBlob (w_fs (snd (UploadfileHandler ns md5 scheme user request w))) name = true ->
         hasBlob (w_fs w) name = true).
Proof.
  intros H.
  specialize (H nsHome sampleMD5 sampleScheme alice uploadGone sampleWorld
                (mkHTTPResponse 404 0 [] false false) eq_refl eq_refl
                (or_intror eq_refl) "fresh" eq_refl).
  discriminate H.
Qed.

(** The three failures the upload can meet after the blob is created. *)
Example upload_gone :
  let result := UploadfileHandler nsHome sampleMD5 sampleScheme alice uploadGone sampleWorld in
  fst result = sendResponse ResponseError "Non ok response: 404" None [400%Z] /\
  readBlob (w_fs (snd result)) "fresh" = Some [] /\
  w_db (snd result) = sampleDB.
Proof. repeat split; vm_compute; reflexivity. Qed.

Example upload_too_large :
  let result := UploadfileHandler nsHome sampleMD5 sampleScheme alice uploadBig sampleWorld in
  fst result = sendResponse ResponseError "File too large" None [400%Z] /\
  readBlob (w_fs (snd result)) "fresh" = Some [] /\
  w_db (snd result) = sampleDB.
Proof. repeat split; vm_compute; reflexivity. Qed.

Example upload_insert_refused :
  let result := UploadfileHandler nsHome sampleMD5 sampleScheme alice uploadHi refusingWorld in
  fst result = sendServerError /\
  readBlob (w_fs (snd result)) "fresh" = Some ["h"%byte; "i"%byte] /\
  db_files (w_db (snd result)) = db_files sampleDB.
Proof. repeat split; vm_compute; reflexivity. Qed.

(** * Further properties of the models and handlers *)

(** ** Saving, in general *)

(** Whatever the store answers, saving leaves these fields of the file in
    memory as they were. *)
Lemma dbSave_memory db f :
  let f' := snd (fst (dbSave db f)) in
  File.Tags f' = File.Tags f /\ File.Groups f' = File.Groups f /\
  File.Name f' = File.Name f /\ File.LocalName f' = File.LocalName f /\
  File.IsPublic f' = File.IsPublic f /\ File.PublicFilename f' = File.PublicFilename f.
Proof.
  assert (Hs : forall g, File.Tags (syncKeys g) = File.Tags g /\
                         File.Groups (syncKeys g) = File.Groups g /\
                         File.Name (syncKeys g) = File.Name g /\
                         File.LocalName (syncKeys g) = File.LocalName g /\
                         File.IsPublic (syncKeys g) = File.IsPublic g /\
                         File.PublicFilename (syncKeys g) = File.PublicFilename g).
  { intros g. destruct (syncKeys_columns g) as (_ & _ & S3 & S4 & S5 & S6 & S7).
    pose proof (syncKeys_LocalName g). tauto. }
  unfold dbSave, Create.
  destruct (File.ID f =? 0); destruct (accept db) as [[|] db1]; simpl;
    try tauto; try apply Hs.
  - apply (Hs (File.setID f (nextID (map File.ID (db_files db))))).
  - destruct (existsb (isRow (File.ID f)) (db_files db1)); simpl; apply Hs.
Qed.

Lemma dbSave_tables db f :
  db_tags (snd (dbSave db f)) = db_tags db /\
  db_groups (snd (dbSave db f)) = db_groups db /\
  db_namespaces (snd (dbSave db f)) = db_namespaces db.
Proof.
  unfold dbSave, Create, accept.
  destruct (File.ID f =? 0); destruct (db_faults db) as [|[|] rest]; simpl;
    try (destruct (existsb (isRow (File.ID f)) _)); simpl; tauto.
Qed.

(** Saving a stored file when the store accepts the statement. *)
Lemma dbSave_stored_accept db db1 f :
  isStored db f = true -> accept db = (true, db1) ->
  dbSave db f =
    (None, syncKeys f,
     setFiles db1 (map (fun r => if isRow (File.ID f) r then updateRow r (syncKeys f) else r)
                       (db_files db))).
Proof.
  unfold isStored; intros Hs Ha.
  apply andb_prop in Hs as [Hs Hex]. apply andb_prop in Hs as [Hid Hl].
  unfold dbSave. apply negb_true_iff in Hid. rewrite Hid, Ha.
  pose proof (accept_files db) as Hf. rewrite Ha in Hf. simpl in Hf.
  rewrite Hf, Hex. reflexivity.
Qed.

Lemma readBlob_removeBlob fs name : readBlob (removeBlob fs name) name = None.
Proof.
  induction fs as [|[n c] rest IH]; simpl; [reflexivity|].
  destruct (String.eqb n name) eqn:E; simpl; [exact IH|]. rewrite E. exact IH.
Qed.

Lemma firstByID_same_key id rows :
  (forall x, In x rows -> File.ID x = id) -> firstByID rows = hd_error rows.
Proof.
  induction rows as [|r rs IH]; intros H; [reflexivity|]. simpl.
  rewrite IH by (intros x Hx; apply H; right; exact Hx).
  destruct rs as [|m rs']; [reflexivity|]. simpl.
  rewrite (H r), (H m) by (simpl; auto). rewrite Nat.leb_refl. reflexivity.
Qed.

Lemma filter_isRow_key id rows x : In x (filter (isRow id) rows) -> File.ID x = id.
Proof.
  intros H. apply filter_In in H as [_ H]. unfold isRow in H.
  apply andb_prop in H as [_ H]. apply Nat.eqb_eq in H. exact H.
Qed.

(** ** Deleting a file *)

(** The rows of a stored file after [Delete] on a store that accepts both
    statements. *)
Lemma Delete_stored_eq db fs f :
  isStored db f = true -> db_faults db = [] ->
  exists f',
    Delete db fs f =
    (None, f',
     setFiles db (map (fun r => if isRow (File.ID f) r
                                then File.setDeletedAt (updateRow r f') true else r)
                      (db_files db)),
     removeBlob fs (File.LocalName f)) /\ live f' = true /\ File.ID f' = File.ID f.
Proof.
  intros Hs Hf. unfold Delete, Save.
  set (f1 := File.setPublicFilename (File.setIsPublic f false) None).
  rewrite (dbSave_stored_eq db f1 Hs Hf). simpl LogError. cbv iota.
  destruct (syncKeys_columns f1) as (S1 & S2 & _). pose proof (syncKeys_LocalName f1) as SL.
  set (g := syncKeys f1) in *. simpl in S1, S2, SL.
  exists g. unfold dbDelete. rewrite accept_no_faults by exact Hf. simpl.
  rewrite SL, S1. split; [|split; [|reflexivity]].
  - f_equal. f_equal. unfold setFiles; simpl. f_equal.
    rewrite map_map. apply map_ext. intros r. destruct (isRow (File.ID f) r) eqn:E; [|rewrite E; reflexivity].
    assert (Hr : isRow (File.ID f) (updateRow r g) = true).
    { destruct (updateRow_columns r g) as (U1 & U2 & _).
      unfold isRow, live. rewrite U1, U2, S1, S2, Nat.eqb_refl.
      unfold isStored, live in Hs. apply andb_prop in Hs as [Hs _].
      apply andb_prop in Hs as [_ Hs]. rewrite Hs. reflexivity. }
    rewrite Hr. reflexivity.
  - unfold live. rewrite S2. unfold isStored, live in Hs.
    apply andb_prop in Hs as [Hs _]. apply andb_prop in Hs as [_ Hs]. exact Hs.
Qed.

(** [Delete] of a stored file, the store accepting: no error, the blob is
    gone, no live row has the key any more, and a slug is bound afterwards
    only if another file held it before: the slugs of the deleted file are
    free again. *)
Theorem Delete_frees_slug_row_and_blob db fs f :
  isStored db f = true -> db_faults db = [] ->
  exists f' db',
    Delete db fs f = (None, f', db', removeBlob fs (File.LocalName f)) /\
    hasBlob (removeBlob fs (File.LocalName f)) (File.LocalName f) = false /\
    storedFile db' (File.ID f) = None /\
    (forall s, slugBound db' s = true ->
       exists x, In x (db_files db) /\ holdsSlug s x = true /\ File.ID x <> File.ID f).
Proof.
  intros Hs Hf. destruct (Delete_stored_eq db fs f Hs Hf) as (f' & E & Hl & Hid).
  eexists f', _. split; [exact E|]. split; [|split].
  - unfold hasBlob. rewrite readBlob_removeBlob. reflexivity.
  - unfold storedFile. simpl. apply firstByID_None, filter_nil_existsb.
    apply not_true_is_false. intros Hex. apply existsb_exists in Hex as (y & Hin & Hy).
    apply in_map_iff in Hin as (x & <- & _).
    destruct (isRow (File.ID f) x) eqn:Ex; [|congruence].
    unfold isRow, live in Hy. simpl in Hy. discriminate Hy.
  - intros s Hb. unfold slugBound in Hb. simpl in Hb.
    apply existsb_exists in Hb as (y & Hin & Hy).
    apply in_map_iff in Hin as (x & <- & Hin).
    destruct (isRow (File.ID f) x) eqn:Ex.
    + unfold holdsSlug, live in Hy. simpl in Hy. discriminate Hy.
    + exists x. repeat split; auto. intros Hk.
      unfold holdsSlug in Hy. apply andb_prop in Hy as [Hlx _].
      unfold isRow in Ex. rewrite Hlx, Hk, Nat.eqb_refl in Ex. discriminate Ex.
Qed.

Lemma Delete_frees_slug_row_and_blob_witness :
  exists f' db',
    Delete sampleDB sampleFS fileB = (None, f', db', removeBlob sampleFS "blobB") /\
    hasBlob (removeBlob sampleFS "blobB") "blobB" = false /\
    storedFile db' 2 = None /\
    (forall s, slugBound db' s = true ->
       exists x, In x (db_files sampleDB) /\ holdsSlug s x = true /\ File.ID x <> 2).
Proof. exact (Delete_frees_slug_row_and_blob sampleDB sampleFS fileB eq_refl eq_refl). Defined.

(** [Delete] on a store that refuses a statement. Refusing the first one
    (the save that clears the public fields) stops the deletion: the error is
    returned, blobs and rows are untouched. Refusing only the second one (the
    soft delete) returns the error after the blob has been removed: the row
    is still live, private and without slug, and its content is gone. *)
Theorem Delete_on_refusing_store db fs f rest :
  (db_faults db = true :: rest ->
   fst (fst (fst (Delete db fs f))) = Some ErrStore /\
   snd (Delete db fs f) = fs /\
   db_files (snd (fst (Delete db fs f))) = db_files db) /\
  (db_faults db = false :: true :: rest -> isStored db f = true ->
   fst (fst (fst (Delete db fs f))) = Some ErrStore /\
   snd (Delete db fs f) = removeBlob fs (File.LocalName f) /\
   exists r, storedFile (snd (fst (Delete db fs f))) (File.ID f) = Some r /\
             File.IsPublic r = false /\ File.PublicFilename r = None).
Proof.
  split.
  - intros Hf. unfold Delete, Save, dbSave, Create, accept. rewrite Hf.
    destruct (File.ID _ =? 0); simpl; repeat split.
  - intros Hf Hs. unfold Delete, Save.
    set (f1 := File.setPublicFilename (File.setIsPublic f false) None).
    assert (Ha : accept db = (true, setFaults db (true :: rest)))
      by (unfold accept; rewrite Hf; reflexivity).
    rewrite (dbSave_stored_accept db _ f1 Hs Ha). simpl LogError. cbv iota.
    unfold dbDelete, accept. simpl.
    pose proof (syncKeys_LocalName f1) as SL. simpl in SL. rewrite SL.
    split; [reflexivity|]. split; [reflexivity|].
    destruct (syncKeys_columns f1) as (S1 & S2 & S3 & S4 & _). simpl in S1, S2, S3, S4.
    assert (Hrow : forall x, isRow (File.ID f) (updateRow x (syncKeys f1)) = true).
    { intros x. destruct (updateRow_columns x (syncKeys f1)) as (U1 & U2 & _).
      unfold isRow, live. rewrite U1, U2, S1, S2, Nat.eqb_refl.
      unfold isStored, live in Hs. apply andb_prop in Hs as [Hs _].
      apply andb_prop in Hs as [_ Hs]. rewrite Hs. reflexivity. }
    unfold storedFile. simpl.
    rewrite (filter_map_update (isRow (File.ID f)) (fun x => updateRow x (syncKeys f1))
               (db_files db) Hrow).
    destruct (firstByID (map (fun x => updateRow x (syncKeys f1))
                             (filter (isRow (File.ID f)) (db_files db)))) as [r|] eqn:E.
    + exists r. split; [reflexivity|].
      apply firstByID_In in E. apply in_map_iff in E as (x & <- & _).
      destruct (updateRow_columns x (syncKeys f1)) as (_ & _ & U3 & U4 & _).
      rewrite U3, U4, S3, S4. split; reflexivity.
    + exfalso. apply firstByID_None in E. apply map_eq_nil in E.
      apply filter_nil_existsb in E. unfold isStored in Hs.
      apply andb_prop in Hs as [_ Hs]. congruence.
Qed.

Lemma Delete_on_refusing_store_witness :
  (fst (fst (fst (Delete (setFaults sampleDB [true]) sampleFS fileB))) = Some ErrStore /\
   snd (Delete (setFaults sampleDB [true]) sampleFS fileB) = sampleFS /\
   db_files (snd (fst (Delete (setFaults sampleDB [true]) sampleFS fileB)))
   = db_files sampleDB) /\
  (fst (fst (fst (Delete (setFaults sampleDB [false; true]) sampleFS fileB))) = Some ErrStore /\
   snd (Delete (setFaults sampleDB [false; true]) sampleFS fileB)
   = removeBlob sampleFS "blobB" /\
   exists r, storedFile (snd (fst (Delete (setFaults sampleDB [false; true]) sampleFS fileB))) 2
             = Some r /\
             File.IsPublic r = false /\ File.PublicFilename r = None).
Proof.
  split.
  - exact (proj1 (Delete_on_refusing_store (setFaults sampleDB [true]) sampleFS fileB [])
                 eq_refl).
  - exact (proj2 (Delete_on_refusing_store (setFaults sampleDB [false; true]) sampleFS fileB [])
                 eq_refl eq_refl).
Defined.

(** ** Removing and adding tags and groups *)

Lemma filter_same_length {A} (p : A -> bool) l :
  (List.length (filter p l) <? List.length l) = false -> filter p l = l.
Proof.
  induction l as [|a l IH]; simpl; [reflexivity|].
  pose proof (filter_length_le p l) as Hle.
  destruct (p a); simpl; intros H; apply Nat.ltb_ge in H.
  - f_equal. apply IH. apply Nat.ltb_ge. lia.
  - lia.
Qed.

Lemma length_0_nil {A} (l : list A) : (List.length l =? 0) = true -> l = [].
Proof. destruct l; [reflexivity | discriminate]. Qed.

(** Whatever the store answers, [RemoveTags] leaves in memory exactly the
    tags whose name is not listed, in their order, so that afterwards the
    file has none of the listed tags; [RemoveGroups] does the same for
    groups. *)
Theorem RemoveTags_RemoveGroups_in_memory db file names :
  (File.Tags (snd (fst (RemoveTags db file names)))
   = filter (fun t => negb (IsInStringArray (Tag.Name t) names)) (File.Tags file) /\
   forall n, In n names -> HasTag (snd (fst (RemoveTags db file names))) n = false) /\
  (File.Groups (snd (fst (RemoveGroups db file names)))
   = filter (fun g => negb (IsInStringArray (Group.Name g) names)) (File.Groups file) /\
   forall n, In n names -> HasGroup (snd (fst (RemoveGroups db file names))) n = false).
Proof.
  split.
  - assert (E : File.Tags (snd (fst (RemoveTags db file names)))
                = filter (fun t => negb (IsInStringArray (Tag.Name t) names)) (File.Tags file)).
    { unfold RemoveTags.
      destruct (List.length (File.Tags file) =? 0) eqn:E0.
      { apply length_0_nil in E0. simpl. rewrite E0. reflexivity. }
      destruct (List.length _ <? List.length (File.Tags file)) eqn:El.
      - unfold Save.
        destruct (dbSave_memory (clearTags db file)
                    (File.setTags file
                       (filter (fun t => negb (IsInStringArray (Tag.Name t) names))
                               (File.Tags file)))) as (Ht & _).
        exact Ht.
      - simpl. symmetry. apply filter_same_length. exact El. }
    split; [exact E|]. intros n Hn. unfold HasTag. rewrite E.
    apply not_true_is_false. intros Hex. apply existsb_exists in Hex as (t & Hin & Ht).
    apply filter_In in Hin as [_ Hin]. apply negb_true_iff in Hin.
    apply String.eqb_eq in Ht.
    assert (Hc : IsInStringArray (Tag.Name t) names = true).
    { apply existsb_exists. exists n. split; [exact Hn|]. rewrite Ht. apply String.eqb_refl. }
    congruence.
  - assert (E : File.Groups (snd (fst (RemoveGroups db file names)))
                = filter (fun g => negb (IsInStringArray (Group.Name g) names))
                         (File.Groups file)).
    { unfold RemoveGroups.
      destruct (List.length (File.Groups file) =? 0) eqn:E0.
      { apply length_0_nil in E0. simpl. rewrite E0. reflexivity. }
      destruct (List.length _ <? List.length (File.Groups file)) eqn:El.
      - unfold Save.
        destruct (dbSave_memory (clearGroups db file)
                    (File.setGroups file
                       (filter (fun g => negb (IsInStringArray (Group.Name g) names))
                               (File.Groups file)))) as (_ & Hg & _).
        exact Hg.
      - unfold Save. destruct (dbSave_memory db file) as (_ & Hg & _).
        rewrite Hg. symmetry. apply filter_same_length. exact El. }
    split; [exact E|]. intros n Hn. unfold HasGroup. rewrite E.
    apply not_true_is_false. intros Hex. apply existsb_exists in Hex as (g & Hin & Hg).
    apply filter_In in Hin as [_ Hin]. apply negb_true_iff in Hin.
    apply String.eqb_eq in Hg.
    assert (Hc : IsInStringArray (Group.Name g) names = true).
    { apply existsb_exists. exists n. split; [exact Hn|]. rewrite Hg. apply String.eqb_refl. }
    congruence.
Qed.

Lemma RemoveTags_RemoveGroups_in_memory_witness :
  HasTag (snd (fst (RemoveTags sampleDB fileA ["y"; "x"]))) "x" = false.
Proof.
  exact (proj2 (proj1 (RemoveTags_RemoveGroups_in_memory sampleDB fileA ["y"; "x"]))
               "x" (or_intror (or_introl eq_refl))).
Defined.

Lemma isRow_setTags id r tags : isRow id (File.setTags r tags) = isRow id r.
Proof. reflexivity. Qed.

Lemma addTagRefs_nil new : addTagRefs [] new = new.
Proof.
  unfold addTagRefs. simpl. induction new as [|t rest IH]; simpl; [reflexivity|].
  f_equal. exact IH.
Qed.

(** [RemoveTags] on a stored file whose tags in memory are those of its row,
    the store accepting writes: the row read back by key has exactly the
    tags whose name is not listed. *)
Theorem RemoveTags_persisted db file names r :
  isStored db file = true -> db_faults db = [] ->
  storedFile db (File.ID file) = Some r ->
  File.Tags r = File.Tags file ->
  exists r',
    storedFile (snd (RemoveTags db file names)) (File.ID file) = Some r' /\
    File.Tags r'
    = filter (fun t => negb (IsInStringArray (Tag.Name t) names)) (File.Tags file).
Proof.
  intros Hs Hf Hst Htags. unfold RemoveTags.
  destruct (List.length (File.Tags file) =? 0) eqn:E0.
  { apply length_0_nil in E0. exists r. simpl. rewrite Hst, Htags, E0. auto. }
  set (newTags := filter (fun t => negb (IsInStringArray (Tag.Name t) names)) (File.Tags file)).
  destruct (List.length newTags <? List.length (File.Tags file)) eqn:El.
  2: { exists r. simpl. rewrite Hst, Htags. split; [reflexivity|].
       symmetry. apply filter_same_length. exact El. }
  unfold clearTags. rewrite (accept_no_faults _ Hf).
  set (db1 := setFiles db _).
  assert (Hs1 : isStored db1 (File.setTags file newTags) = true).
  { pose proof Hs as Hs'. unfold isStored in Hs'. apply andb_prop in Hs' as [Hk Hex].
    unfold isStored. apply andb_true_intro. split; [exact Hk|].
    apply existsb_exists in Hex as (x & Hin & Hx).
    apply existsb_exists. exists (File.setTags x []). split.
    - unfold db1. simpl. apply in_map_iff. exists x. rewrite Hx. auto.
    - rewrite isRow_setTags. exact Hx. }
  unfold Save. rewrite (dbSave_stored_eq db1 (File.setTags file newTags) Hs1 Hf).
  destruct (syncKeys_columns (File.setTags file newTags)) as (S1 & S2 & _ & _ & S5 & _).
  set (g := syncKeys (File.setTags file newTags)) in *. simpl in S1, S2, S5.
  unfold storedFile in *. simpl.
  rewrite map_map.
  assert (Hrow : forall x, isRow (File.ID file) (updateRow (File.setTags x []) g) = true).
  { intros x. destruct (updateRow_columns (File.setTags x []) g) as (U1 & U2 & _).
    unfold isRow, live. rewrite U1, U2, S1, S2, Nat.eqb_refl.
    unfold isStored, live in Hs. apply andb_prop in Hs as [Hs _].
    apply andb_prop in Hs as [_ Hs]. rewrite Hs. reflexivity. }
  rewrite (map_ext _ (fun x => if isRow (File.ID file) x
                               then updateRow (File.setTags x []) g else x)).
  2: { intros x. destruct (isRow (File.ID file) x) eqn:Ex.
       - rewrite isRow_setTags, Ex. reflexivity.
       - rewrite Ex. reflexivity. }
  rewrite (filter_map_update (isRow (File.ID file))
             (fun x => updateRow (File.setTags x []) g) (db_files db) Hrow).
  rewrite (firstByID_same_key (File.ID file)) in Hst by apply filter_isRow_key.
  rewrite (firstByID_same_key (File.ID file)).
  2: { intros y Hy. apply in_map_iff in Hy as (x & <- & _).
       destruct (updateRow_columns (File.setTags x []) g) as (U1 & _). congruence. }
  destruct (filter (isRow (File.ID file)) (db_files db)) as [|x xs]; [discriminate|].
  simpl in *. inversion Hst; subst x.
  eexists. split; [reflexivity|].
  unfold updateRow. simpl. rewrite addTagRefs_nil. exact S5.
Qed.

Lemma RemoveTags_persisted_witness :
  exists r',
    storedFile (snd (RemoveTags sampleDB fileA ["x"])) 1 = Some r' /\ File.Tags r' = [].
Proof.
  exact (RemoveTags_persisted sampleDB fileA ["x"] fileA eq_refl eq_refl eq_refl eq_refl).
Defined.

(** [RemoveGroups] writes to the store even when no listed name matches: on
    a file with at least one group and a store refusing the next statement it
    returns the store's error, where [RemoveTags] in the same situation
    returns without error and without having reached the store. *)
Theorem RemoveGroups_saves_without_match db file names rest :
  db_faults db = true :: rest ->
  (File.Groups file <> [] ->
   (forall g, In g (File.Groups file) -> IsInStringArray (Group.Name g) names = false) ->
   fst (fst (RemoveGroups db file names)) = Some ErrStore /\
   db_faults (snd (RemoveGroups db file names)) = rest) /\
  ((forall t, In t (File.Tags file) -> IsInStringArray (Tag.Name t) names = false) ->
   RemoveTags db file names = (None, file, db)).
Proof.
  intros Hf. split; [|apply RemoveTags_no_match].
  intros Hne Hno. unfold RemoveGroups.
  destruct (File.Groups file) as [|g0 gs] eqn:Eg; [congruence|].
  cbn [List.length Nat.eqb].
  rewrite filter_all by (intros g Hg; rewrite (Hno g Hg); reflexivity).
  rewrite Nat.ltb_irrefl.
  unfold Save, dbSave, Create, accept. rewrite Hf.
  destruct (File.ID file =? 0); simpl; split; reflexivity.
Qed.

Lemma RemoveGroups_saves_without_match_witness :
  fst (fst (RemoveGroups (setFaults sampleDB [true])
                         (File.setGroups fileA [Group.mk 1 "g" 1 7]) ["h"]))
  = Some ErrStore /\
  RemoveTags (setFaults sampleDB [true]) (File.setGroups fileA [Group.mk 1 "g" 1 7]) ["h"]
  = (None, File.setGroups fileA [Group.mk 1 "g" 1 7], setFaults sampleDB [true]).
Proof.
  pose proof (RemoveGroups_saves_without_match (setFaults sampleDB [true])
                (File.setGroups fileA [Group.mk 1 "g" 1 7]) ["h"] [] eq_refl) as [Hg Ht].
  split.
  - apply Hg; [discriminate|]. intros g [<-|[]]. reflexivity.
  - apply Ht. intros t [<-|[]]. reflexivity.
Defined.

Lemma addTagsLoop_grows ns user names : forall db file,
  exists extra,
    File.Tags (fst (addTagsLoop ns db file names user)) = File.Tags file ++ extra /\
    List.length extra <= List.length names.
Proof.
  induction names as [|n rest IH]; intros db file; simpl.
  - exists []. rewrite app_nil_r. auto.
  - destruct (HasTag file n).
    + destruct (IH db file) as (extra & E & Hl). exists extra. split; [exact E | lia].
    + destruct (GetTag db n (GetNamespace ns file) user) as [tag db1].
      destruct (IH db1 (File.setTags file (File.Tags file ++ [tag]))) as (extra & E & Hl).
      exists (tag :: extra). simpl in E. rewrite E, <- app_assoc. simpl. split; [reflexivity|lia].
Qed.

Lemma addTagsLoop_present ns user names : forall db file,
  (forall n, In n names -> HasTag file n = true) ->
  addTagsLoop ns db file names user = (file, db).
Proof.
  induction names as [|n rest IH]; intros db file H; simpl; [reflexivity|].
  rewrite (H n) by (left; reflexivity). apply IH. intros m Hm. apply H. right. exact Hm.
Qed.

Lemma addGroupsLoop_grows ns user names : forall db file,
  exists extra,
    File.Groups (fst (addGroupsLoop ns db file names user)) = File.Groups file ++ extra /\
    List.length extra <= List.length names.
Proof.
  induction names as [|n rest IH]; intros db file; simpl.
  - exists []. rewrite app_nil_r. auto.
  - destruct (HasGroup file n).
    + destruct (IH db file) as (extra & E & Hl). exists extra. split; [exact E | lia].
    + destruct (GetGroup db n (GetNamespace ns file) user) as [group db1].
      destruct (IH db1 (File.setGroups file (File.Groups file ++ [group])))
        as (extra & E & Hl).
      exists (group :: extra). simpl in E. rewrite E, <- app_assoc. simpl.
      split; [reflexivity|lia].
Qed.

Lemma addGroupsLoop_present ns user names : forall db file,
  (forall n, In n names -> HasGroup file n = true) ->
  addGroupsLoop ns db file names user = (file, db).
Proof.
  induction names as [|n rest IH]; intros db file H; simpl; [reflexivity|].
  rewrite (H n) by (left; reflexivity). apply IH. intros m Hm. apply H. right. exact Hm.
Qed.

(** [AddTags] and [AddGroups] only append: the associations the file had
    stay in front, in their order, followed by at most one new one per
    requested name. When the file already has every requested name, its
    associations are as before and no tag or group row is created. *)
Theorem AddTags_AddGroups_only_append ns db file names user :
  ((exists extra,
      File.Tags (snd (fst (AddTags ns db file names user))) = File.Tags file ++ extra /\
      List.length extra <= List.length names) /\
   ((forall n, In n names -> HasTag file n = true) ->
    File.Tags (snd (fst (AddTags ns db file names user))) = File.Tags file /\
    db_tags (snd (AddTags ns db file names user)) = db_tags db)) /\
  ((exists extra,
      File.Groups (snd (fst (AddGroups ns db file names user))) = File.Groups file ++ extra /\
      List.length extra <= List.length names) /\
   ((forall n, In n names -> HasGroup file n = true) ->
    File.Groups (snd (fst (AddGroups ns db file names user))) = File.Groups file /\
    db_groups (snd (AddGroups ns db file names user)) = db_groups db)).
Proof.
  split; split.
  - unfold AddTags. destruct (addTagsLoop_grows ns user names db file) as (extra & E & Hl).
    destruct (addTagsLoop ns db file names user) as [f1 db1]. simpl in E.
    exists extra. unfold Save. destruct (dbSave_memory db1 f1) as (Ht & _).
    rewrite Ht. auto.
  - intros H. unfold AddTags. rewrite (addTagsLoop_present ns user names db file H).
    unfold Save. destruct (dbSave_memory db file) as (Ht & _).
    destruct (dbSave_tables db file) as (Htab & _). auto.
  - unfold AddGroups. destruct (addGroupsLoop_grows ns user names db file) as (extra & E & Hl).
    destruct (addGroupsLoop ns db file names user) as [f1 db1]. simpl in E.
    exists extra. unfold Save. destruct (dbSave_memory db1 f1) as (_ & Hg & _).
    rewrite Hg. auto.
  - intros H. unfold AddGroups. rewrite (addGroupsLoop_present ns user names db file H).
    unfold Save. destruct (dbSave_memory db file) as (_ & Hg & _).
    destruct (dbSave_tables db file) as (_ & Htab & _). auto.
Qed.

Lemma AddTags_AddGroups_only_append_witness :
  File.Tags (snd (fst (AddTags nsHome sampleDB fileA ["x"; "x"] alice))) = [tagX] /\
  db_tags (snd (AddTags nsHome sampleDB fileA ["x"; "x"] alice)) = [tagX].
Proof.
  apply (proj2 (proj1 (AddTags_AddGroups_only_append nsHome sampleDB fileA ["x"; "x"] alice))).
  intros n [<-|[<-|[]]]; reflexivity.
Defined.

(** ** Finding and counting files *)

Lemma firstByID_least rows m :
  firstByID rows = Some m -> forall x, In x rows -> File.ID m <= File.ID x.
Proof.
  revert m; induction rows as [|r rs IH]; simpl; intros m H x Hx; [contradiction|].
  destruct (firstByID rs) as [m'|] eqn:E.
  - specialize (IH m' eq_refl).
    destruct (File.ID r <=? File.ID m') eqn:El; inversion H; subst m.
    + apply Nat.leb_le in El. destruct Hx as [<-|Hx]; [lia|].
      specialize (IH x Hx). lia.
    + apply Nat.leb_gt in El. destruct Hx as [<-|Hx]; [lia|]. apply IH, Hx.
  - inversion H; subst m. apply firstByID_None in E. subst rs.
    destruct Hx as [<-|[]]. lia.
Qed.

Lemma filter_length_mono {A} (p q : A -> bool) l :
  (forall a, p a = true -> q a = true) ->
  List.length (filter p l) <= List.length (filter q l).
Proof.
  intros H; induction l as [|a l IH]; simpl; [lia|].
  destruct (p a) eqn:E.
  - rewrite (H a E). simpl. lia.
  - destruct (q a); simpl; lia.
Qed.

Lemma preloaded_ID db r : File.ID (preloaded db r) = File.ID r.
Proof. reflexivity. Qed.

(** [FindFile] without a key returns the entry of [FindFiles] with the least
    key, and fails with "record not found" exactly when [FindFiles] is empty;
    [GetCount], whose condition leaves the uploader out, counts at least the
    files [FindFiles] returns. *)
Theorem FindFile_least_of_FindFiles db name namespace user :
  (forall f, FindFile db name 0 namespace user = (Some f, None) ->
     In f (fst (FindFiles db name namespace user)) /\
     forall g, In g (fst (FindFiles db name namespace user)) -> File.ID f <= File.ID g) /\
  (fst (FindFiles db name namespace user) = [] <->
   FindFile db name 0 namespace user = (None, Some ErrRecordNotFound)) /\
  List.length (fst (FindFiles db name namespace user))
  <= GetCount db (File.setName File.zero name) namespace 0.
Proof.
  unfold FindFile, FindFiles, GetCount, selectFiles. simpl fst.
  set (c := fun r => String.eqb (File.Name r) name
                     && (File.NamespaceID r =? Namespace.ID namespace)
                     && (File.UserID r =? User.ID user)).
  assert (Hext : filter (fun r => live r && (c r && ((0 =? 0) || (File.ID r =? 0))))
                        (db_files db)
                 = filter (fun r => live r && c r) (db_files db)).
  { apply filter_ext. intros r. simpl. rewrite andb_true_r. reflexivity. }
  change (filter (fun r => live r && (String.eqb (File.Name r) name
                                      && (File.NamespaceID r =? Namespace.ID namespace)
                                      && (File.UserID r =? User.ID user)
                                      && ((0 =? 0) || (File.ID r =? 0)))) (db_files db))
    with (filter (fun r => live r && (c r && ((0 =? 0) || (File.ID r =? 0)))) (db_files db)).
  rewrite Hext.
  change (filter (fun r => live r && (String.eqb (File.Name r) name
                                      && (File.NamespaceID r =? Namespace.ID namespace)
                                      && (File.UserID r =? User.ID user))) (db_files db))
    with (filter (fun r => live r && c r) (db_files db)).
  set (rows := filter (fun r => live r && c r) (db_files db)).
  split; [|split].
  - intros f H. destruct (firstByID rows) as [m|] eqn:E; [|discriminate].
    inversion H; subst f. split.
    + apply in_map. apply firstByID_In. exact E.
    + intros g Hg. apply in_map_iff in Hg as (x & <- & Hx).
      rewrite !preloaded_ID. apply (firstByID_least rows m E x Hx).
  - split.
    + intros Hn. apply map_eq_nil in Hn. rewrite Hn. reflexivity.
    + intros H. destruct (firstByID rows) as [m|] eqn:E; [discriminate|].
      apply firstByID_None in E. rewrite E. reflexivity.
  - rewrite length_map. unfold rows. apply filter_length_mono.
    intros r Hr. apply andb_prop in Hr as [Hl Hc]. rewrite Hl. simpl.
    unfold c in Hc. apply andb_prop in Hc as [Hc _]. apply andb_prop in Hc as [Hn Hns].
    apply String.eqb_eq in Hn. apply Nat.eqb_eq in Hns.
    unfold condStr, condID. rewrite Hn, Hns, String.eqb_refl, Nat.eqb_refl, !orb_true_r.
    reflexivity.
Qed.

Lemma FindFile_least_of_FindFiles_witness :
  In (preloaded sampleDB fileA) (fst (FindFiles sampleDB "a.txt" nsHome alice)) /\
  forall g, In g (fst (FindFiles sampleDB "a.txt" nsHome alice)) -> 1 <= File.ID g.
Proof.
  exact (proj1 (FindFile_least_of_FindFiles sampleDB "a.txt" nsHome alice)
               (preloaded sampleDB fileA) eq_refl).
Defined.

(** ** Inserting, in general *)

Lemma in_list_max n l : In n l -> n <= list_max l.
Proof.
  induction l as [|a l IH]; simpl; [contradiction|].
  intros [<-|H]; [lia|]. specialize (IH H). lia.
Qed.

(** [Insert] of a draft without key into a store that accepts the write:
    the file gets a key above every key of the table, its namespace column
    is the key of its namespace (of the default one when it has none), its
    uploader column is the user's key, and the row read back by the new key
    carries the draft's name, local name and size. *)
Theorem Insert_fresh_key ns db file user :
  File.ID file = 0 -> File.DeletedAt file = false -> db_faults db = [] ->
  exists f' db' row,
    Insert ns db file user = (None, f', db') /\
    (forall r, In r (db_files db) -> File.ID r < File.ID f') /\
    storedFile db' (File.ID f') = Some row /\
    File.NamespaceID row = Namespace.ID (GetNamespace ns file) /\
    File.UserID row = User.ID user /\
    File.Name row = File.Name file /\
    File.LocalName row = File.LocalName file /\
    File.FileSize row = File.FileSize file.
Proof.
  intros Hid Hdel Hf. unfold Insert.
  destruct (insertGroups_files user (File.Groups file) db) as [Hg Hgf].
  destruct (insertGroups db user (File.Groups file)) as [groups db1]; simpl in Hg, Hgf.
  destruct (insertTags_files user (File.Tags (File.setGroups file groups)) db1) as [Ht Htf].
  destruct (insertTags db1 user (File.Tags (File.setGroups file groups))) as [tags db2];
    simpl in Ht, Htf.
  assert (Hf2 : db_faults db2 = []) by congruence.
  assert (Hfiles : db_files db2 = db_files db) by congruence.
  unfold Create. rewrite (accept_no_faults _ Hf2). simpl File.ID. rewrite Hid. simpl Nat.eqb.
  cbv iota. rewrite Hfiles.
  set (id := nextID (map File.ID (db_files db))).
  assert (Hfresh : forall r, In r (db_files db) -> File.ID r < id).
  { intros r Hr. unfold id, nextID. apply Nat.lt_succ_r, in_list_max, in_map, Hr. }
  set (file4 := File.setUser _ (Some user)).
  set (g := syncKeys (File.setID file4 id)).
  assert (Hk : File.ID g = id).
  { destruct (syncKeys_columns (File.setID file4 id)) as (S1 & _). exact S1. }
  exists g, (setFiles db2 (db_files db ++ [rowOf g])), (rowOf g).
  split; [reflexivity|]. rewrite Hk.
  split; [exact Hfresh|].
  assert (Hnone : filter (isRow id) (db_files db) = []).
  { apply filter_nil_existsb, not_true_is_false. intros Hex.
    apply existsb_exists in Hex as (x & Hx & Hrow).
    unfold isRow in Hrow. apply andb_prop in Hrow as [_ Hr]. apply Nat.eqb_eq in Hr.
    specialize (Hfresh x Hx). lia. }
  split.
  - unfold storedFile. simpl db_files. rewrite filter_app, Hnone. simpl.
    assert (Hrow : isRow id (rowOf g) = true).
    { unfold isRow, live, rowOf, g, syncKeys, file4. simpl.
      rewrite Hdel, Nat.eqb_refl. reflexivity. }
    rewrite Hrow. reflexivity.
  - unfold g, rowOf, syncKeys, file4, GetNamespace. simpl.
    destruct (File.Namespace file); repeat split.
Qed.

Lemma Insert_fresh_key_witness :
  exists f' db' row,
    Insert nsHome sampleDB draftInWork alice = (None, f', db') /\
    (forall r, In r (db_files sampleDB) -> File.ID r < File.ID f') /\
    storedFile db' (File.ID f') = Some row /\
    File.NamespaceID row = 2 /\ File.UserID row = 7 /\ File.Name row = "w.txt" /\
    File.LocalName row = "" /\ File.FileSize row = 0%Z.
Proof. exact (Insert_fresh_key nsHome sampleDB draftInWork alice eq_refl eq_refl eq_refl). Defined.

(** ** Copying a stream *)

Lemma Read_chunk r size b buf err r' :
  Read r size = (b :: buf, err, r') ->
  err = None /\ pending r = (b :: buf) ++ pending r' /\
  readsLeft r' = option_map pred (readsLeft r).
Proof.
  unfold Read. intros H.
  assert (Hc : match size, pending r with
               | 0, _ => ([], None,
                          mkReader (skipn size (pending r)) (option_map pred (readsLeft r)))
               | _, [] => ([], Some EOF,
                           mkReader (skipn size (pending r)) (option_map pred (readsLeft r)))
               | _, _ => (firstn size (pending r), None,
                          mkReader (skipn size (pending r)) (option_map pred (readsLeft r)))
               end = (b :: buf, err, r')).
  { destruct (readsLeft r) as [[|n]|]; [discriminate H | exact H | exact H]. }
  clear H. destruct size; [discriminate Hc|].
  destruct (pending r) as [|x l] eqn:E; [discriminate Hc|].
  inversion Hc; subst. simpl. rewrite firstn_skipn. auto.
Qed.

Lemma Read_steady r size :
  readsLeft r = None -> 0 < size ->
  Read r size = match pending r with
                | [] => ([], Some EOF, mkReader [] None)
                | _ => (firstn size (pending r), None, mkReader (skipn size (pending r)) None)
                end.
Proof.
  intros H Hs. unfold Read. rewrite H. destruct size; [lia|]. simpl.
  destruct (pending r); reflexivity.
Qed.

Lemma Write_written w p e w' :
  Write w p = (e, w') ->
  written w' = match e with Some _ => written w | None => written w ++ p end.
Proof.
  unfold Write. destruct (writesLeft w) as [[|n]|]; intros H; inversion H; reflexivity.
Qed.

Lemma BufferedCopy_all bufferSize writer reader :
  0 < bufferSize -> readsLeft reader = None -> writesLeft writer = None ->
  BufferedCopy bufferSize writer reader
  = (Some EOF, mkWriter (written writer ++ pending reader) None, mkReader [] None).
Proof.
  intros Hk. funelim (BufferedCopy bufferSize writer reader); intros Hr Hw;
    try clear Heqcall;
    match goal with
    | E : Read _ _ = _ |- _ => pose proof E as E'; rewrite (Read_steady _ _ Hr Hk) in E'
    end.
  all: destruct (pending reader) eqn:Ep; inversion E'; subst.
  - rewrite app_nil_r. destruct writer; simpl in *; subst; reflexivity.
  - destruct bufferSize; [lia | discriminate].
  - unfold Write in Heq. rewrite Hw in Heq. discriminate Heq.
  - unfold Write in Heq. rewrite Hw in Heq. inversion Heq; subst. clear Heq.
    rewrite (H Hk eq_refl eq_refl).
    simpl. rewrite <- app_assoc.
    match goal with Hc : firstn _ _ = _ |- _ => rewrite <- Hc end.
    rewrite firstn_skipn. reflexivity.
Qed.

Lemma BufferedCopy_empty_buffer bufferSize writer reader :
  bufferSize = 0 -> readsLeft reader = None ->
  BufferedCopy bufferSize writer reader = (None, writer, reader).
Proof.
  funelim (BufferedCopy bufferSize writer reader); intros Hk Hr; subst bufferSize;
    try clear Heqcall;
    match goal with
    | E : Read _ _ = _ |- _ =>
        pose proof E as E'; unfold Read in E'; rewrite Hr in E'; simpl in E';
        inversion E'; subst
    end.
  destruct reader; simpl in *; subst; reflexivity.
Qed.

(** With a reader and a writer that do not fail: a buffer of at least one
    byte copies all the data, in order, leaves the reader empty, and returns
    [io.EOF] (not nil), which the caller has to tell from a failure; a
    buffer of size 0 copies nothing and returns no error. *)
Theorem BufferedCopy_copies bufferSize writer reader :
  readsLeft reader = None -> writesLeft writer = None ->
  (0 < bufferSize ->
   BufferedCopy bufferSize writer reader
   = (Some EOF, mkWriter (written writer ++ pending reader) None, mkReader [] None)) /\
  (bufferSize = 0 -> BufferedCopy bufferSize writer reader = (None, writer, reader)).
Proof.
  intros Hr Hw. split.
  - intros Hk. apply BufferedCopy_all; assumption.
  - intros Hk. apply BufferedCopy_empty_buffer; assumption.
Qed.

Lemma BufferedCopy_copies_witness :
  BufferedCopy 2 (mkWriter ["a"%byte] None) (mkReader ["b"%byte; "c"%byte; "d"%byte] None)
  = (Some EOF, mkWriter ["a"%byte; "b"%byte; "c"%byte; "d"%byte] None, mkReader [] None) /\
  BufferedCopy 0 (mkWriter ["a"%byte] None) (mkReader ["b"%byte; "c"%byte; "d"%byte] None)
  = (None, mkWriter ["a"%byte] None, mkReader ["b"%byte; "c"%byte; "d"%byte] None).
Proof.
  split.
  - apply (proj1 (BufferedCopy_copies 2 (mkWriter ["a"%byte] None)
                    (mkReader ["b"%byte; "c"%byte; "d"%byte] None) eq_refl eq_refl)).
    apply Nat.lt_0_succ.
  - exact (proj2 (BufferedCopy_copies 0 (mkWriter ["a"%byte] None)
                    (mkReader ["b"%byte; "c"%byte; "d"%byte] None) eq_refl eq_refl) eq_refl).
Defined.

(** Whatever fails and whatever the buffer size, the writer has received a
    prefix of the reader's data after what it held: nothing is reordered,
    repeated or made up. *)
Theorem BufferedCopy_prefix bufferSize writer reader :
  exists copied rest,
    written (snd (fst (BufferedCopy bufferSize writer reader))) = written writer ++ copied /\
    pending reader = copied ++ rest.
Proof.
  funelim (BufferedCopy bufferSize writer reader); try clear Heqcall; simpl.
  1-3: exists [], (pending reader); rewrite app_nil_r; split; reflexivity.
  1, 3: exists [], (pending reader); rewrite app_nil_r; split; [|reflexivity];
        apply Write_written in Heq; exact Heq.
  all: match goal with
       | IH : exists _ _, _, E : Read _ _ = (?chunk, _, _), W : Write _ _ = _ |- _ =>
           destruct IH as (copied & rest & Hw & Hp);
           destruct (Read_chunk _ _ _ _ _ _ E) as (_ & Hd & _);
           apply Write_written in W;
           exists (chunk ++ copied), rest;
           rewrite Hw, W, Hd, Hp; split; rewrite <- ?app_assoc; reflexivity
       end.
Qed.

(** ** Publishing, then fetching *)

Lemma filter_map_replaced {A} (p q : A -> bool) (u : A -> A) l :
  (forall x, q (u x) = true) ->
  (forall x, In x l -> p x = false -> q x = false) ->
  filter q (map (fun x => if p x then u x else x) l) = map u (filter p l).
Proof.
  intros Hu; induction l as [|x xs IH]; simpl; intros Hq; [reflexivity|].
  destruct (p x) eqn:E; simpl.
  - rewrite Hu, IH; auto.
  - rewrite (Hq x (or_introl eq_refl) E). apply IH. auto.
Qed.

Lemma syncKeys_FileType f : File.FileType (syncKeys f) = File.FileType f.
Proof.
  unfold syncKeys. destruct (File.Namespace f); simpl; destruct (File.User f); reflexivity.
Qed.

Lemma updateRow_content r f :
  File.LocalName (updateRow r f) = File.LocalName f /\
  File.FileType (updateRow r f) = File.FileType f.
Proof.
  unfold updateRow, rowOf, syncKeys; simpl.
  destruct (File.Namespace f); simpl; destruct (File.User f); simpl; split; reflexivity.
Qed.

(** After publishing a stored file under a free slug, the holder of the
    slug is a row rewritten from the file in memory. *)
Lemma Publish_slug_holder db f s rnd :
  isStored db f = true -> db_faults db = [] ->
  slugBound db (slugUsed s rnd) = false ->
  exists x,
    slugHolder (snd (Publish db f s rnd)) (slugUsed s rnd)
    = Some (updateRow x (syncKeys (File.setIsPublic
                                     (File.setPublicFilename f (Some (slugUsed s rnd))) true))).
Proof.
  intros Hs Hf Hfree.
  unfold Publish. fold (slugUsed s rnd). set (slug := slugUsed s rnd) in *.
  pose proof (GetPublicFile_found db slug) as Hfound. rewrite Hfree in Hfound.
  destruct (GetPublicFile db slug) as [[g0 found] e0]; simpl in Hfound; subst found.
  set (f2 := File.setIsPublic (File.setPublicFilename f (Some slug)) true).
  unfold Save. rewrite (dbSave_stored_eq db f2 Hs Hf). cbn [snd].
  destruct (syncKeys_columns f2) as (_ & S2 & _ & S4 & _).
  set (g := syncKeys f2) in *. simpl in S2, S4.
  set (db' := setFiles db _).
  assert (Hrows : filter (holdsSlug slug) (db_files db')
                  = map (fun x => updateRow x g) (filter (isRow (File.ID f)) (db_files db))).
  { unfold db'. simpl. apply filter_map_replaced.
    - intros x. destruct (updateRow_columns x g) as (_ & U2 & _ & U4 & _).
      unfold holdsSlug, live. rewrite U2, U4, S2, S4, String.eqb_refl.
      unfold isStored, live in Hs. apply andb_prop in Hs as [Hs _].
      apply andb_prop in Hs as [_ Hs]. rewrite Hs. reflexivity.
    - intros x Hx _. unfold slugBound in Hfree.
      apply not_true_is_false. intros Hh.
      assert (existsb (holdsSlug slug) (db_files db) = true)
        by (apply existsb_exists; exists x; auto).
      congruence. }
  unfold slugHolder. rewrite Hrows.
  destruct (firstByID (map (fun x => updateRow x g)
                           (filter (isRow (File.ID f)) (db_files db)))) as [r|] eqn:E.
  - apply firstByID_In in E. apply in_map_iff in E as (x & <- & _). exists x. reflexivity.
  - exfalso. apply firstByID_None in E. apply map_eq_nil in E.
    apply filter_nil_existsb in E. unfold isStored in Hs.
    apply andb_prop in Hs as [_ Hs]. congruence.
Qed.

(** The preview of a slug whose holder is such a row, through a buffer of
    at least one byte. *)
Lemma preview_of_holder k db fs slug x g content :
  0 < k ->
  slugHolder db slug = Some (updateRow x g) ->
  File.IsPublic g = true ->
  readBlob fs (File.LocalName g) = Some content ->
  PrevievFileHandler k db fs slug
  = PreviewContent (if 0 <? String.length (File.FileType g)
                    then Some (File.FileType g) else None) content.
Proof.
  intros Hk Hh Hp Hb. destruct (updateRow_columns x g) as (_ & _ & U3 & _).
  destruct (updateRow_content x g) as (UL & UT).
  rewrite PrevievFileHandler_by_holder, Hh, U3, Hp, UL, UT, Hb.
  rewrite (BufferedCopy_all k (mkWriter [] None) (mkReader content None) Hk eq_refl eq_refl).
  reflexivity.
Qed.

(** The same through a buffer of no bytes: an empty body. *)
Lemma preview_of_holder_empty_buffer db fs slug x g content :
  slugHolder db slug = Some (updateRow x g) ->
  File.IsPublic g = true ->
  readBlob fs (File.LocalName g) = Some content ->
  PrevievFileHandler 0 db fs slug
  = PreviewContent (if 0 <? String.length (File.FileType g)
                    then Some (File.FileType g) else None) [].
Proof.
  intros Hh Hp Hb. destruct (updateRow_columns x g) as (_ & _ & U3 & _).
  destruct (updateRow_content x g) as (UL & UT).
  rewrite PrevievFileHandler_by_holder, Hh, U3, Hp, UL, UT, Hb.
  rewrite (BufferedCopy_empty_buffer 0 (mkWriter [] None) (mkReader content None)
             eq_refl eq_refl).
  reflexivity.
Qed.

(** Publishing a stored file under a slug no live file holds, the store
    accepting the write: [GetPublicFile] then finds this very file under the
    slug, public; the preview of the slug, streamed through a download
    buffer of at least one byte, serves the file's whole blob with its
    content type; and with a download buffer of size 0 it serves the content
    type with an empty body. *)
Theorem Publish_then_preview k db fs f s rnd content :
  isStored db f = true -> db_faults db = [] ->
  slugBound db (slugUsed s rnd) = false ->
  readBlob fs (File.LocalName f) = Some content ->
  (exists r,
     GetPublicFile (snd (Publish db f s rnd)) (slugUsed s rnd) = (Some r, true, None) /\
     File.ID r = File.ID f /\ File.IsPublic r = true) /\
  (0 < k ->
   PrevievFileHandler k (snd (Publish db f s rnd)) fs (slugUsed s rnd)
   = PreviewContent (if 0 <? String.length (File.FileType f)
                     then Some (File.FileType f) else None) content) /\
  PrevievFileHandler 0 (snd (Publish db f s rnd)) fs (slugUsed s rnd)
  = PreviewContent (if 0 <? String.length (File.FileType f)
                    then Some (File.FileType f) else None) [].
Proof.
  intros Hs Hf Hfree Hblob.
  destruct (Publish_slug_holder db f s rnd Hs Hf Hfree) as (x & Hh).
  set (slug := slugUsed s rnd) in *.
  set (f2 := File.setIsPublic (File.setPublicFilename f (Some slug)) true) in *.
  destruct (syncKeys_columns f2) as (S1 & _ & S3 & _).
  pose proof (syncKeys_LocalName f2) as SL. pose proof (syncKeys_FileType f2) as ST.
  simpl in S1, S3, SL, ST.
  split; [|split].
  - destruct (updateRow_columns x (syncKeys f2)) as (U1 & _ & U3 & _).
    exists (bare (updateRow x (syncKeys f2))). unfold GetPublicFile, selectFiles.
    change (fun r => live r && match File.PublicFilename r with
                               | Some s0 => String.eqb s0 slug
                               | None => false
                               end) with (holdsSlug slug).
    unfold slugHolder in Hh. rewrite Hh. split; [reflexivity|].
    change (File.ID (updateRow x (syncKeys f2)) = File.ID f
            /\ File.IsPublic (updateRow x (syncKeys f2)) = true).
    rewrite U1, U3, S1, S3. auto.
  - intros Hk.
    rewrite (preview_of_holder k _ fs slug x (syncKeys f2) content Hk Hh S3);
      [rewrite ST; reflexivity | rewrite SL; exact Hblob].
  - rewrite (preview_of_holder_empty_buffer _ fs slug x (syncKeys f2) content Hh S3);
      [rewrite ST; reflexivity | rewrite SL; exact Hblob].
Qed.

Lemma Publish_then_preview_witness :
  PrevievFileHandler 2 (snd (Publish sampleDB fileA "" "r25")) sampleFS "r25"
  = PreviewContent None ["a"%byte; "b"%byte; "c"%byte].
Proof.
  apply (proj1 (proj2 (Publish_then_preview 2 sampleDB sampleFS fileA "" "r25"
                         ["a"%byte; "b"%byte; "c"%byte] eq_refl eq_refl eq_refl eq_refl))).
  apply Nat.lt_0_succ.
Defined.

(** ** Upload: what it adds *)

Lemma allocLocalName_world n : forall localName w,
  let w' := snd (allocLocalName n localName w) in
  w_db w' = w_db w /\ w_fs w' = w_fs w /\ w_createFails w' = w_createFails w.
Proof.
  induction n as [|n IH]; intros localName w; [simpl; auto|].
  rewrite allocLocalName_step. destruct (taken (w_db w) (nthDraw w 0)); [|simpl; auto].
  apply (IH (nthDraw w 0) (snd (RandString w 40))).
Qed.

(** A name the loop settles on is in use by no live file. *)
Lemma allocLocalName_free n : forall localName w name w',
  allocLocalName n localName w = (true, name, w') -> taken (w_db w) name = false.
Proof.
  induction n as [|n IH]; intros localName w name w' H; [discriminate H|].
  rewrite allocLocalName_step in H.
  destruct (taken (w_db w) (nthDraw w 0)) eqn:E.
  - apply (IH _ _ _ _ H).
  - inversion H; subst. exact E.
Qed.

Lemma taken_false_distinct db name x :
  taken db name = false -> In x (db_files db) -> live x = true ->
  File.LocalName x <> name.
Proof.
  unfold taken, selectFiles. intros H Hx Hl Heq.
  apply negb_false_iff, Nat.eqb_eq, length_zero_iff_nil in H.
  assert (Hin : In x (filter (fun r => live r && condStr name (File.LocalName r))
                             (db_files db))).
  { apply filter_In. split; [exact Hx|]. rewrite Hl. unfold condStr.
    rewrite Heq, String.eqb_refl, orb_true_r. reflexivity. }
  rewrite H in Hin. exact Hin.
Qed.

Lemma validateUpload_error md5 scheme user request r :
  validateUpload md5 scheme user request = Some r -> status r = ResponseError.
Proof.
  unfold validateUpload. intros H.
  destruct (UploadRequest.UploadType request);
    repeat match type of H with
           | (if ?c then _ else _) = _ => destruct c
           end; inversion H; reflexivity.
Qed.

(** How an upload can come to a success answer. *)
Lemma UploadfileHandler_success_inv ns md5 scheme user request w r w' :
  UploadfileHandler ns md5 scheme user request w = (r, w') ->
  (status r = ResponseError -> db_files (w_db w') = db_files (w_db w)) /\
  (status r = ResponseSuccess ->
   exists namespace name w2,
     allocLocalName 5 "" (afterNaming request w) = (true, name, w2) /\
     w_createFails w2 = false /\
     storeUpload ns user request (draftOf request namespace user w name) name w2 = (r, w')).
Proof.
  intros H.
  destruct (validateUpload md5 scheme user request) as [r0|] eqn:Ev.
  { unfold UploadfileHandler in H. rewrite Ev in H. inversion H; subst.
    split; [reflexivity|]. intros Hs. apply validateUpload_error in Ev. congruence. }
  destruct (FindNamespace ns (w_db w)
              (FileAttributes.Namespace (UploadRequest.Attributes request)))
    as [namespace|] eqn:En.
  2: { assert (E : UploadfileHandler ns md5 scheme user request w
                   = (sendResponse ResponseError "namespace not found" None [404%Z],
                      afterNaming request w)).
       { unfold UploadfileHandler, afterNaming. rewrite Ev.
         destruct (String.length (UploadRequest.Name request) =? 0);
           unfold RandString; cbn [fst snd w_db]; rewrite En; reflexivity. }
       rewrite E in H. inversion H; subst. rewrite afterNaming_db.
       split; [reflexivity | discriminate]. }
  destruct (negb (IsOwnedBy namespace user) && negb (User.CanWriteForeignNamespace user))
    eqn:Ep.
  { assert (E : UploadfileHandler ns md5 scheme user request w
                = (sendResponse ResponseError "Write permission denied for foreign namespaces"
                                None [403%Z],
                   afterNaming request w)).
    { unfold UploadfileHandler, afterNaming. rewrite Ev.
      destruct (String.length (UploadRequest.Name request) =? 0);
        unfold RandString; cbn [fst snd w_db]; rewrite En, Ep; reflexivity. }
    rewrite E in H. inversion H; subst. rewrite afterNaming_db.
    split; [reflexivity | discriminate]. }
  rewrite (UploadfileHandler_until_alloc ns md5 scheme user request w namespace Ev En Ep) in H.
  destruct (allocLocalName_world 5 "" (afterNaming request w)) as (Hdb & _ & Hcf).
  destruct (allocLocalName 5 "" (afterNaming request w)) as [[found name] w2] eqn:Ea.
  cbn [snd] in Hdb, Hcf. rewrite afterNaming_db in Hdb.
  destruct found; cbn [negb] in H; cbv iota in H.
  2: { inversion H; subst. split; [intros _; rewrite Hdb; reflexivity | discriminate]. }
  destruct (w_createFails w2) eqn:Ec.
  { unfold storeUpload in H. rewrite Ec in H. inversion H; subst.
    split; [intros _; rewrite Hdb; reflexivity | discriminate]. }
  split.
  - intros Hs. destruct (storeUpload_outcome _ _ _ _ _ _ _ _ H Ec) as (_ & Hrows & _).
    rewrite (Hrows Hs), Hdb. reflexivity.
  - intros _. exists namespace, name, w2. auto.
Qed.

(** Whatever the request and the world: an upload answered with an error
    adds no file row; an upload answered with success adds exactly one row
    after the existing ones, its key is the payload of the answer, its blob
    exists, and its local name differs from that of every live file there
    was. *)
Theorem UploadfileHandler_adds_one_row ns md5 scheme user request w r w' :
  UploadfileHandler ns md5 scheme user request w = (r, w') ->
  (status r = ResponseError -> db_files (w_db w') = db_files (w_db w)) /\
  (status r = ResponseSuccess ->
   exists row,
     db_files (w_db w') = db_files (w_db w) ++ [row] /\
     payload r = Some (File.ID row) /\
     hasBlob (w_fs w') (File.LocalName row) = true /\
     forall x, In x (db_files (w_db w)) -> live x = true ->
               File.LocalName x <> File.LocalName row).
Proof.
  intros H. destruct (UploadfileHandler_success_inv _ _ _ _ _ _ _ _ H) as [Herr Hok].
  split; [exact Herr|]. intros Hs.
  destruct (Hok Hs) as (namespace & name & w2 & Ea & Ec & Est).
  destruct (storeUpload_outcome _ _ _ _ _ _ _ _ Est Ec) as (Hblob & _ & Hrow).
  destruct (Hrow Hs) as (row & Hrows & Hl & Hpay).
  destruct (allocLocalName_world 5 "" (afterNaming request w)) as (Hdb & _).
  rewrite Ea in Hdb. cbn [snd] in Hdb. rewrite afterNaming_db in Hdb.
  assert (Hname : File.LocalName row = name) by (rewrite Hl; reflexivity).
  exists row. rewrite Hname. repeat split; auto.
  - rewrite Hrows, Hdb. reflexivity.
  - intros x Hx Hlive. apply allocLocalName_free in Ea. rewrite afterNaming_db in Ea.
    apply (taken_false_distinct _ _ _ Ea Hx Hlive).
Qed.

Lemma UploadfileHandler_adds_one_row_witness :
  let result := UploadfileHandler nsHome sampleMD5 sampleScheme alice uploadHi sampleWorld in
  exists row,
    db_files (w_db (snd result)) = db_files sampleDB ++ [row] /\
    payload (fst result) = Some (File.ID row) /\
    hasBlob (w_fs (snd result)) (File.LocalName row) = true /\
    forall x, In x (db_files sampleDB) -> live x = true ->
              File.LocalName x <> File.LocalName row.
Proof.
  refine (proj2 (UploadfileHandler_adds_one_row nsHome sampleMD5 sampleScheme alice uploadHi
                   sampleWorld
                   (fst (UploadfileHandler nsHome sampleMD5 sampleScheme alice uploadHi
                           sampleWorld))
                   (snd (UploadfileHandler nsHome sampleMD5 sampleScheme alice uploadHi
                           sampleWorld))
                   (surjective_pairing _)) _).
  vm_compute. reflexivity.
Defined.

Lemma readBlob_written fs name data :
  readBlob (appendBlob (createBlob fs name) name data) name = Some data.
Proof.
  unfold appendBlob, createBlob. simpl. rewrite String.eqb_refl. simpl.
  rewrite String.eqb_refl. reflexivity.
Qed.

(** The row a successful [Insert] appends, column by column. *)
Lemma Insert_row ns db file user :
  match Insert ns db file user with
  | (None, f', db') =>
      exists row, db_files db' = db_files db ++ [row] /\
                  File.ID row = File.ID f' /\
                  File.Name row = File.Name file /\
                  File.LocalName row = File.LocalName file /\
                  File.FileSize row = File.FileSize file /\
                  File.UserID row = User.ID user /\
                  File.DeletedAt row = File.DeletedAt file /\
                  File.FileType row = File.FileType file /\
                  (File.ID file = 0 -> File.ID row <> 0)
  | (Some _, _, _) => True
  end.
Proof.
  unfold Insert.
  destruct (insertGroups_files user (File.Groups file) db) as [Hg _].
  destruct (insertGroups db user (File.Groups file)) as [groups db1]; simpl in Hg.
  destruct (insertTags_files user (File.Tags (File.setGroups file groups)) db1) as [Ht _].
  destruct (insertTags db1 user (File.Tags (File.setGroups file groups))) as [tags db2];
    simpl in Ht.
  unfold Create. pose proof (accept_files db2) as Ha.
  destruct (accept db2) as [[|] db3]; simpl in Ha; [|exact I].
  eexists. split; [simpl; rewrite Ha, Ht, Hg; reflexivity|].
  unfold rowOf, syncKeys. simpl. repeat split.
  - rewrite Ht, Hg. reflexivity.
  - intros Hz. rewrite Hz. simpl. unfold nextID. discriminate.
Qed.

(** The row and the blob of a raw upload answered with success. *)
Lemma raw_upload_row ns md5 scheme user request w r w' :
  UploadRequest.UploadType request = FileUploadType ->
  UploadfileHandler ns md5 scheme user request w = (r, w') ->
  status r = ResponseSuccess ->
  exists row,
    db_files (w_db w') = db_files (w_db w) ++ [row] /\
    payload r = Some (File.ID row) /\
    readBlob (w_fs w') (File.LocalName row) = Some (UploadRequest.Data request) /\
    File.FileSize row = Z.of_nat (List.length (UploadRequest.Data request)) /\
    File.UserID row = User.ID user /\
    ((String.length (UploadRequest.Name request) =? 0) = false ->
     File.Name row = UploadRequest.Name request) /\
    File.ID row <> 0 /\ File.DeletedAt row = false /\ File.FileType row = "".
Proof.
  intros Ht H Hs.
  destruct (UploadfileHandler_success_inv _ _ _ _ _ _ _ _ H) as [_ Hok].
  destruct (Hok Hs) as (namespace & name & w2 & Ea & Ec & Est).
  destruct (allocLocalName_world 5 "" (afterNaming request w)) as (Hdb & _).
  rewrite Ea in Hdb. cbn [snd] in Hdb. rewrite afterNaming_db in Hdb.
  unfold storeUpload in Est. rewrite Ec, Ht in Est.
  destruct (w_writeFails (setFS w2 (createBlob (w_fs w2) name)));
    [inversion Est; subst; discriminate|].
  cbv iota in Est. cbn [w_closeFails setFS w_db w_fs] in Est.
  destruct (w_closeFails w2); [inversion Est; subst; discriminate|].
  set (file := File.setFileSize (draftOf request namespace user w name)
                 (Z.of_nat (List.length (UploadRequest.Data request)))) in Est.
  pose proof (Insert_row ns (w_db w2) file user) as Hi.
  destruct (Insert ns (w_db w2) file user) as [[err f'] db'].
  destruct err as [e|]; simpl in Est; inversion Est; subst; [discriminate|].
  destruct Hi as (row & Hrows & Hid & Hn & Hl & Hsz & Hu & Hd & Hft & Hk).
  exists row. simpl. rewrite Hrows, Hdb, Hid, Hl, Hsz, Hu, Hd, Hft. simpl.
  repeat split; auto.
  - apply readBlob_written.
  - intros Hgiven. rewrite Hn. unfold file, draftOf. simpl. rewrite Hgiven. reflexivity.
  - rewrite <- Hid. apply Hk. reflexivity.
Qed.

(** A raw upload answered with success has stored exactly the uploaded
    bytes: the blob under the new row's local name reads back as the data of
    the request, the row's size is their number, its uploader is the caller,
    and its name is the requested one when a name was given. *)
Theorem UploadfileHandler_stores_data ns md5 scheme user request w r w' :
  UploadRequest.UploadType request = FileUploadType ->
  UploadfileHandler ns md5 scheme user request w = (r, w') ->
  status r = ResponseSuccess ->
  exists row,
    db_files (w_db w') = db_files (w_db w) ++ [row] /\
    payload r = Some (File.ID row) /\
    readBlob (w_fs w') (File.LocalName row) = Some (UploadRequest.Data request) /\
    File.FileSize row = Z.of_nat (List.length (UploadRequest.Data request)) /\
    File.UserID row = User.ID user /\
    ((String.length (UploadRequest.Name request) =? 0) = false ->
     File.Name row = UploadRequest.Name request).
Proof.
  intros Ht H Hs.
  destruct (raw_upload_row _ _ _ _ _ _ _ _ Ht H Hs)
    as (row & Hrows & Hpay & Hblob & Hsz & Hu & Hn & _).
  exists row. repeat split; assumption.
Qed.

Lemma UploadfileHandler_stores_data_witness :
  let result := UploadfileHandler nsHome sampleMD5 sampleScheme alice uploadHi sampleWorld in
  exists row,
    db_files (w_db (snd result)) = db_files sampleDB ++ [row] /\
    payload (fst result) = Some (File.ID row) /\
    readBlob (w_fs (snd result)) (File.LocalName row) = Some ["h"%byte; "i"%byte] /\
    File.FileSize row = 2%Z /\
    File.UserID row = 7 /\
    ((String.length "hi.txt" =? 0) = false -> File.Name row = "hi.txt").
Proof.
  refine (UploadfileHandler_stores_data nsHome sampleMD5 sampleScheme alice uploadHi
            sampleWorld
            (fst (UploadfileHandler nsHome sampleMD5 sampleScheme alice uploadHi sampleWorld))
            (snd (UploadfileHandler nsHome sampleMD5 sampleScheme alice uploadHi sampleWorld))
            eq_refl (surjective_pairing _) _).
  vm_compute. reflexivity.
Defined.

(** ** Remote content *)

(** A download that comes back without error and with a 2xx status has
    appended to the blob what it read and set the file size to that many
    bytes. For a user with an upload limit the announced length was within
    the limit and what is read is cut at the limit, so the size is the
    smaller of the body's length and the limit, also when the body is longer
    than announced; for a user without limit it is the whole body. *)
Theorem downloadHTTP_respects_limit user url localName file w st file' w' :
  downloadHTTP user url localName file w = (st, None, file', w') ->
  (200 <= st <= 299)%Z ->
  exists res,
    w_http w url = Some res /\ st = StatusCode res /\
    if User.HasUploadLimit user then
      (ContentLength res <= User.MaxURLcontentSize user)%Z /\
      File.FileSize file'
      = Z.min (Z.of_nat (List.length (Body res))) (Z.max 0 (User.MaxURLcontentSize user)) /\
      w_fs w' = appendBlob (w_fs w) localName
                           (firstn (Z.to_nat (User.MaxURLcontentSize user)) (Body res))
    else
      File.FileSize file' = Z.of_nat (List.length (Body res)) /\
      w_fs w' = appendBlob (w_fs w) localName (Body res).
Proof.
  unfold downloadHTTP. intros H Hst.
  destruct (w_http w url) as [res|]; [|discriminate H].
  exists res. split; [reflexivity|].
  destruct ((StatusCode res <? 200)%Z || (299 <? StatusCode res)%Z) eqn:Eb.
  { inversion H; subst. apply orb_prop in Eb as [Eb|Eb]; apply Z.ltb_lt in Eb; lia. }
  destruct (User.HasUploadLimit user) eqn:El; simpl in H.
  - destruct (User.MaxURLcontentSize user <? ContentLength res)%Z eqn:Ec; [discriminate H|].
    destruct (ReadFails res); [discriminate H|].
    destruct (BodyCloseFails res); [discriminate H|].
    inversion H; subst. split; [reflexivity|]. apply Z.ltb_ge in Ec.
    split; [exact Ec|]. split; [|reflexivity].
    simpl. unfold LimitReader. rewrite length_firstn. lia.
  - destruct (ReadFails res); [discriminate H|].
    destruct (BodyCloseFails res); [discriminate H|].
    inversion H; subst. auto.
Qed.

Lemma downloadHTTP_respects_limit_witness :
  exists res,
    (fun _ : string => Some (mkHTTPResponse 200 (-1) (repeat "z"%byte 10) false false))
      "http://h/chunked" = Some res /\
    200%Z = StatusCode res /\
    (ContentLength res <= 4)%Z /\
    File.FileSize (File.setFileSize fileA 4) = Z.min (Z.of_nat (List.length (Body res))) (Z.max 0 4) /\
    appendBlob sampleFS "blobA" (repeat "z"%byte 4)
    = appendBlob sampleFS "blobA" (firstn (Z.to_nat 4) (Body res)).
Proof.
  refine (downloadHTTP_respects_limit alice "http://h/chunked" "blobA" fileA
            (mkWorld sampleDB sampleFS (fun _ _ => "fresh") 0
               (fun _ => Some (mkHTTPResponse 200 (-1) (repeat "z"%byte 10) false false))
               false false false)
            200 (File.setFileSize fileA 4)
            (mkWorld sampleDB (appendBlob sampleFS "blobA" (repeat "z"%byte 4))
               (fun _ _ => "fresh") 0
               (fun _ => Some (mkHTTPResponse 200 (-1) (repeat "z"%byte 10) false false))
               false false false)
            eq_refl _).
  split; discriminate.
Defined.

(** ** Listing *)

Lemma filter_map_comm {A B} (p : B -> bool) (f : A -> B) l :
  filter p (map f l) = map f (filter (fun x => p (f x)) l).
Proof.
  induction l as [|a l IH]; simpl; [reflexivity|].
  destruct (p (f a)); simpl; rewrite IH; reflexivity.
Qed.

(** The filter looks at the tags and groups of a row only when it has names
    to compare with, and then they are preloaded. *)
Lemma passesFilter_loadRow db tags groups wt wg wn r :
  ((0 <? List.length tags) = true -> wt = true) ->
  ((0 <? List.length groups) = true -> wg = true) ->
  passesFilter tags groups (loadRow db wt wg wn r) = passesFilter tags groups r.
Proof.
  intros Ht Hg. unfold passesFilter.
  destruct (0 <? List.length tags) eqn:Et; destruct (0 <? List.length groups) eqn:Eg;
    try rewrite (Ht eq_refl); try rewrite (Hg eq_refl);
    rewrite ?andb_false_l, ?orb_false_r, ?andb_true_l;
    unfold loadRow, IsInTagList, IsInGroupList; destruct wt, wg; reflexivity.
Qed.

Section Listing.

Variable DefaultNamespace : Namespace.t.
Variable FindTags : DB -> list string -> Namespace.t -> list Tag.t.
Variable FindGroups : DB -> list string -> Namespace.t -> list Group.t.
Variable TagArrToStringArr : list Tag.t -> list string.
Variable GroupArrToStringArr : list Group.t -> list string.
Variable CanReadForeignNamespace : User.t -> bool.
Variable like : string -> string -> bool.
Variable CreatedAt : nat -> Z.

Let item := responseItem DefaultNamespace TagArrToStringArr GroupArrToStringArr CreatedAt.
Let collect := collectItems DefaultNamespace TagArrToStringArr GroupArrToStringArr CreatedAt.
Let handler := ListFilesHandler DefaultNamespace FindTags FindGroups TagArrToStringArr
                                GroupArrToStringArr CanReadForeignNamespace like CreatedAt.

(** The response loop appends the items of the files that pass, in order. *)
Lemma collectItems_filter verbose tags groups foundFiles :
  collect verbose tags groups foundFiles
  = map (item verbose) (filter (passesFilter tags groups) foundFiles).
Proof.
  unfold collect, collectItems.
  assert (H : forall l acc,
            fold_left (fun retFiles file =>
                         if passesFilter tags groups file
                         then retFiles ++ [item verbose file] else retFiles) l acc
            = acc ++ map (item verbose) (filter (passesFilter tags groups) l)).
  { induction l as [|a l IH]; intros acc; simpl; [rewrite app_nil_r; reflexivity|].
    rewrite IH. destruct (passesFilter tags groups a); simpl; [|reflexivity].
    rewrite <- app_assoc. reflexivity. }
  apply (H foundFiles []).
Qed.

Lemma listed_items db verbose tags groups wt wg wn rows :
  ((0 <? List.length tags) = true -> wt = true) ->
  ((0 <? List.length groups) = true -> wg = true) ->
  collect verbose tags groups (map (loadRow db wt wg wn) rows)
  = map (fun r => item verbose (loadRow db wt wg wn r))
        (filter (passesFilter tags groups) rows).
Proof.
  intros Ht Hg. rewrite collectItems_filter, filter_map_comm, map_map.
  f_equal. apply filter_ext. intros r. apply passesFilter_loadRow; assumption.
Qed.

(** The verbosity of a list request decides what is preloaded and whether
    items carry attributes, never which files are listed: two requests that
    differ in verbosity only get the same status, message and code, and the
    same items in the same order, up to the attributes. *)
Theorem ListFilesHandler_verbosity_keeps_matches user db name attributes v1 v2 :
  let answer v := handler user db (FileRequest.mk name attributes (OptionalParams.mk v)) in
  l_status (answer v1) = l_status (answer v2) /\
  l_message (answer v1) = l_message (answer v2) /\
  l_statusCode (answer v1) = l_statusCode (answer v2) /\
  withoutAttributes (l_payload (answer v1)) = withoutAttributes (l_payload (answer v2)).
Proof.
  unfold handler, ListFilesHandler. simpl.
  destruct (FindNamespace DefaultNamespace db (FileAttributes.Namespace attributes))
    as [namespace|]; [|repeat split].
  destruct (Namespace.ID namespace =? 0); [repeat split|].
  destruct (negb (IsOwnedBy namespace user) && negb (CanReadForeignNamespace user));
    [repeat split|].
  set (tags := FindTags db (FileAttributes.Tags attributes) namespace).
  destruct ((List.length tags =? 0) && (0 <? List.length (FileAttributes.Tags attributes)));
    [repeat split|].
  set (groups := FindGroups db (FileAttributes.Groups attributes) namespace).
  destruct ((List.length groups =? 0) && (0 <? List.length (FileAttributes.Groups attributes)));
    [repeat split|].
  simpl. repeat split. f_equal.
  fold collect. rewrite !listed_items by (intros ->; reflexivity).
  rewrite !map_map. apply map_ext. intros r.
  unfold item, responseItem, bareItem, loadRow. simpl.
  destruct (0 <? List.length tags), (0 <? List.length groups), (1 <? v1), (1 <? v2);
    reflexivity.
Qed.

(** The namespace named in the attributes of a listed item depends on the
    verbosity: below 2 the attributes are empty; at exactly 2 the namespace
    is not preloaded and the item names the default namespace, whatever
    namespace is listed; above 2 it names the row of the listed namespace. *)
Theorem ListFilesHandler_attribute_namespace user db request namespace it :
  FindNamespace DefaultNamespace db
    (FileAttributes.Namespace (FileRequest.Attributes request)) = Some namespace ->
  In it (itemsOf (l_payload (handler user db request))) ->
  let verbose := OptionalParams.Verbose (FileRequest.OptionalParams request) in
  (verbose <= 1 -> FileResponseItem.Attributes it = FileAttributes.mk [] [] "") /\
  (verbose = 2 ->
   FileAttributes.Namespace (FileResponseItem.Attributes it)
   = Namespace.Name DefaultNamespace) /\
  (2 < verbose ->
   FileAttributes.Namespace (FileResponseItem.Attributes it)
   = Namespace.Name (match findNamespaceByID db (Namespace.ID namespace) with
                     | Some n => n
                     | None => DefaultNamespace
                     end)).
Proof.
  intros Hn. unfold handler, ListFilesHandler. rewrite Hn.
  destruct (Namespace.ID namespace =? 0); [intros []|].
  destruct (negb (IsOwnedBy namespace user) && negb (CanReadForeignNamespace user));
    [intros []|].
  set (tags := FindTags db _ namespace).
  destruct ((List.length tags =? 0) && _); [intros []|].
  set (groups := FindGroups db _ namespace).
  destruct ((List.length groups =? 0) && _); [intros []|].
  set (verbose := OptionalParams.Verbose (FileRequest.OptionalParams request)).
  cbn [l_payload itemsOf]. fold collect.
  rewrite listed_items by (intros ->; reflexivity).
  intros Hin. apply in_map_iff in Hin as (r & <- & Hr).
  apply filter_In in Hr as [Hr _]. unfold selectFiles in Hr.
  apply filter_In in Hr as [_ Hr]. apply andb_prop in Hr as [_ Hr].
  apply andb_prop in Hr as [Hr _]. apply Nat.eqb_eq in Hr.
  unfold item, responseItem, GetAttributes, GetNamespace, loadRow. simpl.
  split; [|split].
  - intros Hv. apply Nat.ltb_ge in Hv. rewrite Hv. reflexivity.
  - intros Hv. rewrite Hv. simpl.
    destruct ((0 <? List.length tags) || true), ((0 <? List.length groups) || true);
      reflexivity.
  - intros Hv. assert (H1 : (1 <? verbose) = true) by (apply Nat.ltb_lt; lia).
    apply Nat.ltb_lt in Hv. rewrite H1, Hv, !orb_true_r. simpl. rewrite Hr. reflexivity.
Qed.

End Listing.

(** With "work" as the default namespace, listing "home" at verbosity 2
    names "work" in the attributes of "a.txt". *)
Lemma ListFilesHandler_attribute_namespace_witness :
  FileAttributes.Namespace
    (FileResponseItem.Attributes
       (FileResponseItem.mk 1 "a.txt" 0 3 (FileAttributes.mk ["x"] [] "work")))
  = "work".
Proof.
  refine (proj1 (proj2
    (ListFilesHandler_attribute_namespace nsWork sampleFindTags sampleFindGroups
       (map Tag.Name) (map Group.Name) (fun _ => false) (fun _ _ => true) (fun _ => 0%Z)
       alice sampleDB listHome nsHome
       (FileResponseItem.mk 1 "a.txt" 0 3 (FileAttributes.mk ["x"] [] "work"))
       eq_refl _)) eq_refl).
  left. reflexivity.
Defined.

(** ** The update action, further *)

(** A sub-action that fails stops the update and leaves the earlier ones
    applied: when the new name is saved and the visibility then is no
    boolean, the answer is "isPublic must be a bool" (422) and the stored
    row carries the new name. *)
Theorem updateAction_keeps_rename_when_visibility_fails ns user update didUpdate file db :
  isStored db file = true -> db_faults db = [] ->
  (0 <? String.length (Updates.NewName update)) = true ->
  (0 <? String.length (Updates.IsPublic update)) = true ->
  ParseBool (Updates.IsPublic update) = None ->
  exists db1 r,
    updateAction ns user update (didUpdate, file, db)
    = Answer (sendResponse ResponseError "isPublic must be a bool" None [422%Z]) db1 /\
    storedFile db1 (File.ID file) = Some r /\
    File.Name r = Updates.NewName update.
Proof.
  intros Hs Hf Hn Hv Hp. unfold updateAction, stepRename, Rename, Save. rewrite Hn.
  destruct (dbSave_stored db (File.setName file (Updates.NewName update)) Hs Hf)
    as (f1 & db1 & r & E & _ & Hst & _ & _ & Hname & _).
  rewrite E. simpl. unfold stepVisibility. rewrite Hv, Hp. simpl.
  exists db1, r. auto.
Qed.

Lemma updateAction_keeps_rename_when_visibility_fails_witness :
  exists db1 r,
    updateAction nsHome alice renameAndBadVisibility (false, fileA, sampleDB)
    = Answer (sendResponse ResponseError "isPublic must be a bool" None [422%Z]) db1 /\
    storedFile db1 1 = Some r /\ File.Name r = "c.txt".
Proof.
  exact (updateAction_keeps_rename_when_visibility_fails nsHome alice renameAndBadVisibility
           false fileA sampleDB eq_refl eq_refl eq_refl eq_refl eq_refl).
Defined.

Lemma length_1_same {A} (l : list A) a b : List.length l = 1 -> In a l -> In b l -> a = b.
Proof.
  destruct l as [|x [|y l]]; simpl; try discriminate. intros _ [<-|[]] [<-|[]]. reflexivity.
Qed.

(** What [FindFile] returns is the preloaded form of a live row that also
    satisfies the condition of [GetCount]. *)
Lemma FindFile_row db name fileID namespace user file :
  FindFile db name fileID namespace user = (Some file, None) ->
  exists r,
    file = preloaded db r /\ live r = true /\
    In r (selectFiles db (fun r =>
            condStr (File.Name (File.setName File.zero name)) (File.Name r)
            && condID (Namespace.ID namespace) (File.NamespaceID r)
            && ((fileID =? 0) || (File.ID r =? fileID)))).
Proof.
  unfold FindFile. intros H.
  destruct (firstByID _) as [r|] eqn:E; [|discriminate]. inversion H; subst file.
  exists r. split; [reflexivity|].
  apply firstByID_In in E. unfold selectFiles in *. apply filter_In in E as [Hin Hc].
  apply andb_prop in Hc as [Hl Hc]. split; [exact Hl|].
  apply filter_In. split; [exact Hin|]. rewrite Hl. simpl.
  apply andb_prop in Hc as [Hc Hk]. apply andb_prop in Hc as [Hc _].
  apply andb_prop in Hc as [Hn Hns]. apply String.eqb_eq in Hn. apply Nat.eqb_eq in Hns.
  unfold condStr, condID. rewrite Hn, Hns, String.eqb_refl, Nat.eqb_refl, !orb_true_r, Hk.
  reflexivity.
Qed.

(** Deleting through the handler the one file a request addresses, the
    store accepting writes: the answer is "success", the blob is removed, no
    file matches the request any more, and the same request repeated is
    answered "File not found". *)
Theorem UpdateFileHandler_delete_then_not_found ns user db fs request namespace file :
  FindNamespace ns db (FileAttributes.Namespace (FileUpdateRequest.Attributes request))
  = Some namespace ->
  (Namespace.ID namespace =? 0) = false ->
  negb (IsOwnedBy namespace user) && negb (User.CanWriteForeignNamespace user) = false ->
  GetCount db (File.setName File.zero (FileUpdateRequest.Name request)) namespace
           (FileUpdateRequest.FileID request) = 1 ->
  FindFile db (FileUpdateRequest.Name request) (FileUpdateRequest.FileID request)
           namespace user = (Some file, None) ->
  (File.ID file =? 0) = false ->
  db_faults db = [] ->
  exists db',
    UpdateFileHandler ns user db fs (Some "delete") request
    = (sendResponse ResponseSuccess "success" None [], db',
       removeBlob fs (File.LocalName file)) /\
    GetCount db' (File.setName File.zero (FileUpdateRequest.Name request)) namespace
             (FileUpdateRequest.FileID request) = 0 /\
    UpdateFileHandler ns user db' (removeBlob fs (File.LocalName file)) (Some "delete") request
    = (sendResponse ResponseError "File not found" None [], db',
       removeBlob fs (File.LocalName file)).
Proof.
  intros Hn Hid Hp Hc Hfind Hkey Hf.
  destruct (FindFile_row _ _ _ _ _ _ Hfind) as (r0 & Hfile & Hlive0 & Hin0).
  assert (Hrow0 : isRow (File.ID file) r0 = true).
  { unfold isRow. rewrite Hlive0, Hfile, preloaded_ID, Nat.eqb_refl. reflexivity. }
  assert (Hs : isStored db file = true).
  { unfold isStored. rewrite Hkey. simpl.
    assert (Hl : live file = true) by (rewrite Hfile; exact Hlive0). rewrite Hl. simpl.
    apply existsb_exists. exists r0. split; [|exact Hrow0].
    unfold selectFiles in Hin0. apply filter_In in Hin0. tauto. }
  destruct (Delete_stored_eq db fs file Hs Hf) as (f' & Edel & _ & _).
  set (db' := setFiles db _) in Edel.
  assert (Hcount : GetCount db' (File.setName File.zero (FileUpdateRequest.Name request))
                            namespace (FileUpdateRequest.FileID request) = 0).
  { unfold GetCount in *. apply length_zero_iff_nil.
    unfold selectFiles at 1. apply filter_nil_existsb, not_true_is_false. intros Hex.
    apply existsb_exists in Hex as (y & Hy & Hcy).
    unfold db' in Hy. simpl in Hy. apply in_map_iff in Hy as (x & Hyx & Hx).
    destruct (isRow (File.ID file) x) eqn:Ex.
    - subst y. unfold live in Hcy. simpl in Hcy. discriminate Hcy.
    - subst y.
      assert (Hinx : In x (selectFiles db (fun r =>
                 condStr (File.Name (File.setName File.zero (FileUpdateRequest.Name request)))
                         (File.Name r)
                 && condID (Namespace.ID namespace) (File.NamespaceID r)
                 && ((FileUpdateRequest.FileID request =? 0)
                     || (File.ID r =? FileUpdateRequest.FileID request))))).
      { unfold selectFiles. apply filter_In. split; assumption. }
      pose proof (length_1_same _ x r0 Hc Hinx Hin0) as Heq. subst x. congruence. }
  exists db'. split; [|split; [exact Hcount|]].
  - unfold UpdateFileHandler. rewrite Hn, Hid, Hp. simpl IsInStringArray. cbv iota.
    cbn [negb]. cbv iota. rewrite Hc, Hfind. simpl. rewrite Edel. reflexivity.
  - unfold UpdateFileHandler.
    assert (Hn' : FindNamespace ns db'
                    (FileAttributes.Namespace (FileUpdateRequest.Attributes request))
                  = Some namespace) by exact Hn.
    rewrite Hn', Hid, Hp. simpl IsInStringArray. cbn [negb]. cbv iota.
    rewrite Hcount. reflexivity.
Qed.

Lemma UpdateFileHandler_delete_then_not_found_witness :
  exists db',
    UpdateFileHandler nsHome alice sampleDB sampleFS (Some "delete") deleteB
    = (sendResponse ResponseSuccess "success" None [], db', removeBlob sampleFS "blobB") /\
    GetCount db' (File.setName File.zero "b.txt") nsHome 0 = 0 /\
    UpdateFileHandler nsHome alice db' (removeBlob sampleFS "blobB") (Some "delete") deleteB
    = (sendResponse ResponseError "File not found" None [], db',
       removeBlob sampleFS "blobB").
Proof.
  exact (UpdateFileHandler_delete_then_not_found nsHome alice sampleDB sampleFS deleteB nsHome
           (preloaded sampleDB fileB) eq_refl eq_refl eq_refl eq_refl eq_refl eq_refl eq_refl).
Defined.

(** ** Removing a tag, request after request *)

Lemma firstByID_map (u : File.t -> File.t) rows :
  (forall x, File.ID (u x) = File.ID x) ->
  firstByID (map u rows) = option_map u (firstByID rows).
Proof.
  intros Hu. induction rows as [|x xs IH]; simpl; [reflexivity|].
  rewrite IH. destruct (firstByID xs) as [m|]; simpl; [|reflexivity].
  rewrite !Hu. destruct (File.ID x <=? File.ID m); reflexivity.
Qed.

Lemma filter_map_stable {A} (p : A -> bool) (u : A -> A) l :
  (forall x, In x l -> p (u x) = p x) ->
  filter p (map u l) = map u (filter p l).
Proof.
  induction l as [|x xs IH]; simpl; intros H; [reflexivity|].
  rewrite (H x (or_introl eq_refl)), IH by auto.
  destruct (p x); reflexivity.
Qed.

(** The row written back for a file that was loaded from row [r0]: the
    columns a query looks at are those of [r0]. *)
Lemma reloaded_row db r0 y tags :
  let row := updateRow y (syncKeys (File.setTags (preloaded db r0) tags)) in
  File.ID row = File.ID r0 /\ File.DeletedAt row = File.DeletedAt r0 /\
  File.Name row = File.Name r0 /\ File.NamespaceID row = File.NamespaceID r0 /\
  File.UserID row = File.UserID r0 /\
  File.Tags row = addTagRefs (File.Tags y) tags.
Proof.
  unfold updateRow, rowOf, syncKeys, preloaded, findNamespaceByID. simpl.
  destruct (find _ _) as [n|] eqn:E; simpl; repeat split; try reflexivity.
  apply find_some in E as [_ E]. apply Nat.eqb_eq in E. exact E.
Qed.

(** [RemoveTags] on a stored file that loses a tag, the store accepting
    writes: the rows with the key of the file are rewritten, their tag
    references first cleared. *)
Lemma RemoveTags_stored_eq db file names :
  isStored db file = true -> db_faults db = [] ->
  List.length (filter (fun t => negb (IsInStringArray (Tag.Name t) names)) (File.Tags file))
  < List.length (File.Tags file) ->
  RemoveTags db file names
  = (None,
     syncKeys (File.setTags file
                 (filter (fun t => negb (IsInStringArray (Tag.Name t) names)) (File.Tags file))),
     setFiles db
       (map (fun x =>
               if isRow (File.ID file) x
               then updateRow (File.setTags x [])
                      (syncKeys (File.setTags file
                         (filter (fun t => negb (IsInStringArray (Tag.Name t) names))
                                 (File.Tags file))))
               else x)
            (db_files db))).
Proof.
  intros Hs Hf Hlt. unfold RemoveTags.
  set (newTags := filter (fun t => negb (IsInStringArray (Tag.Name t) names)) (File.Tags file))
    in *.
  destruct (List.length (File.Tags file) =? 0) eqn:E0.
  { apply Nat.eqb_eq in E0. lia. }
  apply Nat.ltb_lt in Hlt. rewrite Hlt.
  unfold clearTags. rewrite (accept_no_faults _ Hf).
  set (db1 := setFiles db _).
  assert (Hs1 : isStored db1 (File.setTags file newTags) = true).
  { pose proof Hs as Hs'. unfold isStored in Hs'. apply andb_prop in Hs' as [Hk Hex].
    unfold isStored. apply andb_true_intro. split; [exact Hk|].
    apply existsb_exists in Hex as (x & Hin & Hx).
    apply existsb_exists. exists (File.setTags x []). split.
    - unfold db1. simpl. apply in_map_iff. exists x. rewrite Hx. auto.
    - rewrite isRow_setTags. exact Hx. }
  unfold Save. rewrite (dbSave_stored_eq db1 (File.setTags file newTags) Hs1 Hf).
  f_equal. unfold db1, setFiles. simpl. f_equal.
  rewrite map_map. apply map_ext. intros x.
  destruct (isRow (File.ID file) x) eqn:Ex.
  - rewrite isRow_setTags, Ex. reflexivity.
  - rewrite Ex. reflexivity.
Qed.

Section OnlyRemoveTags.

Variable ns : Namespace.t.
Variable user : User.t.

(** In an update that asks only for tags to be removed, every other step
    passes the state on. *)
Lemma updateAction_onlyRemoveTags newNamespace names st :
  updateAction ns user (Updates.mk "" "" newNamespace [] names [] []) st
  = stepRemoveTags (Updates.mk "" "" newNamespace [] names [] []) st.
Proof.
  destruct st as [[d f] db].
  unfold updateAction, stepRename, stepVisibility, stepNamespace, stepAddTags.
  cbn [Updates.NewName Updates.IsPublic Updates.NewNamespace Updates.AddTags
       String.length List.length Nat.ltb Nat.leb andThen].
  destruct newNamespace; cbn [String.length Nat.ltb Nat.leb andThen].
  all: destruct (stepRemoveTags _ _) as [r db'|[[d' f'] db']]; reflexivity.
Qed.

(** A request for the update action that passes the checks of the handler
    runs the action on the file [FindFile] returns. *)
Lemma UpdateFileHandler_update_found db fs request namespace file :
  FindNamespace ns db (FileAttributes.Namespace (FileUpdateRequest.Attributes request))
  = Some namespace ->
  (Namespace.ID namespace =? 0) = false ->
  negb (IsOwnedBy namespace user) && negb (User.CanWriteForeignNamespace user) = false ->
  GetCount db (File.setName File.zero (FileUpdateRequest.Name request)) namespace
           (FileUpdateRequest.FileID request) = 1 ->
  FindFile db (FileUpdateRequest.Name request) (FileUpdateRequest.FileID request)
           namespace user = (Some file, None) ->
  UpdateFileHandler ns user db fs (Some "update") request
  = match updateAction ns user (FileUpdateRequest.Updates request) (false, file, db) with
    | Answer r db => (r, db, fs)
    | Go (didUpdate, _, db) => (answerUpdate didUpdate, db, fs)
    end.
Proof.
  intros Hn Hid Hp Hc Hfind. unfold UpdateFileHandler.
  rewrite Hn, Hid, Hp. simpl IsInStringArray. cbn [negb]. cbv iota.
  rewrite Hc, Hfind. reflexivity.
Qed.

End OnlyRemoveTags.

(** C9: a request that only removes tag [x], sent twice in a row for a
    file that has the tag, the store accepting writes and the key of the
    file being that of one live row: the first request ends with
    [didUpdate = true] (answer "success") and the file the handler then
    loads again from the store, the same one, has its other tags and not
    [x]; the second request, which works on that reloaded file, ends with
    [didUpdate = false] (answer "noting to do") and leaves the store as it
    is. And a request that only removes names none of which is a tag of the
    file ends with [didUpdate = false] and leaves the store, hence the tags
    of the file, unchanged. *)
Theorem UpdateFileHandler_removeTags_twice ns user db fs fileID name attributes newNamespace
    namespace file x :
  FindNamespace ns db (FileAttributes.Namespace attributes) = Some namespace ->
  (Namespace.ID namespace =? 0) = false ->
  negb (IsOwnedBy namespace user) && negb (User.CanWriteForeignNamespace user) = false ->
  GetCount db (File.setName File.zero name) namespace fileID = 1 ->
  FindFile db name fileID namespace user = (Some file, None) ->
  (File.ID file =? 0) = false ->
  List.length (filter (isRow (File.ID file)) (db_files db)) = 1 ->
  db_faults db = [] ->
  (HasTag file x = true ->
   exists db1 file1,
     UpdateFileHandler ns user db fs (Some "update")
       (onlyRemoveTags fileID name attributes newNamespace [x])
     = (answerUpdate true, db1, fs) /\
     FindFile db1 name fileID namespace user = (Some file1, None) /\
     File.ID file1 = File.ID file /\
     File.Tags file1
     = filter (fun t => negb (IsInStringArray (Tag.Name t) [x])) (File.Tags file) /\
     HasTag file1 x = false /\
     UpdateFileHandler ns user db1 fs (Some "update")
       (onlyRemoveTags fileID name attributes newNamespace [x])
     = (answerUpdate false, db1, fs)) /\
  (forall names,
     (forall t, In t (File.Tags file) -> IsInStringArray (Tag.Name t) names = false) ->
     UpdateFileHandler ns user db fs (Some "update")
       (onlyRemoveTags fileID name attributes newNamespace names)
     = (answerUpdate false, db, fs)).
Proof.
  intros Hn Hid Hp Hc Hfind Hkey Huniq Hf.
  assert (Hquiet : forall db0 file0 names,
             (forall t, In t (File.Tags file0) -> IsInStringArray (Tag.Name t) names = false) ->
             match updateAction ns user (Updates.mk "" "" newNamespace [] names [] [])
                     (false, file0, db0) with
             | Answer r db => (r, db, fs)
             | Go (didUpdate, _, db) => (answerUpdate didUpdate, db, fs)
             end = (answerUpdate false, db0, fs)).
  { intros db0 file0 names Hno. rewrite updateAction_onlyRemoveTags.
    unfold stepRemoveTags. cbn [Updates.RemoveTags].
    destruct (0 <? List.length names); [|reflexivity].
    rewrite (RemoveTags_no_match db0 file0 names Hno). simpl.
    rewrite Nat.ltb_irrefl. reflexivity. }
  split.
  2: { intros names Hno.
       rewrite (UpdateFileHandler_update_found ns user db fs
                  (onlyRemoveTags fileID name attributes newNamespace names) namespace file
                  Hn Hid Hp Hc Hfind).
       exact (Hquiet db file names Hno). }
  intros Hhas.
  (* the row the request addresses *)
  pose (found := fun r : File.t =>
          live r && (String.eqb (File.Name r) name
                     && (File.NamespaceID r =? Namespace.ID namespace)
                     && (File.UserID r =? User.ID user)
                     && ((fileID =? 0) || (File.ID r =? fileID)))).
  pose (counted := fun r : File.t =>
          live r && (condStr (File.Name (File.setName File.zero name)) (File.Name r)
                     && condID (Namespace.ID namespace) (File.NamespaceID r)
                     && ((fileID =? 0) || (File.ID r =? fileID)))).
  assert (Hrow : exists r0, firstByID (filter found (db_files db)) = Some r0
                            /\ file = preloaded db r0).
  { unfold FindFile, selectFiles in Hfind. fold found in Hfind.
    destruct (firstByID (filter found (db_files db))) as [r0|]; [|discriminate Hfind].
    exists r0. split; [reflexivity|]. inversion Hfind. reflexivity. }
  destruct Hrow as (r0 & Hfirst & Hfile).
  assert (Hin0 : In r0 (db_files db) /\ found r0 = true).
  { apply firstByID_In in Hfirst. apply filter_In in Hfirst. exact Hfirst. }
  destruct Hin0 as [Hin0 Hfound0].
  assert (Hlive0 : live r0 = true).
  { unfold found in Hfound0. apply andb_prop in Hfound0 as [Hl _]. exact Hl. }
  assert (Hrow0 : isRow (File.ID file) r0 = true).
  { unfold isRow. rewrite Hlive0, Hfile, preloaded_ID, Nat.eqb_refl. reflexivity. }
  assert (Hs : isStored db file = true).
  { unfold isStored. rewrite Hkey. simpl.
    assert (Hl : live file = true) by (rewrite Hfile; exact Hlive0). rewrite Hl. simpl.
    apply existsb_exists. exists r0. split; assumption. }
  (* the tags that stay *)
  pose (p := fun t : Tag.t => IsInStringArray (Tag.Name t) [x]).
  set (newTags := filter (fun t => negb (IsInStringArray (Tag.Name t) [x])) (File.Tags file)).
  assert (Hex : existsb p (File.Tags file) = true).
  { unfold HasTag in Hhas. apply existsb_exists in Hhas as (t & Ht & Hname).
    apply existsb_exists. exists t. split; [exact Ht|].
    unfold p, IsInStringArray; simpl. rewrite Hname. reflexivity. }
  assert (Hlt : List.length newTags < List.length (File.Tags file))
    by exact (filter_negb_shorter p (File.Tags file) Hex).
  assert (Hgone : forall t, In t newTags -> IsInStringArray (Tag.Name t) [x] = false).
  { intros t Ht. apply filter_In in Ht as [_ Ht]. apply negb_true_iff in Ht. exact Ht. }
  (* the first request *)
  pose proof (RemoveTags_stored_eq db file [x] Hs Hf Hlt) as Erem. fold newTags in Erem.
  set (g := syncKeys (File.setTags file newTags)) in *.
  set (rewrite := fun y : File.t =>
          if isRow (File.ID file) y then updateRow (File.setTags y []) g else y) in *.
  set (db1 := setFiles db (map rewrite (db_files db))) in *.
  (* the rewritten row keeps the columns the queries look at *)
  assert (Hcols : forall y, In y (db_files db) ->
            File.ID (rewrite y) = File.ID y /\ File.DeletedAt (rewrite y) = File.DeletedAt y /\
            File.Name (rewrite y) = File.Name y /\
            File.NamespaceID (rewrite y) = File.NamespaceID y /\
            File.UserID (rewrite y) = File.UserID y).
  { intros y Hy. unfold rewrite. destruct (isRow (File.ID file) y) eqn:Ey; [|tauto].
    assert (y = r0).
    { apply (length_1_same _ y r0 Huniq); apply filter_In; split; assumption. }
    subst y. unfold g. rewrite Hfile.
    destruct (reloaded_row db r0 (File.setTags r0 []) newTags) as (R1 & R2 & R3 & R4 & R5 & _).
    tauto. }
  assert (Hid1 : forall y, File.ID (rewrite y) = File.ID y).
  { intros y. unfold rewrite. destruct (isRow (File.ID file) y) eqn:Ey; [|reflexivity].
    destruct (updateRow_columns (File.setTags y []) g) as (U1 & _).
    destruct (syncKeys_columns (File.setTags file newTags)) as (S1 & _).
    unfold isRow in Ey. apply andb_prop in Ey as [_ Ey]. apply Nat.eqb_eq in Ey.
    rewrite U1. unfold g. rewrite S1. simpl. congruence. }
  assert (Hfound1 : filter found (db_files db1) = map rewrite (filter found (db_files db))).
  { unfold db1. simpl. apply filter_map_stable. intros y Hy.
    destruct (Hcols y Hy) as (C1 & C2 & C3 & C4 & C5).
    unfold found, live. rewrite C1, C2, C3, C4, C5. reflexivity. }
  assert (Hcount1 : GetCount db1 (File.setName File.zero name) namespace fileID = 1).
  { rewrite <- Hc. unfold GetCount, selectFiles. fold counted.
    assert (E : filter counted (db_files db1) = map rewrite (filter counted (db_files db))).
    { unfold db1. simpl. apply filter_map_stable. intros y Hy.
      destruct (Hcols y Hy) as (C1 & C2 & C3 & C4 & C5).
      unfold counted, live. rewrite C1, C2, C3, C4. reflexivity. }
    rewrite E. apply length_map. }
  assert (Hrw0 : rewrite r0 = updateRow (File.setTags r0 []) g)
    by (unfold rewrite; rewrite Hrow0; reflexivity).
  assert (Hfind1 : FindFile db1 name fileID namespace user
                   = (Some (preloaded db1 (rewrite r0)), None)).
  { unfold FindFile, selectFiles. fold found.
    rewrite Hfound1, (firstByID_map rewrite _ Hid1), Hfirst. reflexivity. }
  assert (Htags1 : File.Tags (preloaded db1 (rewrite r0)) = newTags).
  { rewrite Hrw0. unfold g. rewrite Hfile.
    destruct (reloaded_row db r0 (File.setTags r0 []) newTags) as (_ & _ & _ & _ & _ & R6).
    change (File.Tags (updateRow (File.setTags r0 [])
                         (syncKeys (File.setTags (preloaded db r0) newTags))) = newTags).
    rewrite R6. simpl. apply addTagRefs_nil. }
  assert (Hn1 : FindNamespace ns db1 (FileAttributes.Namespace attributes) = Some namespace)
    by exact Hn.
  exists db1, (preloaded db1 (rewrite r0)).
  split; [|split; [exact Hfind1|split; [|split; [exact Htags1|split]]]].
  - rewrite (UpdateFileHandler_update_found ns user db fs
               (onlyRemoveTags fileID name attributes newNamespace [x]) namespace file
               Hn Hid Hp Hc Hfind).
    unfold onlyRemoveTags. cbn [FileUpdateRequest.Updates].
    rewrite updateAction_onlyRemoveTags. unfold stepRemoveTags. cbn [Updates.RemoveTags].
    simpl (0 <? _). cbv iota. rewrite Erem. cbn [LogError].
    destruct (syncKeys_columns (File.setTags file newTags)) as (_ & _ & _ & _ & S5 & _).
    fold g in S5. rewrite S5. simpl File.Tags.
    apply Nat.ltb_lt in Hlt. rewrite Hlt. reflexivity.
  - rewrite preloaded_ID, Hid1, Hfile. symmetry. apply preloaded_ID.
  - unfold HasTag. rewrite Htags1.
    apply not_true_is_false. intros Hex1. apply existsb_exists in Hex1 as (t & Ht & Hname).
    pose proof (Hgone t Ht) as Hno. unfold IsInStringArray in Hno. simpl in Hno.
    rewrite Hname in Hno. discriminate Hno.
  - rewrite (UpdateFileHandler_update_found ns user db1 fs
               (onlyRemoveTags fileID name attributes newNamespace [x]) namespace
               (preloaded db1 (rewrite r0)) Hn1 Hid Hp Hcount1 Hfind1).
    apply Hquiet. rewrite Htags1. exact Hgone.
Qed.

Lemma UpdateFileHandler_removeTags_twice_witness :
  exists db1 file1,
    UpdateFileHandler nsHome alice sampleDB sampleFS (Some "update")
      (onlyRemoveTags 0 "a.txt" (FileAttributes.mk [] [] "home") "" ["x"])
    = (answerUpdate true, db1, sampleFS) /\
    FindFile db1 "a.txt" 0 nsHome alice = (Some file1, None) /\
    File.ID file1 = 1 /\
    File.Tags file1 = [] /\
    HasTag file1 "x" = false /\
    UpdateFileHandler nsHome alice db1 sampleFS (Some "update")
      (onlyRemoveTags 0 "a.txt" (FileAttributes.mk [] [] "home") "" ["x"])
    = (answerUpdate false, db1, sampleFS).
Proof.
  exact (proj1 (UpdateFileHandler_removeTags_twice nsHome alice sampleDB sampleFS 0 "a.txt"
                  (FileAttributes.mk [] [] "home") "" nsHome (preloaded sampleDB fileA) "x"
                  eq_refl eq_refl eq_refl eq_refl eq_refl eq_refl eq_refl eq_refl)
               eq_refl).
Defined.

(** ** From upload to preview *)

(** What is uploaded is what a slug serves: after a raw upload answered
    with success, publishing the new row under a slug no live file holds (the
    store accepting the write) makes the preview of that slug, streamed
    through a download buffer of at least one byte, return exactly the
    uploaded bytes, without content type. *)
Theorem upload_publish_preview k ns md5 scheme user request w r w' s rnd :
  0 < k ->
  UploadRequest.UploadType request = FileUploadType ->
  UploadfileHandler ns md5 scheme user request w = (r, w') ->
  status r = ResponseSuccess ->
  db_faults (w_db w') = [] ->
  slugBound (w_db w') (slugUsed s rnd) = false ->
  exists row,
    In row (db_files (w_db w')) /\ payload r = Some (File.ID row) /\
    PrevievFileHandler k (snd (Publish (w_db w') row s rnd)) (w_fs w') (slugUsed s rnd)
    = PreviewContent None (UploadRequest.Data request).
Proof.
  intros Hk Ht H Hs Hf Hfree.
  destruct (raw_upload_row _ _ _ _ _ _ _ _ Ht H Hs)
    as (row & Hrows & Hpay & Hblob & _ & _ & _ & Hid & Hdel & Hft).
  assert (Hin : In row (db_files (w_db w')))
    by (rewrite Hrows; apply in_or_app; right; left; reflexivity).
  assert (Hlive : live row = true) by (unfold live; rewrite Hdel; reflexivity).
  assert (Hst : isStored (w_db w') row = true).
  { unfold isStored. apply Nat.eqb_neq in Hid. rewrite Hid, Hlive. simpl.
    apply existsb_exists. exists row. split; [exact Hin|].
    unfold isRow. rewrite Hlive, Nat.eqb_refl. reflexivity. }
  exists row. split; [exact Hin|]. split; [exact Hpay|].
  destruct (Publish_slug_holder (w_db w') row s rnd Hst Hf Hfree) as (x & Hh).
  set (f2 := File.setIsPublic (File.setPublicFilename row (Some (slugUsed s rnd))) true) in *.
  destruct (syncKeys_columns f2) as (_ & _ & S3 & _).
  pose proof (syncKeys_LocalName f2) as SL. pose proof (syncKeys_FileType f2) as ST.
  simpl in S3, SL, ST.
  rewrite (preview_of_holder k _ (w_fs w') _ x (syncKeys f2) (UploadRequest.Data request)
             Hk Hh S3).
  - rewrite ST, Hft. reflexivity.
  - rewrite SL. exact Hblob.
Qed.

Lemma upload_publish_preview_witness :
  let result := UploadfileHandler nsHome sampleMD5 sampleScheme alice uploadHi sampleWorld in
  exists row,
    In row (db_files (w_db (snd result))) /\ payload (fst result) = Some (File.ID row) /\
    PrevievFileHandler 1 (snd (Publish (w_db (snd result)) row "hi" "r25")) (w_fs (snd result))
                       "hi"
    = PreviewContent None ["h"%byte; "i"%byte].
Proof.
  refine (upload_publish_preview 1 nsHome sampleMD5 sampleScheme alice uploadHi sampleWorld
            (fst (UploadfileHandler nsHome sampleMD5 sampleScheme alice uploadHi sampleWorld))
            (snd (UploadfileHandler nsHome sampleMD5 sampleScheme alice uploadHi sampleWorld))
            "hi" "r25" (Nat.lt_0_succ 0) eq_refl (surjective_pairing _) _ _ _);
    vm_compute; reflexivity.
Defined.

(** ** Counting and finding disagree *)

Lemma FindFiles_nil_not_found db name namespace user :
  fst (FindFiles db name namespace user) = [] ->
  FindFile db name 0 namespace user = (None, Some ErrRecordNotFound).
Proof.
  unfold FindFiles, FindFile, selectFiles. simpl fst. intros H. apply map_eq_nil in H.
  rewrite (filter_ext _ (fun r => live r && (String.eqb (File.Name r) name
                                             && (File.NamespaceID r =? Namespace.ID namespace)
                                             && (File.UserID r =? User.ID user)))).
  - rewrite H. reflexivity.
  - intros r. simpl. rewrite andb_true_r. reflexivity.
Qed.

(** [GetCount] counts the files of a name in a namespace whoever uploaded
    them, [FindFile] looks among the caller's only: when the one file a
    request without key addresses was uploaded by somebody else, the update
    handler answers "internal server error" (not "File not found") and
    changes nothing. *)
Theorem UpdateFileHandler_foreign_file_is_server_error
    ns user db fs action request namespace :
  FindNamespace ns db (FileAttributes.Namespace (FileUpdateRequest.Attributes request))
  = Some namespace ->
  (Namespace.ID namespace =? 0) = false ->
  negb (IsOwnedBy namespace user) && negb (User.CanWriteForeignNamespace user) = false ->
  IsInStringArray action ["delete"; "update"] = true ->
  FileUpdateRequest.FileID request = 0 ->
  GetCount db (File.setName File.zero (FileUpdateRequest.Name request)) namespace 0 = 1 ->
  fst (FindFiles db (FileUpdateRequest.Name request) namespace user) = [] ->
  UpdateFileHandler ns user db fs (Some action) request = (sendServerError, db, fs).
Proof.
  intros Hn Hid Hp Ha Hk Hc Hnone.
  unfold UpdateFileHandler. rewrite Hn, Hid, Hp, Ha, Hk, Hc. cbn [negb]. cbv iota.
  simpl. rewrite (FindFiles_nil_not_found _ _ _ _ Hnone). reflexivity.
Qed.

Lemma UpdateFileHandler_foreign_file_is_server_error_witness :
  UpdateFileHandler nsHome alice
    (mkDB [File.setUserID fileA 9; fileB] [tagX] [] [nsHome; nsWork] []) sampleFS
    (Some "update") renameAndAddTag
  = (sendServerError, mkDB [File.setUserID fileA 9; fileB] [tagX] [] [nsHome; nsWork] [],
     sampleFS).
Proof.
  exact (UpdateFileHandler_foreign_file_is_server_error nsHome alice
           (mkDB [File.setUserID fileA 9; fileB] [tagX] [] [nsHome; nsWork] []) sampleFS
           "update" renameAndAddTag nsHome eq_refl eq_refl eq_refl eq_refl eq_refl eq_refl
           eq_refl).
Defined.
